(** * Lunar lander simulation: physics, terrain and vehicle state

    A shallow embedding of the core of the lunar-lander simulator
    (Entity.cpp, Terrain.cpp, Physics.cpp, Game.cpp, InputHandler.cpp) and
    the properties of its specification.

    Conventions of the embedding.
    - A C++ [float] is an IEEE-754 binary32 value: [spec_float] with
      precision 24 and maximal exponent 128, every operation rounded to
      nearest-even (module [F32]), each one on its own: no excess
      precision and no fused multiply-add.  The one place where the source
      computes in [double] (the degrees-to-radians factor [M_PI / 180.0f])
      uses the binary64 instance (module [F64]).
    - A C++ [int] is a [Z] within the 32-bit range; [/] and [%] on [int] are
      [Z.quot] and [Z.rem]; a division by zero is undefined behaviour and
      shows as [None].  A sum or difference that can leave the 32-bit range
      for some [int] operands is written with [Int32.add] or [Int32.sub],
      which wrap around as the two's-complement machine operations do; plain
      [Z] arithmetic is used where no [int] operand can take the result out
      of the range.
    - A pointer that may be null is an [option]; dereferencing a null pointer
      is a [Fault].
    - Library code outside the repository (libm's [sin]/[cos], [rand], the
      Bullet rigid-body world) is taken as a parameter; so are the events
      [SDL_PollEvent] delivers in a frame, the keyboard state, and whether
      the renderer initialises.
    - An object owned by a [unique_ptr] that is destroyed and created anew
      is told from its successor; a read through a pointer to the destroyed
      one is undefined behaviour and shows as [Game.Fail Game.UseAfterFree].
    - Console output ([std::cout]) is not part of the state and is left out. *)

From Stdlib Require Import ZArith Bool Lia.
From Stdlib Require Import Floats.SpecFloat.
From stdpp Require Import base list.

Open Scope Z_scope.

(** ** Single-precision arithmetic, as the C++ [float] operators compute it *)

Module F32.
Definition prec : Z := 24.
Definition emax : Z := 128.

Definition float : Type := spec_float.

Definition add : float -> float -> float := SFadd prec emax.
Definition sub : float -> float -> float := SFsub prec emax.
Definition mul : float -> float -> float := SFmul prec emax.
Definition div : float -> float -> float := SFdiv prec emax.
Definition neg : float -> float := SFopp.
Definition abs : float -> float := SFabs.

(** [a < b], [a <= b], [a > b], [a >= b]; all false on a NaN. *)
Definition ltb (a b : float) : bool := SFltb a b.
Definition leb (a b : float) : bool := SFleb a b.
Definition gtb (a b : float) : bool := SFltb b a.
Definition geb (a b : float) : bool := SFleb b a.

(** Conversion of an [int] to [float]. *)
Definition of_int (z : Z) : float := binary_normalize prec emax z 0 false.

(** The literal [n/d] for exactly representable [n] and [d]: the
    correctly rounded quotient is the [float] nearest to the decimal. *)
Definition lit (n d : Z) : float := div (of_int n) (of_int d).

Definition zero : float := S754_zero false.

(** [std::max(a, b)] is [(a < b) ? b : a]; [std::min(a, b)] is
    [(b < a) ? b : a]. *)
Definition max (a b : float) : float := if ltb a b then b else a.
Definition min (a b : float) : float := if ltb b a then b else a.

(** [std::min({a, b, c})] and [std::max({a, b, c})]: a left-to-right scan
    that keeps the first smallest (largest) element. *)
Definition min3 (a b c : float) : float :=
  let s := if ltb b a then b else a in
  if ltb c s then c else s.
Definition max3 (a b c : float) : float :=
  let s := if ltb a b then b else a in
  if ltb s c then c else s.

(** A float that can be the result of a binary32 operation. *)
Definition valid (x : float) : bool := valid_binary prec emax x.

(** The conversion [(int) x]: truncation toward zero.  [None] where C++
    leaves it undefined: a NaN, an infinity, or a value outside the range
    of a 32-bit [int]. *)
Definition to_int (x : float) : option Z :=
  match x with
  | S754_zero _ => Some 0
  | S754_finite s m e =>
      let magnitude :=
        if 0 <=? e then Zpos m * 2 ^ e else Zpos m / 2 ^ (- e) in
      let v := if s then - magnitude else magnitude in
      if (-2147483648 <=? v) && (v <=? 2147483647) then Some v else None
  | S754_infinity _ | S754_nan => None
  end.
End F32.

(** ** Double precision, for the radians conversion factor *)

Module F64.
Definition prec : Z := 53.
Definition emax : Z := 1024.

Definition mul : spec_float -> spec_float -> spec_float := SFmul prec emax.
Definition div : spec_float -> spec_float -> spec_float := SFdiv prec emax.

(** [M_PI], the double nearest to pi: 0x400921FB54442D18. *)
Definition M_PI : spec_float := S754_finite false 7074237752028440 (-51).

(** Promotion of a [float] to [double] is exact. *)
Definition of_f32 (x : F32.float) : spec_float := x.

(** Conversion of a [double] to [float] rounds to nearest-even. *)
Definition to_f32 (x : spec_float) : F32.float :=
  match x with
  | S754_finite s m e => binary_round F32.prec F32.emax s m e
  | _ => x
  end.
End F64.

(** ** 32-bit signed integers *)

Module Int32.
Definition min_signed : Z := -2147483648.
Definition max_signed : Z := 2147483647.

(** The value of an [int]-typed result: the representative of [z] modulo
    2^32 in the signed range. *)
Definition wrap (z : Z) : Z := (z + 2147483648) mod 4294967296 - 2147483648.

Definition add (a b : Z) : Z := wrap (a + b).
Definition sub (a b : Z) : Z := wrap (a - b).

(** [z] is the value of some [int]. *)
Definition in_range (z : Z) : Prop := min_signed <= z <= max_signed.
End Int32.

(** [x * (M_PI / 180.0f)], computed in double and stored in a [float]. *)
Definition deg2rad (x : F32.float) : F32.float :=
  F64.to_f32 (F64.mul (F64.of_f32 x)
                      (F64.div F64.M_PI (F64.of_f32 (F32.of_int 180)))).

(** ** Outcomes of operations that may hit undefined behaviour *)

Inductive fault : Type :=
  | NullDereference
  | DivisionByZero.

Inductive outcome (A : Type) : Type :=
  | Done (a : A)
  | Fault (f : fault).
Arguments Done {A} a.
Arguments Fault {A} f.

(** A [float[3]] array. *)
Record float3 : Type := mkFloat3 { at0 : F32.float; at1 : F32.float; at2 : F32.float }.

(** ** Entity.h, Entity.cpp: [Entity] *)

Module Entity.
(** The identifier and the display name play no part in the simulation
    and are left out. *)
Record t : Type := mk {
  mPosition : float3;
  mRotation : float3;
  mScale : float3;
  mActive : bool
}.

Definition SetPosition (e : t) (x y z : F32.float) : t :=
  {| mPosition := mkFloat3 x y z; mRotation := mRotation e;
     mScale := mScale e; mActive := mActive e |}.

Definition SetRotation (e : t) (x y z : F32.float) : t :=
  {| mPosition := mPosition e; mRotation := mkFloat3 x y z;
     mScale := mScale e; mActive := mActive e |}.

Definition SetActive (e : t) (active : bool) : t :=
  {| mPosition := mPosition e; mRotation := mRotation e;
     mScale := mScale e; mActive := active |}.

(** [Entity::Entity()] *)
Definition init : t :=
  {| mPosition := mkFloat3 F32.zero F32.zero F32.zero;
     mRotation := mkFloat3 F32.zero F32.zero F32.zero;
     mScale := mkFloat3 (F32.of_int 1) (F32.of_int 1) (F32.of_int 1);
     mActive := true |}.
End Entity.

(** ** Entity.h, Entity.cpp: [Lander] *)

Module Lander.
Record t : Type := mk {
  base : Entity.t;
  mWidth : F32.float;
  mHeight : F32.float;
  mDepth : F32.float;
  mMass : F32.float;
  mVelocity : float3;
  mAcceleration : float3;
  mThrustLevel : F32.float;
  mThrustActive : bool;
  mMaxThrustForce : F32.float;
  mFuel : F32.float;
  mMaxFuel : F32.float;
  mFuelConsumptionRate : F32.float;
  mLanded : bool;
  mCrashed : bool
}.

Definition GetPosition (l : t) : float3 := Entity.mPosition (base l).
Definition GetRotation (l : t) : float3 := Entity.mRotation (base l).
Definition GetVelocity (l : t) : float3 := mVelocity l.
Definition GetFuel (l : t) : F32.float := mFuel l.
Definition GetThrustLevel (l : t) : F32.float := mThrustLevel l.
Definition IsThrustActive (l : t) : bool := mThrustActive l.
Definition IsLanded (l : t) : bool := mLanded l.
Definition IsCrashed (l : t) : bool := mCrashed l.
Definition GetMass (l : t) : F32.float := mMass l.
Definition GetWidth (l : t) : F32.float := mWidth l.
Definition GetHeight (l : t) : F32.float := mHeight l.
Definition GetDepth (l : t) : F32.float := mDepth l.

Definition set_base (l : t) (b : Entity.t) : t :=
  mk b (mWidth l) (mHeight l) (mDepth l) (mMass l) (mVelocity l)
     (mAcceleration l) (mThrustLevel l) (mThrustActive l)
     (mMaxThrustForce l) (mFuel l) (mMaxFuel l) (mFuelConsumptionRate l)
     (mLanded l) (mCrashed l).

Definition set_mVelocity (l : t) (v : float3) : t :=
  mk (base l) (mWidth l) (mHeight l) (mDepth l) (mMass l) v
     (mAcceleration l) (mThrustLevel l) (mThrustActive l)
     (mMaxThrustForce l) (mFuel l) (mMaxFuel l) (mFuelConsumptionRate l)
     (mLanded l) (mCrashed l).

Definition set_mAcceleration (l : t) (a : float3) : t :=
  mk (base l) (mWidth l) (mHeight l) (mDepth l) (mMass l) (mVelocity l)
     a (mThrustLevel l) (mThrustActive l)
     (mMaxThrustForce l) (mFuel l) (mMaxFuel l) (mFuelConsumptionRate l)
     (mLanded l) (mCrashed l).

Definition set_mThrustLevel (l : t) (x : F32.float) : t :=
  mk (base l) (mWidth l) (mHeight l) (mDepth l) (mMass l) (mVelocity l)
     (mAcceleration l) x (mThrustActive l)
     (mMaxThrustForce l) (mFuel l) (mMaxFuel l) (mFuelConsumptionRate l)
     (mLanded l) (mCrashed l).

Definition set_mThrustActive (l : t) (b : bool) : t :=
  mk (base l) (mWidth l) (mHeight l) (mDepth l) (mMass l) (mVelocity l)
     (mAcceleration l) (mThrustLevel l) b
     (mMaxThrustForce l) (mFuel l) (mMaxFuel l) (mFuelConsumptionRate l)
     (mLanded l) (mCrashed l).

Definition set_mFuel (l : t) (x : F32.float) : t :=
  mk (base l) (mWidth l) (mHeight l) (mDepth l) (mMass l) (mVelocity l)
     (mAcceleration l) (mThrustLevel l) (mThrustActive l)
     (mMaxThrustForce l) x (mMaxFuel l) (mFuelConsumptionRate l)
     (mLanded l) (mCrashed l).

Definition SetLanded (l : t) (landed : bool) : t :=
  mk (base l) (mWidth l) (mHeight l) (mDepth l) (mMass l) (mVelocity l)
     (mAcceleration l) (mThrustLevel l) (mThrustActive l)
     (mMaxThrustForce l) (mFuel l) (mMaxFuel l) (mFuelConsumptionRate l)
     landed (mCrashed l).

Definition SetCrashed (l : t) (crashed : bool) : t :=
  mk (base l) (mWidth l) (mHeight l) (mDepth l) (mMass l) (mVelocity l)
     (mAcceleration l) (mThrustLevel l) (mThrustActive l)
     (mMaxThrustForce l) (mFuel l) (mMaxFuel l) (mFuelConsumptionRate l)
     (mLanded l) crashed.

(** [SetPosition(x, y, z = 0.0f)] *)
Definition SetPosition (l : t) (x y z : F32.float) : t :=
  set_base l (Entity.SetPosition (base l) x y z).

Definition SetRotation (l : t) (x y z : F32.float) : t :=
  set_base l (Entity.SetRotation (base l) x y z).

(** [Lander::Lander()] *)
Definition init : t :=
  {| base := Entity.init;
     mWidth := F32.of_int 20;
     mHeight := F32.of_int 30;
     mDepth := F32.of_int 20;
     mMass := F32.of_int 1000;
     mVelocity := mkFloat3 F32.zero F32.zero F32.zero;
     mAcceleration := mkFloat3 F32.zero F32.zero F32.zero;
     mThrustLevel := F32.zero;
     mThrustActive := false;
     mMaxThrustForce := F32.of_int 25000;
     mFuel := F32.of_int 1000;
     mMaxFuel := F32.of_int 1000;
     mFuelConsumptionRate := F32.of_int 10;
     mLanded := false;
     mCrashed := false |}.

(** [Lander::Update(float deltaTime)] *)
Definition Update (l : t) (deltaTime : F32.float) : t :=
  if mThrustActive l && F32.gtb (mFuel l) F32.zero then
    let consumptionRate := F32.mul (mFuelConsumptionRate l) (mThrustLevel l) in
    let l1 := set_mFuel l (F32.sub (mFuel l) (F32.mul consumptionRate deltaTime)) in
    let l2 := set_mFuel l1 (F32.max F32.zero (mFuel l1)) in
    if F32.leb (mFuel l2) F32.zero then
      set_mThrustLevel (set_mThrustActive l2 false) F32.zero
    else l2
  else l.

(** [Lander::ApplyThrust(float amount)] *)
Definition ApplyThrust (l : t) (amount : F32.float) : t :=
  if F32.leb (mFuel l) F32.zero then
    set_mThrustLevel (set_mThrustActive l false) F32.zero
  else
    let l1 := set_mThrustLevel l
                (F32.max F32.zero (F32.min (F32.of_int 1) amount)) in
    set_mThrustActive l1 (F32.gtb (mThrustLevel l1) F32.zero).

(** [Lander::Reset()] *)
Definition Reset (l : t) : t :=
  let l1 := SetPosition l F32.zero (F32.of_int 5) F32.zero in
  let l2 := SetRotation l1 F32.zero F32.zero F32.zero in
  let l3 := set_mVelocity l2 (mkFloat3 F32.zero F32.zero F32.zero) in
  let l4 := set_mAcceleration l3 (mkFloat3 F32.zero F32.zero F32.zero) in
  let l5 := set_mThrustActive (set_mThrustLevel l4 F32.zero) false in
  let l6 := set_mFuel l5 (mMaxFuel l5) in
  let l7 := SetCrashed (SetLanded l6 false) false in
  set_base l7 (Entity.SetActive (base l7) true).

(** The loop [while (r >= 360.0f) r -= 360.0f] of [RotateLeft]: [None]
    when it has not stopped after [fuel] tests of its condition. *)
Fixpoint wrap_down (fuel : nat) (r : F32.float) : option F32.float :=
  match fuel with
  | O => None
  | S fuel' =>
      if F32.geb r (F32.of_int 360)
      then wrap_down fuel' (F32.sub r (F32.of_int 360))
      else Some r
  end.

(** The loop [while (r < 0.0f) r += 360.0f] of [RotateRight]. *)
Fixpoint wrap_up (fuel : nat) (r : F32.float) : option F32.float :=
  match fuel with
  | O => None
  | S fuel' =>
      if F32.ltb r F32.zero
      then wrap_up fuel' (F32.add r (F32.of_int 360))
      else Some r
  end.

Definition set_rotationZ (l : t) (r : F32.float) : t :=
  SetRotation l (at0 (GetRotation l)) (at1 (GetRotation l)) r.

(** [Lander::RotateLeft(float amount)] *)
Definition RotateLeft (fuel : nat) (l : t) (amount : F32.float) : option t :=
  option_map (set_rotationZ l)
             (wrap_down fuel (F32.add (at2 (GetRotation l)) amount)).

(** [Lander::RotateRight(float amount)] *)
Definition RotateRight (fuel : nat) (l : t) (amount : F32.float) : option t :=
  option_map (set_rotationZ l)
             (wrap_up fuel (F32.sub (at2 (GetRotation l)) amount)).
End Lander.

(** ** Terrain.h: terrain segments and triangles *)

Module TerrainSegment.
(** Coordinates in screen pixels. *)
Record t : Type := mk {
  x1 : F32.float;
  y1 : F32.float;
  x2 : F32.float;
  y2 : F32.float;
  isLandingPad : bool
}.
End TerrainSegment.

Module TerrainTriangle.
(** [float vertices[9]]: three vertices times (x, y, z), in meters. *)
Record float9 : Type := mkFloat9 {
  v0 : F32.float; v1 : F32.float; v2 : F32.float;
  v3 : F32.float; v4 : F32.float; v5 : F32.float;
  v6 : F32.float; v7 : F32.float; v8 : F32.float
}.

Record t : Type := mk {
  vertices : float9;
  normal : float3;
  isLandingPad : bool
}.
End TerrainTriangle.

(** A C [for (i = start; cond(i); i++) body(i)] loop over a state [S].  The
    first argument bounds the number of iterations. *)
Fixpoint for_up {S : Type} (fuel : nat) (i : Z) (cond : Z -> bool)
    (body : Z -> S -> S) (s : S) : S :=
  match fuel with
  | O => s
  | Datatypes.S fuel' =>
      if cond i then for_up fuel' (i + 1) cond body (body i s) else s
  end.

(** ** Terrain.h, Terrain.cpp: [Terrain] *)

Module Terrain.
Record t : Type := mk {
  base : Entity.t;
  mSegments2D : list TerrainSegment.t;
  mTriangles3D : list TerrainTriangle.t;
  mWidth : Z;
  mHeight : Z;
  mLength : Z;
  mPixelsPerMeter : F32.float
}.

(** [Terrain::Terrain()] *)
Definition init : t :=
  {| base := Entity.init; mSegments2D := []; mTriangles3D := [];
     mWidth := 800; mHeight := 600; mLength := 800;
     mPixelsPerMeter := F32.of_int 20 |}.

Definition segmentCount : Z := 10.

(** The segment pushed in iteration [i] of the first loop of
    [Generate2D]; [r1] and [r2] are the two values [rand()] returns. *)
Definition new_segment (width baseHeight i r1 r2 : Z) : TerrainSegment.t :=
  {| TerrainSegment.x1 := F32.of_int (i * (width ÷ segmentCount));
     TerrainSegment.y1 := F32.of_int (Int32.sub baseHeight (Z.rem r1 20));
     TerrainSegment.x2 := F32.of_int ((i + 1) * (width ÷ segmentCount));
     TerrainSegment.y2 := F32.of_int (Int32.sub baseHeight (Z.rem r2 20));
     TerrainSegment.isLandingPad := false |}.

(** The body of the second loop: segment [i] becomes a flat landing pad. *)
Definition flatten (baseHeight : Z) (s : TerrainSegment.t) : TerrainSegment.t :=
  {| TerrainSegment.x1 := TerrainSegment.x1 s;
     TerrainSegment.y1 := F32.of_int baseHeight;
     TerrainSegment.x2 := TerrainSegment.x2 s;
     TerrainSegment.y2 := F32.of_int baseHeight;
     TerrainSegment.isLandingPad := true |}.

Definition mark_pad (baseHeight : Z) (i : Z) (segs : list TerrainSegment.t)
    : list TerrainSegment.t :=
  if (0 <=? i) && (i <? Z.of_nat (length segs))
  then alter (flatten baseHeight) (Z.to_nat i) segs
  else segs.

(** [Terrain::Generate2D(int width, int height)].  [rnd k] is the value
    of the [k]-th call of [rand()] from here on.  The result is [None]
    when [width / segmentCount] is zero: the segment indices are then
    computed by a division by zero.  The products and sums of the
    x-coordinates and of the pad indices stay within the 32-bit range for
    every [int] width (they are bounded by the width itself); the two
    subtractions of the heights need not. *)
Definition Generate2D (rnd : nat -> Z) (t : t) (width height : Z) : option Terrain.t :=
  let baseHeight := Int32.sub height 50 in
  let segs :=
    for_up 10 0 (fun i => i <? segmentCount)
      (fun i segs =>
         segs ++ [new_segment width baseHeight i
                    (rnd (Z.to_nat (2 * i))) (rnd (Z.to_nat (2 * i + 1)))])
      [] in
  let centerX := width ÷ 2 in
  let landingPadWidth := width ÷ segmentCount * 2 in
  let landingPadStart := centerX - landingPadWidth ÷ 2 in
  if width ÷ segmentCount =? 0 then None
  else
    let startSegment := landingPadStart ÷ (width ÷ segmentCount) in
    let endSegment := (landingPadStart + landingPadWidth) ÷ (width ÷ segmentCount) in
    let segs' :=
      for_up (Z.to_nat (segmentCount - startSegment)) startSegment
        (fun i => (i <=? endSegment) && (i <? segmentCount))
        (mark_pad baseHeight) segs in
    Some {| base := base t; mSegments2D := segs';
            mTriangles3D := mTriangles3D t;
            mWidth := width; mHeight := height; mLength := mLength t;
            mPixelsPerMeter := mPixelsPerMeter t |}.

(** The horizontal span test [screenLanderX >= x1 && screenLanderX <= x2]. *)
Definition in_span (screenLanderX : F32.float) (s : TerrainSegment.t) : bool :=
  F32.geb screenLanderX (TerrainSegment.x1 s)
  && F32.leb screenLanderX (TerrainSegment.x2 s).

(** The terrain height in meters under [screenLanderX] on segment [s]. *)
Definition terrainHeightMeters (t : t) (screenLanderX : F32.float)
    (s : TerrainSegment.t) : F32.float :=
  let segmentPct :=
    F32.div (F32.sub screenLanderX (TerrainSegment.x1 s))
            (F32.sub (TerrainSegment.x2 s) (TerrainSegment.x1 s)) in
  let segmentY :=
    F32.add (TerrainSegment.y1 s)
            (F32.mul segmentPct
               (F32.sub (TerrainSegment.y2 s) (TerrainSegment.y1 s))) in
  F32.div (F32.sub (F32.of_int (mHeight t)) segmentY) (mPixelsPerMeter t).

(** The loop of [CheckCollision2D]: the height of the first segment that
    is under the lander and not below its bottom. *)
Fixpoint scan_collision2D (t : t) (screenLanderX landerBottomY : F32.float)
    (segs : list TerrainSegment.t) : option F32.float :=
  match segs with
  | [] => None
  | segment :: rest =>
      if in_span screenLanderX segment then
        let h := terrainHeightMeters t screenLanderX segment in
        if F32.leb landerBottomY h then Some h
        else scan_collision2D t screenLanderX landerBottomY rest
      else scan_collision2D t screenLanderX landerBottomY rest
  end.

Definition landerBottomY (t : t) (l : Lander.t) : F32.float :=
  let landerHeight := F32.div (Lander.GetHeight l) (mPixelsPerMeter t) in
  F32.sub (at1 (Lander.GetPosition l)) (F32.div landerHeight (F32.of_int 2)).

Definition screenLanderX (t : t) (l : Lander.t) : F32.float :=
  F32.mul (at0 (Lander.GetPosition l)) (mPixelsPerMeter t).

(** [Terrain::CheckCollision2D(Lander* lander, float& collisionHeight)]:
    the returned boolean and the final value of [collisionHeight]. *)
Definition CheckCollision2D (t : t) (lander : option Lander.t)
    (collisionHeight : F32.float) : bool * F32.float :=
  match lander with
  | None => (false, collisionHeight)
  | Some l =>
      match scan_collision2D t (screenLanderX t l) (landerBottomY t l)
              (mSegments2D t) with
      | Some h => (true, h)
      | None => (false, collisionHeight)
      end
  end.

Definition safeVertical (l : Lander.t) : bool :=
  F32.leb (F32.abs (at1 (Lander.GetVelocity l))) (F32.of_int 2).
Definition safeHorizontal (l : Lander.t) : bool :=
  F32.leb (F32.abs (at0 (Lander.GetVelocity l))) (F32.of_int 1).

(** The loop of [IsValidLanding2D]. *)
Fixpoint scan_landing2D (l : Lander.t) (screenLanderX : F32.float)
    (segs : list TerrainSegment.t) : bool :=
  match segs with
  | [] => false
  | segment :: rest =>
      if TerrainSegment.isLandingPad segment && in_span screenLanderX segment then
        if safeVertical l && safeHorizontal l then true
        else scan_landing2D l screenLanderX rest
      else scan_landing2D l screenLanderX rest
  end.

(** [Terrain::IsValidLanding2D(Lander* lander)] *)
Definition IsValidLanding2D (t : t) (lander : option Lander.t) : bool :=
  match lander with
  | None => false
  | Some l => scan_landing2D l (screenLanderX t l) (mSegments2D t)
  end.

(** The bounding-box test of the 3D functions on the (x, z) plane. *)
Definition in_bounds (landerX landerZ : F32.float) (tri : TerrainTriangle.t) : bool :=
  let v := TerrainTriangle.vertices tri in
  let x1 := TerrainTriangle.v0 v in let z1 := TerrainTriangle.v2 v in
  let x2 := TerrainTriangle.v3 v in let z2 := TerrainTriangle.v5 v in
  let x3 := TerrainTriangle.v6 v in let z3 := TerrainTriangle.v8 v in
  F32.geb landerX (F32.min3 x1 x2 x3)
  && F32.leb landerX (F32.max3 x1 x2 x3)
  && F32.geb landerZ (F32.min3 z1 z2 z3)
  && F32.leb landerZ (F32.max3 z1 z2 z3).

Definition avgHeight (tri : TerrainTriangle.t) : F32.float :=
  let v := TerrainTriangle.vertices tri in
  F32.div (F32.add (F32.add (TerrainTriangle.v1 v) (TerrainTriangle.v4 v))
                   (TerrainTriangle.v7 v))
          (F32.of_int 3).

Fixpoint scan_collision3D (l : Lander.t) (tris : list TerrainTriangle.t)
    : option F32.float :=
  match tris with
  | [] => None
  | triangle :: rest =>
      let pos := Lander.GetPosition l in
      if in_bounds (at0 pos) (at2 pos) triangle then
        if F32.geb (F32.add (at1 pos)
                      (F32.div (Lander.GetHeight l) (F32.of_int 2)))
                   (avgHeight triangle)
        then Some (avgHeight triangle)
        else scan_collision3D l rest
      else scan_collision3D l rest
  end.

(** [Terrain::CheckCollision3D(Lander* lander, float& collisionHeight)]:
    the lander is dereferenced without a null check. *)
Definition CheckCollision3D (t : t) (lander : option Lander.t)
    (collisionHeight : F32.float) : outcome (bool * F32.float) :=
  match lander with
  | None => Fault NullDereference
  | Some l =>
      match scan_collision3D l (mTriangles3D t) with
      | Some h => Done (true, h)
      | None => Done (false, collisionHeight)
      end
  end.

Definition safeVelocity3D (l : Lander.t) : bool :=
  let vel := Lander.GetVelocity l in
  F32.leb (F32.abs (at0 vel)) (F32.of_int 2)
  && F32.geb (at1 vel) F32.zero && F32.leb (at1 vel) (F32.of_int 2)
  && F32.leb (F32.abs (at2 vel)) (F32.of_int 2).

Fixpoint scan_landing3D (l : Lander.t) (tris : list TerrainTriangle.t) : bool :=
  match tris with
  | [] => false
  | triangle :: rest =>
      if negb (TerrainTriangle.isLandingPad triangle) then scan_landing3D l rest
      else
        let pos := Lander.GetPosition l in
        if in_bounds (at0 pos) (at2 pos) triangle then
          if safeVelocity3D l then true else scan_landing3D l rest
        else scan_landing3D l rest
  end.

(** [Terrain::IsValidLanding3D(Lander* lander)]: no null check either. *)
Definition IsValidLanding3D (t : t) (lander : option Lander.t) : outcome bool :=
  match lander with
  | None => Fault NullDereference
  | Some l => Done (scan_landing3D l (mTriangles3D t))
  end.

(** [Terrain::CreateLandingPad2D(int startX, int width)]: every segment
    that lies within [startX, startX + width] becomes a flat landing pad. *)
Definition CreateLandingPad2D (t : t) (startX width : Z) : Terrain.t :=
  {| base := base t;
     mSegments2D :=
       map (fun segment =>
              if F32.geb (TerrainSegment.x1 segment) (F32.of_int startX)
                 && F32.leb (TerrainSegment.x2 segment)
                            (F32.of_int (Int32.add startX width))
              then flatten (Int32.sub (mHeight t) 50) segment
              else segment)
           (mSegments2D t);
     mTriangles3D := mTriangles3D t;
     mWidth := mWidth t; mHeight := mHeight t; mLength := mLength t;
     mPixelsPerMeter := mPixelsPerMeter t |}.

Definition gridSize : Z := 20.

(** The centre test of [Generate3D]:
    [x > gridSize / 3 && x < 2 * gridSize / 3 && z > gridSize / 3 &&
     z < 2 * gridSize / 3]. *)
Definition in_centre (x z : Z) : bool :=
  (x >? gridSize ÷ 3) && (x <? 2 * gridSize ÷ 3)
  && (z >? gridSize ÷ 3) && (z <? 2 * gridSize ÷ 3).

(** The body of the heightmap loops of [Generate3D] at the vertex
    ([x], [z]).  The state is the heightmap and the number of calls of
    [rand()] made so far; [rnd k] is the value of the [k]-th call. *)
Definition set_height (rnd : nat -> Z) (mHeight : Z) (z x : Z)
    (st : list F32.float * nat) : list F32.float * nat :=
  let height := F32.of_int (Int32.sub mHeight 50) in
  let hc :=
    if negb (in_centre x z)
    then (F32.add height (F32.of_int (Z.rem (rnd (snd st)) 20 - 10)), S (snd st))
    else (height, snd st) in
  (<[Z.to_nat (z * (gridSize + 1) + x) := fst hc]> (fst st), snd hc).

(** The two triangles [Generate3D] pushes for the grid cell ([x], [z]).
    The heightmap is read at indices below its size, 441. *)
Definition cell_triangles (heightData : list F32.float)
    (cellWidth cellLength : F32.float) (z x : Z) : list TerrainTriangle.t :=
  let h i := nth (Z.to_nat i) heightData F32.zero in
  let h1 := h (z * (gridSize + 1) + x) in
  let h2 := h (z * (gridSize + 1) + x + 1) in
  let h3 := h ((z + 1) * (gridSize + 1) + x) in
  let h4 := h ((z + 1) * (gridSize + 1) + x + 1) in
  let up := mkFloat3 F32.zero (F32.of_int 1) F32.zero in
  let pad := in_centre x z in
  [ TerrainTriangle.mk
      (TerrainTriangle.mkFloat9
         (F32.mul (F32.of_int x) cellWidth) h1 (F32.mul (F32.of_int z) cellLength)
         (F32.mul (F32.of_int (x + 1)) cellWidth) h2 (F32.mul (F32.of_int z) cellLength)
         (F32.mul (F32.of_int x) cellWidth) h3 (F32.mul (F32.of_int (z + 1)) cellLength))
      up pad;
    TerrainTriangle.mk
      (TerrainTriangle.mkFloat9
         (F32.mul (F32.of_int x) cellWidth) h3 (F32.mul (F32.of_int (z + 1)) cellLength)
         (F32.mul (F32.of_int (x + 1)) cellWidth) h2 (F32.mul (F32.of_int z) cellLength)
         (F32.mul (F32.of_int (x + 1)) cellWidth) h4 (F32.mul (F32.of_int (z + 1)) cellLength))
      up pad ].

(** The first pair of loops of [Generate3D]: the heightmap, resized to
    441 entries, is filled row by row. *)
Definition fill_heights (rnd : nat -> Z) (mHeight : Z) (heightData : list F32.float)
    : list F32.float * nat :=
  for_up 21 0 (fun z => z <=? gridSize)
    (fun z st =>
       for_up 21 0 (fun x => x <=? gridSize) (set_height rnd mHeight z) st)
    (resize (Z.to_nat ((gridSize + 1) * (gridSize + 1))) F32.zero heightData, O).

(** The second pair of loops: two triangles for each of the 400 cells. *)
Definition make_triangles (heightData : list F32.float)
    (cellWidth cellLength : F32.float) : list TerrainTriangle.t :=
  for_up 20 0 (fun z => z <? gridSize)
    (fun z tris =>
       for_up 20 0 (fun x => x <? gridSize)
         (fun x tris => tris ++ cell_triangles heightData cellWidth cellLength z x)
         tris)
    [].

(** [Terrain::Generate3D(int width, int length, int height)].
    [heightData] is the content of the member [mHeightData] before the
    call; the result is the terrain, the new heightmap and the number of
    calls of [rand()]. *)
Definition Generate3D (rnd : nat -> Z) (t : t) (heightData : list F32.float)
    (width length height : Z) : Terrain.t * list F32.float * nat :=
  let cellWidth := F32.div (F32.of_int width) (F32.of_int gridSize) in
  let cellLength := F32.div (F32.of_int length) (F32.of_int gridSize) in
  let filled := fill_heights rnd height heightData in
  ({| base := base t; mSegments2D := mSegments2D t;
      mTriangles3D := make_triangles (fst filled) cellWidth cellLength;
      mWidth := width; mHeight := height; mLength := length;
      mPixelsPerMeter := mPixelsPerMeter t |},
   fst filled, snd filled).

(** [Terrain::LoadHeightmap(const char* filename)]: the file is not
    read. *)
Definition LoadHeightmap (rnd : nat -> Z) (t : t) (heightData : list F32.float)
    : Terrain.t * list F32.float * nat :=
  Generate3D rnd t heightData (mWidth t) (mLength t) (mHeight t).
End Terrain.

(** ** Physics.h, Physics.cpp: [Physics] *)

Module Physics.
(** The Bullet rigid body of the lander, seen through the one call the
    modelled code makes on it: the list of the central forces applied so
    far, latest first. *)
Definition btRigidBody : Type := list float3.

Definition applyCentralForce (body : btRigidBody) (force : float3) : btRigidBody :=
  force :: body.

(** [mLander] and [mTerrain] are the objects the two pointers refer to,
    [None] for a null pointer. *)
Record t : Type := mk {
  mGravity : F32.float;
  mAirDensity : F32.float;
  mTimeScale : F32.float;
  mPixelsPerMeter : F32.float;
  m3DMode : bool;
  mLander : option Lander.t;
  mTerrain : option Terrain.t;
  mLanderRigidBody : option btRigidBody
}.

(** [Physics::Physics()] *)
Definition init : t :=
  {| mGravity := F32.lit 162 100;
     mAirDensity := F32.zero;
     mTimeScale := F32.of_int 1;
     mPixelsPerMeter := F32.of_int 20;
     m3DMode := false;
     mLander := None;
     mTerrain := None;
     mLanderRigidBody := None |}.

Definition set_mLander (p : t) (l : option Lander.t) : t :=
  mk (mGravity p) (mAirDensity p) (mTimeScale p) (mPixelsPerMeter p)
     (m3DMode p) l (mTerrain p) (mLanderRigidBody p).

Definition set_mLanderRigidBody (p : t) (b : option btRigidBody) : t :=
  mk (mGravity p) (mAirDensity p) (mTimeScale p) (mPixelsPerMeter p)
     (m3DMode p) (mLander p) (mTerrain p) b.

Section External.
(** [sin] and [cos] of the C library, as stored in a [float]. *)
Variable sinf cosf : F32.float -> F32.float.
(** The image of the up vector (0, 1, 0) under Bullet's rotation with
    Euler angles [rotZ], [rotY], [rotX] ([setEulerZYX]). *)
Variable btRotateUp : F32.float -> F32.float -> F32.float -> float3.
(** The 3D branch of [Update]: stepping the Bullet worlds, copying the
    rigid body's state to the lander and scanning the contacts. *)
Variable stepBullet : t -> F32.float -> t.

(** [Physics::CheckCollisions2D()]: the returned boolean and the new
    state. *)
Definition CheckCollisions2D (p : t) : bool * t :=
  match mLander p, mTerrain p with
  | Some l, Some terrain =>
      if Lander.IsLanded l || Lander.IsCrashed l then (false, p)
      else
        match Terrain.CheckCollision2D terrain (Some l) F32.zero with
        | (true, collisionHeight) =>
            let position := Lander.GetPosition l in
            let landerHeight := F32.div (Lander.GetHeight l) (mPixelsPerMeter p) in
            let l1 :=
              Lander.SetPosition l (at0 position)
                (F32.add collisionHeight (F32.div landerHeight (F32.of_int 2)))
                F32.zero in
            if Terrain.IsValidLanding2D terrain (Some l1) then
              let l2 := Lander.SetLanded l1 true in
              let l3 :=
                Lander.set_mVelocity l2
                  (mkFloat3 F32.zero F32.zero (at2 (Lander.GetVelocity l2))) in
              (true, set_mLander p (Some l3))
            else
              let l2 := Lander.SetCrashed l1 true in
              let l3 :=
                Lander.set_mVelocity l2
                  (mkFloat3 F32.zero F32.zero (at2 (Lander.GetVelocity l2))) in
              (true, set_mLander p (Some l3))
        | (false, _) => (false, p)
        end
  | _, _ => (false, p)
  end.

(** The velocity and position update of [Update2D] for a lander in
    flight, with the step [scaledDeltaTime]. *)
Definition integrate2D (p : t) (l : Lander.t) (scaledDeltaTime : F32.float)
    : Lander.t :=
  let velocity := Lander.GetVelocity l in
  let l1 :=
    Lander.set_mVelocity l
      (mkFloat3 (at0 velocity)
         (F32.sub (at1 velocity) (F32.mul (mGravity p) scaledDeltaTime))
         (at2 velocity)) in
  let l2 :=
    if Lander.IsThrustActive l1 then
      let rotation := Lander.GetRotation l1 in
      let rotZ := deg2rad (at2 rotation) in
      let thrustX := F32.neg (sinf rotZ) in
      let thrustY := cosf rotZ in
      let maxThrust :=
        F32.mul (F32.mul (Lander.GetMass l1) (F32.lit 5 2)) (mGravity p) in
      let thrustAccel :=
        F32.div (F32.mul maxThrust (Lander.GetThrustLevel l1))
                (Lander.GetMass l1) in
      let v := Lander.GetVelocity l1 in
      Lander.set_mVelocity l1
        (mkFloat3
           (F32.add (at0 v) (F32.mul (F32.mul thrustX thrustAccel) scaledDeltaTime))
           (F32.add (at1 v) (F32.mul (F32.mul thrustY thrustAccel) scaledDeltaTime))
           (at2 v))
    else l1 in
  let position := Lander.GetPosition l2 in
  let v := Lander.GetVelocity l2 in
  let newX := F32.add (at0 position) (F32.mul (at0 v) scaledDeltaTime) in
  let newY := F32.add (at1 position) (F32.mul (at1 v) scaledDeltaTime) in
  Lander.SetPosition l2 newX newY F32.zero.

(** [Physics::Update2D(float deltaTime)] *)
Definition Update2D (p : t) (deltaTime : F32.float) : t :=
  match mLander p, mTerrain p with
  | Some l, Some _ =>
      let scaledDeltaTime := F32.mul deltaTime (mTimeScale p) in
      let p1 :=
        if negb (Lander.IsLanded l) && negb (Lander.IsCrashed l)
        then set_mLander p (Some (integrate2D p l scaledDeltaTime))
        else p in
      snd (CheckCollisions2D p1)
  | _, _ => p
  end.

(** [Physics::Update(float deltaTime)] *)
Definition Update (p : t) (deltaTime : F32.float) : t :=
  let scaledDeltaTime := F32.mul deltaTime (mTimeScale p) in
  if m3DMode p then stepBullet p scaledDeltaTime
  else Update2D p scaledDeltaTime.

Definition scale3 (v : float3) (k : F32.float) : float3 :=
  mkFloat3 (F32.mul (at0 v) k) (F32.mul (at1 v) k) (F32.mul (at2 v) k).

(** [Physics::ApplyThrust(Lander* lander, float deltaTime)]: the new
    state of the engine and of the lander it was given. *)
Definition ApplyThrust (p : t) (lander : option Lander.t) (deltaTime : F32.float)
    : t * option Lander.t :=
  match lander, mLanderRigidBody p with
  | Some l, Some body =>
      if negb (Lander.IsThrustActive l) then (p, lander)
      else
        let maxThrust :=
          F32.mul (F32.mul (Lander.GetMass l) (F32.lit 5 2)) (mGravity p) in
        let thrustForce := F32.mul maxThrust (Lander.GetThrustLevel l) in
        let rotation := Lander.GetRotation l in
        let thrustDirection :=
          if m3DMode p then
            btRotateUp (deg2rad (at2 rotation)) (deg2rad (at1 rotation))
                       (deg2rad (at0 rotation))
          else
            let rotZ := deg2rad (at2 rotation) in
            mkFloat3 (sinf rotZ) (cosf rotZ) F32.zero in
        let thrustVector := scale3 thrustDirection thrustForce in
        let p1 := set_mLanderRigidBody p (Some (applyCentralForce body thrustVector)) in
        let fuelConsumptionRate := F32.of_int 10 in
        let fuelUsed :=
          F32.mul (F32.mul fuelConsumptionRate (Lander.GetThrustLevel l)) deltaTime in
        let currentFuel := Lander.GetFuel l in
        let newFuel := F32.max F32.zero (F32.sub currentFuel fuelUsed) in
        if F32.gtb currentFuel F32.zero && F32.leb newFuel F32.zero
        then (p1, Some (Lander.ApplyThrust l F32.zero))
        else (p1, lander)
  | _, _ => (p, lander)
  end.

(** The Bullet side of the engine, reached in 3D mode only:
    [InitializeBulletPhysics], the creation of the rigid bodies of the
    lander and of the terrain (which the code guards with a test for the
    dynamics world), and [CheckCollisions3D]. *)
Variable InitializeBulletPhysics : t -> t.
Variable CreateLanderRigidBody : t -> t.
Variable CreateTerrainRigidBodies : t -> t.
Variable CheckCollisions3D : t -> bool * t.

(** [Physics::Initialize()] *)
Definition Initialize (p : t) : t :=
  if m3DMode p then InitializeBulletPhysics p else p.

(** [Physics::RegisterLander(Lander* lander)] *)
Definition RegisterLander (p : t) (lander : option Lander.t) : t :=
  let p1 := set_mLander p lander in
  if m3DMode p1 then CreateLanderRigidBody p1 else p1.

(** [Physics::RegisterTerrain(Terrain* terrain)] *)
Definition RegisterTerrain (p : t) (terrain : option Terrain.t) : t :=
  let p1 :=
    mk (mGravity p) (mAirDensity p) (mTimeScale p) (mPixelsPerMeter p)
       (m3DMode p) (mLander p) terrain (mLanderRigidBody p) in
  if m3DMode p1 then CreateTerrainRigidBodies p1 else p1.

(** [Physics::SetGravity(float gravity)]; the gravity of the Bullet
    worlds is not part of the state. *)
Definition SetGravity (p : t) (gravity : F32.float) : t :=
  mk gravity (mAirDensity p) (mTimeScale p) (mPixelsPerMeter p)
     (m3DMode p) (mLander p) (mTerrain p) (mLanderRigidBody p).

(** [Physics::CheckCollisions()] *)
Definition CheckCollisions (p : t) : bool * t :=
  if m3DMode p then CheckCollisions3D p else CheckCollisions2D p.
End External.
End Physics.

(** ** Game.h, Game.cpp, InputHandler.cpp: [Game] and its input handler *)

Module Game.
Inductive GameState : Type := READY | FLYING | LANDED | CRASHED.
Inductive Difficulty : Type := EASY | NORMAL | HARD.

(** What the input handler reports about the keyboard: [IsThrustActive],
    [IsRotateLeftActive], [IsRotateRightActive], [IsStartActive],
    [IsResetActive] and [IsQuitActive]. *)
Record keys : Type := mkKeys {
  thrust : bool;
  rotateLeft : bool;
  rotateRight : bool;
  start : bool;
  reset : bool;
  quit : bool
}.

(** The key codes [Game::OnKeyDown] tells apart and the SDL events
    [InputHandler::ProcessInput] tells apart. *)
Inductive keycode : Type :=
  | SDLK_r
  | SDLK_ESCAPE
  | SDLK_1
  | SDLK_2
  | SDLK_3
  | SDLK_TAB
  | SDLK_other.

Inductive event : Type :=
  | SDL_QUIT
  | SDL_KEYDOWN (sym : keycode)
  | SDL_KEYUP (sym : keycode)
  | SDL_other.

(** The lander, the terrain, the engine and the input handler are created
    together by [Initialize] and destroyed together by [Shutdown].
    [mPhysics] is [None] while the pointers [mLander], [mTerrain] and
    [mPhysics] are null; otherwise it holds the engine, and the engine
    record holds the game's lander and terrain in its fields [mLander] and
    [mTerrain].  [mRegistered] says whether the engine's own pointers to the
    two are set: [Initialize] registers them only once the renderer has
    initialised.  [mInputHandler] is the input handler, named by the number
    of handlers created before it, which [handlersMade] counts: a handler
    that was destroyed and replaced is told from its successor.
    [mHeightData] is the heightmap the terrain keeps; [randCalls] counts the
    calls of [rand()] so far.  The renderer and the clock are left out. *)
Record t : Type := mk {
  mGameState : GameState;
  mDifficulty : Difficulty;
  m3DMode : bool;
  mScore : F32.float;
  mElapsedTime : F32.float;
  mFuelUsed : F32.float;
  mWindowWidth : Z;
  mWindowHeight : Z;
  mPixelsPerMeter : F32.float;
  mIsRunning : bool;
  mPhysics : option Physics.t;
  mHeightData : list F32.float;
  randCalls : nat;
  mRegistered : bool;
  mInputHandler : option nat;
  handlersMade : nat
}.

(** Why a call has no result. *)
Inductive failure : Type :=
  | NullPointer
  | ZeroDivisor
  | FloatOutOfInt
  | LoopRunning
  | UseAfterFree.

Inductive result (A : Type) : Type :=
  | Ok (a : A)
  | Fail (f : failure).
Arguments Ok {A} a.
Arguments Fail {A} f.

Definition bind {A B : Type} (r : result A) (f : A -> result B) : result B :=
  match r with
  | Ok a => f a
  | Fail e => Fail e
  end.

Definition of_option {A : Type} (f : failure) (o : option A) : result A :=
  match o with
  | Some a => Ok a
  | None => Fail f
  end.

(** [Game::Game()] *)
Definition init : t :=
  {| mGameState := READY; mDifficulty := NORMAL; m3DMode := false;
     mScore := F32.zero; mElapsedTime := F32.zero; mFuelUsed := F32.zero;
     mWindowWidth := 800; mWindowHeight := 600;
     mPixelsPerMeter := F32.of_int 20; mIsRunning := false;
     mPhysics := None; mHeightData := []; randCalls := O;
     mRegistered := false; mInputHandler := None; handlersMade := O |}.

Definition set_mGameState (g : t) (state : GameState) : t :=
  mk state (mDifficulty g) (m3DMode g) (mScore g) (mElapsedTime g) (mFuelUsed g)
     (mWindowWidth g) (mWindowHeight g) (mPixelsPerMeter g) (mIsRunning g)
     (mPhysics g) (mHeightData g) (randCalls g)
     (mRegistered g) (mInputHandler g) (handlersMade g).

Definition set_mDifficulty (g : t) (difficulty : Difficulty) : t :=
  mk (mGameState g) difficulty (m3DMode g) (mScore g) (mElapsedTime g) (mFuelUsed g)
     (mWindowWidth g) (mWindowHeight g) (mPixelsPerMeter g) (mIsRunning g)
     (mPhysics g) (mHeightData g) (randCalls g)
     (mRegistered g) (mInputHandler g) (handlersMade g).

Definition set_m3DMode (g : t) (use3D : bool) : t :=
  mk (mGameState g) (mDifficulty g) use3D (mScore g) (mElapsedTime g) (mFuelUsed g)
     (mWindowWidth g) (mWindowHeight g) (mPixelsPerMeter g) (mIsRunning g)
     (mPhysics g) (mHeightData g) (randCalls g)
     (mRegistered g) (mInputHandler g) (handlersMade g).

Definition set_mScore (g : t) (score : F32.float) : t :=
  mk (mGameState g) (mDifficulty g) (m3DMode g) score (mElapsedTime g) (mFuelUsed g)
     (mWindowWidth g) (mWindowHeight g) (mPixelsPerMeter g) (mIsRunning g)
     (mPhysics g) (mHeightData g) (randCalls g)
     (mRegistered g) (mInputHandler g) (handlersMade g).

Definition set_mElapsedTime (g : t) (time : F32.float) : t :=
  mk (mGameState g) (mDifficulty g) (m3DMode g) (mScore g) time (mFuelUsed g)
     (mWindowWidth g) (mWindowHeight g) (mPixelsPerMeter g) (mIsRunning g)
     (mPhysics g) (mHeightData g) (randCalls g)
     (mRegistered g) (mInputHandler g) (handlersMade g).

Definition set_mFuelUsed (g : t) (fuel : F32.float) : t :=
  mk (mGameState g) (mDifficulty g) (m3DMode g) (mScore g) (mElapsedTime g) fuel
     (mWindowWidth g) (mWindowHeight g) (mPixelsPerMeter g) (mIsRunning g)
     (mPhysics g) (mHeightData g) (randCalls g)
     (mRegistered g) (mInputHandler g) (handlersMade g).

Definition set_mIsRunning (g : t) (running : bool) : t :=
  mk (mGameState g) (mDifficulty g) (m3DMode g) (mScore g) (mElapsedTime g) (mFuelUsed g)
     (mWindowWidth g) (mWindowHeight g) (mPixelsPerMeter g) running
     (mPhysics g) (mHeightData g) (randCalls g)
     (mRegistered g) (mInputHandler g) (handlersMade g).

Definition set_mPhysics (g : t) (p : option Physics.t) : t :=
  mk (mGameState g) (mDifficulty g) (m3DMode g) (mScore g) (mElapsedTime g) (mFuelUsed g)
     (mWindowWidth g) (mWindowHeight g) (mPixelsPerMeter g) (mIsRunning g)
     p (mHeightData g) (randCalls g)
     (mRegistered g) (mInputHandler g) (handlersMade g).

Definition set_terrain (g : t) (p : Physics.t) (terrain : Terrain.t)
    (heightData : list F32.float) (calls : nat) : t :=
  mk (mGameState g) (mDifficulty g) (m3DMode g) (mScore g) (mElapsedTime g) (mFuelUsed g)
     (mWindowWidth g) (mWindowHeight g) (mPixelsPerMeter g) (mIsRunning g)
     (Some (Physics.mk (Physics.mGravity p) (Physics.mAirDensity p)
              (Physics.mTimeScale p) (Physics.mPixelsPerMeter p) (Physics.m3DMode p)
              (Physics.mLander p) (Some terrain) (Physics.mLanderRigidBody p)))
     heightData calls
     (mRegistered g) (mInputHandler g) (handlersMade g).

(** The game's pointer [mLander]. *)
Definition GetLander (g : t) : option Lander.t :=
  match mPhysics g with
  | Some p => Physics.mLander p
  | None => None
  end.

(** An operation on the lander object, through the game's pointer to
    it. *)
Definition on_lander (f : Lander.t -> Lander.t) (g : t) : t :=
  match mPhysics g with
  | Some p => set_mPhysics g (Some (Physics.set_mLander p (option_map f (Physics.mLander p))))
  | None => g
  end.

(** The engine as its own pointers show it: without a lander and a
    terrain as long as none is registered. *)
Definition engine_view (g : t) (p : Physics.t) : Physics.t :=
  if mRegistered g then p
  else Physics.mk (Physics.mGravity p) (Physics.mAirDensity p) (Physics.mTimeScale p)
         (Physics.mPixelsPerMeter p) (Physics.m3DMode p) None None
         (Physics.mLanderRigidBody p).

(** The engine record after a call that made [p'] of [engine_view g p]:
    objects the engine has no pointer to are as they were. *)
Definition engine_result (g : t) (p p' : Physics.t) : Physics.t :=
  if mRegistered g then p'
  else Physics.mk (Physics.mGravity p') (Physics.mAirDensity p') (Physics.mTimeScale p')
         (Physics.mPixelsPerMeter p') (Physics.m3DMode p')
         (Physics.mLander p) (Physics.mTerrain p) (Physics.mLanderRigidBody p').

Section External.
Variable sinf cosf : F32.float -> F32.float.
Variable stepBullet : Physics.t -> F32.float -> Physics.t.
Variable InitializeBulletPhysics : Physics.t -> Physics.t.
Variable CreateLanderRigidBody : Physics.t -> Physics.t.
Variable CreateTerrainRigidBodies : Physics.t -> Physics.t.
(** [rand k] is the value of the [k]-th call of [rand()] of the run. *)
Variable rand : nat -> Z.

(** The part of [Game::Reset] that regenerates the terrain. *)
Definition regenerate (g : t) : result t :=
  match mPhysics g with
  | Some p =>
      match Physics.mTerrain p with
      | Some terrain =>
          if m3DMode g then
            let terrainWidth := F32.div (F32.of_int (mWindowWidth g)) (mPixelsPerMeter g) in
            let terrainLength := F32.div (F32.of_int (mWindowWidth g)) (mPixelsPerMeter g) in
            let terrainHeight := F32.div (F32.of_int (mWindowHeight g)) (mPixelsPerMeter g) in
            bind (of_option FloatOutOfInt (F32.to_int terrainWidth)) (fun width =>
            bind (of_option FloatOutOfInt (F32.to_int terrainLength)) (fun length =>
            bind (of_option FloatOutOfInt (F32.to_int terrainHeight)) (fun height =>
              let '(terrain', heightData, calls) :=
                Terrain.Generate3D (fun k => rand (randCalls g + k)) terrain
                  (mHeightData g) width length height in
              Ok (set_terrain g p terrain' heightData (randCalls g + calls)))))
          else
            bind (of_option ZeroDivisor
                    (Terrain.Generate2D (fun k => rand (randCalls g + k)) terrain
                       (mWindowWidth g) (mWindowHeight g)))
                 (fun terrain' =>
                    Ok (set_terrain g p terrain' (mHeightData g)
                          (randCalls g + Z.to_nat (2 * Terrain.segmentCount))))
      | None => Ok g
      end
  | None => Ok g
  end.

(** What [Game::Reset] does to the lander. *)
Definition reset_lander (g : t) (l : Lander.t) : Lander.t :=
  let l1 := Lander.Reset l in
  let centerX :=
    F32.div (F32.of_int (mWindowWidth g)) (F32.mul (F32.of_int 2) (mPixelsPerMeter g)) in
  let startHeight := F32.of_int 20 in
  let l2 :=
    if m3DMode g then
      let centerZ :=
        F32.div (F32.of_int (mWindowWidth g)) (F32.mul (F32.of_int 2) (mPixelsPerMeter g)) in
      Lander.SetPosition l1 centerX startHeight centerZ
    else Lander.SetPosition l1 centerX startHeight F32.zero in
  let velocity := Lander.GetVelocity l2 in
  Lander.set_mVelocity l2
    (mkFloat3 F32.zero F32.zero (if m3DMode g then F32.zero else at2 velocity)).

(** [Game::Reset()] *)
Definition Reset (g : t) : result t :=
  let g1 := set_mGameState g FLYING in
  let g2 := set_mFuelUsed (set_mElapsedTime (set_mScore g1 F32.zero) F32.zero) F32.zero in
  regenerate (on_lander (reset_lander g2) g2).

(** [Game::SetDifficulty(Difficulty difficulty)] *)
Definition SetDifficulty (g : t) (difficulty : Difficulty) : result t :=
  let g1 := set_mDifficulty g difficulty in
  match mPhysics g1 with
  | None => Fail NullPointer
  | Some p =>
      let gravity :=
        match mDifficulty g1 with
        | EASY => F32.of_int 1
        | NORMAL => F32.lit 162 100
        | HARD => F32.of_int 2
        end in
      Reset (set_mPhysics g1 (Some (Physics.SetGravity p gravity)))
  end.

(** [Game::Initialize()]; [rendererOk] is what the renderer's
    [Initialize] returns, and it is what this function returns.  The
    lander, the terrain, the engine and the input handler are new objects;
    when the renderer fails, the function returns before it registers the
    lander and the terrain with the engine. *)
Definition Initialize (rendererOk : bool) (g : t) : result t :=
  let created :=
    Physics.mk (Physics.mGravity Physics.init) (Physics.mAirDensity Physics.init)
      (Physics.mTimeScale Physics.init) (Physics.mPixelsPerMeter Physics.init)
      (Physics.m3DMode Physics.init) (Some Lander.init) (Some Terrain.init)
      (Physics.mLanderRigidBody Physics.init) in
  let g0 :=
    mk (mGameState g) (mDifficulty g) (m3DMode g) (mScore g) (mElapsedTime g)
       (mFuelUsed g) (mWindowWidth g) (mWindowHeight g) (mPixelsPerMeter g)
       (mIsRunning g) (Some created) [] (randCalls g)
       false (Some (handlersMade g)) (S (handlersMade g)) in
  if rendererOk then
    let p1 := Physics.RegisterLander CreateLanderRigidBody Physics.init (Some Lander.init) in
    let p2 := Physics.RegisterTerrain CreateTerrainRigidBodies p1 (Some Terrain.init) in
    let p3 := Physics.Initialize InitializeBulletPhysics p2 in
    let g1 :=
      mk (mGameState g0) (mDifficulty g0) (m3DMode g0) (mScore g0) (mElapsedTime g0)
         (mFuelUsed g0) (mWindowWidth g0) (mWindowHeight g0) (mPixelsPerMeter g0)
         (mIsRunning g0) (Some p3) (mHeightData g0) (randCalls g0)
         true (mInputHandler g0) (handlersMade g0) in
    bind (SetDifficulty g1 (mDifficulty g1)) (fun g2 =>
    bind (regenerate g2) (fun g3 =>
    bind (Reset g3) (fun g4 =>
    Ok (set_mIsRunning g4 true))))
  else Ok g0.

(** [Game::Shutdown()] *)
Definition Shutdown (g : t) : t :=
  mk (mGameState g) (mDifficulty g) (m3DMode g) (mScore g) (mElapsedTime g)
     (mFuelUsed g) (mWindowWidth g) (mWindowHeight g) (mPixelsPerMeter g)
     false None [] (randCalls g) false None (handlersMade g).

(** [Game::SetRenderingMode(bool use3D)]; what [Initialize] returns is
    not looked at. *)
Definition SetRenderingMode (rendererOk : bool) (g : t) (use3D : bool) : result t :=
  if negb (Bool.eqb (m3DMode g) use3D) then
    let g1 := set_m3DMode g use3D in
    if mIsRunning g1 then Initialize rendererOk (Shutdown g1) else Ok g1
  else Ok g.

(** [Game::OnKeyDown(int keyCode)] *)
Definition OnKeyDown (rendererOk : bool) (g : t) (keyCode : keycode) : result t :=
  match keyCode with
  | SDLK_r => Reset g
  | SDLK_ESCAPE => Ok (set_mIsRunning g false)
  | SDLK_1 => SetDifficulty g EASY
  | SDLK_2 => SetDifficulty g NORMAL
  | SDLK_3 => SetDifficulty g HARD
  | SDLK_TAB => SetRenderingMode rendererOk g (negb (m3DMode g))
  | SDLK_other => Ok g
  end.

(** [InputHandler::ProcessInput()] of the handler [this], whose [mGame]
    is the game: the loop over the events SDL has queued.  For a quit or a
    key event the handler reads its member [mGame]; when a callback has
    destroyed the handler (TAB while the game is running: [Shutdown], then
    [Initialize]), that read is a use after free.  [rendererOk] is the
    outcome of the renderer's initialisation, should a callback run
    [Initialize]: that happens at most once before the handler is gone. *)
Fixpoint InputHandler_ProcessInput (rendererOk : bool) (this : nat) (g : t)
    (events : list event) : result t :=
  match events with
  | [] => Ok g
  | SDL_other :: rest => InputHandler_ProcessInput rendererOk this g rest
  | event :: rest =>
      match mInputHandler g with
      | Some handler =>
          if Nat.eqb handler this then
            bind
              match event with
              | SDL_QUIT => OnKeyDown rendererOk g SDLK_ESCAPE
              | SDL_KEYDOWN sym => OnKeyDown rendererOk g sym
              | SDL_KEYUP _ | SDL_other => Ok g
              end
              (fun g' => InputHandler_ProcessInput rendererOk this g' rest)
          else Fail UseAfterFree
      | None => Fail UseAfterFree
      end
  end.

(** The part of [Game::ProcessInput] that follows the events: the
    handling of the keyboard state [k] the input handler reports.  [fuel]
    bounds the number of tests each rotation loop may make. *)
Definition handle_keys (fuel : nat) (g : t) (k : keys) : result t :=
  match mInputHandler g with
  | None => Fail NullPointer
  | Some _ =>
      bind
        match mGameState g with
        | READY => Ok (if start k then set_mGameState g FLYING else g)
        | FLYING =>
            match mPhysics g with
            | None => Fail NullPointer
            | Some p =>
                bind (of_option NullPointer (Physics.mLander p)) (fun l =>
                let lg :=
                  if thrust k then
                    let l1 := Lander.ApplyThrust l (F32.of_int 1) in
                    let originalFuel := Lander.GetFuel l1 in
                    let newFuel := originalFuel in
                    (l1, if F32.gtb originalFuel newFuel
                         then set_mFuelUsed g (F32.add (mFuelUsed g)
                                                 (F32.sub originalFuel newFuel))
                         else g)
                  else (Lander.ApplyThrust l F32.zero, g) in
                bind (if rotateLeft k
                      then of_option LoopRunning
                             (Lander.RotateLeft fuel (fst lg) (F32.of_int 2))
                      else Ok (fst lg)) (fun l2 =>
                bind (if rotateRight k
                      then of_option LoopRunning
                             (Lander.RotateRight fuel l2 (F32.of_int 2))
                      else Ok l2) (fun l3 =>
                Ok (set_mPhysics (snd lg) (Some (Physics.set_mLander p (Some l3)))))))
            end
        | LANDED | CRASHED => if reset k then Reset g else Ok g
        end
        (fun g1 => Ok (if quit k then set_mIsRunning g1 false else g1))
  end.

(** [Game::ProcessInput()]: [events] are the events SDL has queued and
    [k] is the keyboard state the input handler reports after them. *)
Definition ProcessInput (fuel : nat) (rendererOk : bool) (g : t)
    (events : list event) (k : keys) : result t :=
  match mInputHandler g with
  | None => Ok g
  | Some this =>
      bind (InputHandler_ProcessInput rendererOk this g events)
           (fun g0 => handle_keys fuel g0 k)
  end.

(** [Game::Update(float deltaTime)]; the camera of the 3D renderer is
    not part of the state. *)
Definition Update (g : t) (deltaTime : F32.float) : t :=
  match mGameState g with
  | FLYING =>
      let g1 :=
        match mPhysics g with
        | Some p =>
            let p1 :=
              engine_result g p
                (Physics.Update sinf cosf stepBullet (engine_view g p) deltaTime) in
            match Physics.mLander p1 with
            | Some l =>
                let l1 := Lander.Update l deltaTime in
                let g1 := set_mPhysics g (Some (Physics.set_mLander p1 (Some l1))) in
                if Lander.IsLanded l1 then
                  let fuelRemaining := F32.div (Lander.GetFuel l1) (Lander.mMaxFuel l1) in
                  set_mScore (set_mGameState g1 LANDED)
                             (F32.mul fuelRemaining (F32.of_int 1000))
                else if Lander.IsCrashed l1 then
                  set_mScore (set_mGameState g1 CRASHED) F32.zero
                else g1
            | None => set_mPhysics g (Some p1)
            end
        | None => g
        end in
      set_mElapsedTime g1 (F32.add (mElapsedTime g1) deltaTime)
  | _ => g
  end.

(** The cap the game loop of [Game::Run] puts on the frame time. *)
Definition cap (deltaTime : F32.float) : F32.float :=
  if F32.gtb deltaTime (F32.lit 1 10) then F32.lit 1 10 else deltaTime.
End External.
End Game.

(** * Vocabulary of the specification *)

(** ** Terrain queries *)

(** The screen x-coordinate [x] lies in the horizontal span of [s]. *)
Definition span_contains (x : F32.float) (s : TerrainSegment.t) : Prop :=
  F32.geb x (TerrainSegment.x1 s) = true /\ F32.leb x (TerrainSegment.x2 s) = true.

(** The velocity limits of a safe 2D landing: 2.0 m/s vertically and
    1.0 m/s horizontally. *)
Definition safe_velocity2D (l : Lander.t) : Prop :=
  F32.leb (F32.abs (at1 (Lander.mVelocity l))) (F32.of_int 2) = true
  /\ F32.leb (F32.abs (at0 (Lander.mVelocity l))) (F32.of_int 1) = true.

(** The y of segment [s] at the screen coordinate [x], in pixels: the
    linear interpolation [y1 + (x - x1) / (x2 - x1) * (y2 - y1)] between the
    two ends of the segment. *)
Definition interpolated_y (x : F32.float) (s : TerrainSegment.t) : F32.float :=
  F32.add (TerrainSegment.y1 s)
          (F32.mul (F32.div (F32.sub x (TerrainSegment.x1 s))
                            (F32.sub (TerrainSegment.x2 s) (TerrainSegment.x1 s)))
                   (F32.sub (TerrainSegment.y2 s) (TerrainSegment.y1 s))).

(** A screen y in physics units: screen y grows downwards from the top of
    a terrain [height] pixels high, so the point is
    [(height - y) / pixelsPerMeter] meters up. *)
Definition physics_units (height : Z) (pixelsPerMeter y : F32.float) : F32.float :=
  F32.div (F32.sub (F32.of_int height) y) pixelsPerMeter.

(** The height of segment [s] under the screen coordinate [x], in meters. *)
Definition interpolated_height (t : Terrain.t) (x : F32.float) (s : TerrainSegment.t)
    : F32.float :=
  physics_units (Terrain.mHeight t) (Terrain.mPixelsPerMeter t) (interpolated_y x s).

(** Segment [s] is under the screen coordinate [x] and its interpolated
    height, in meters, is at or above [bottom]. *)
Definition touches (t : Terrain.t) (x bottom : F32.float) (s : TerrainSegment.t) : Prop :=
  span_contains x s /\ F32.leb bottom (interpolated_height t x s) = true.

(** The same with the height as [CheckCollision2D] computes it. *)
Definition touches_as_computed (t : Terrain.t) (x bottom : F32.float)
    (s : TerrainSegment.t) : Prop :=
  span_contains x s /\ F32.leb bottom (Terrain.terrainHeightMeters t x s) = true.

(** The point (x, z) lies in the horizontal bounding box of the triangle. *)
Definition bbox_contains (x z : F32.float) (tri : TerrainTriangle.t) : Prop :=
  let v := TerrainTriangle.vertices tri in
  F32.geb x (F32.min3 (TerrainTriangle.v0 v) (TerrainTriangle.v3 v) (TerrainTriangle.v6 v)) = true
  /\ F32.leb x (F32.max3 (TerrainTriangle.v0 v) (TerrainTriangle.v3 v) (TerrainTriangle.v6 v)) = true
  /\ F32.geb z (F32.min3 (TerrainTriangle.v2 v) (TerrainTriangle.v5 v) (TerrainTriangle.v8 v)) = true
  /\ F32.leb z (F32.max3 (TerrainTriangle.v2 v) (TerrainTriangle.v5 v) (TerrainTriangle.v8 v)) = true.

(** The velocity limits of a safe 3D landing: [|vx| <= 2], [0 <= vy <= 2]
    and [|vz| <= 2]. *)
Definition safe_velocity3D (l : Lander.t) : Prop :=
  F32.leb (F32.abs (at0 (Lander.mVelocity l))) (F32.of_int 2) = true
  /\ F32.geb (at1 (Lander.mVelocity l)) F32.zero = true
  /\ F32.leb (at1 (Lander.mVelocity l)) (F32.of_int 2) = true
  /\ F32.leb (F32.abs (at2 (Lander.mVelocity l))) (F32.of_int 2) = true.

(** The landing-pad flags of the segments, in order. *)
Definition pad_flags (t : Terrain.t) : list bool :=
  map TerrainSegment.isLandingPad (Terrain.mSegments2D t).

(** The horizontal extents, in pixels, of the landing-pad segments. *)
Definition pad_extents (t : Terrain.t) : list (F32.float * F32.float) :=
  map (fun s => (TerrainSegment.x1 s, TerrainSegment.x2 s))
      (filter (fun s => TerrainSegment.isLandingPad s = true) (Terrain.mSegments2D t)).

(** ** Operations of the 2D engine *)

(** The operations that act on the registered lander: those of the physics
    engine in 2D mode ([OpApplyThrust] is [Physics::ApplyThrust] called on
    the registered lander) and the lander's own [Update], [ApplyThrust] and
    [Reset], which the game loop calls between physics steps. *)
Inductive physics_op : Type :=
  | OpUpdate (deltaTime : F32.float)
  | OpUpdate2D (deltaTime : F32.float)
  | OpCheckCollisions2D
  | OpApplyThrust (deltaTime : F32.float)
  | OpLanderUpdate (deltaTime : F32.float)
  | OpLanderApplyThrust (amount : F32.float)
  | OpLanderReset.

(** The operations that may change the fuel level. *)
Definition touches_fuel (op : physics_op) : bool :=
  match op with
  | OpLanderUpdate _ | OpLanderReset => true
  | _ => false
  end.

Section EngineOperations.
Variable sinf cosf : F32.float -> F32.float.
Variable btRotateUp : F32.float -> F32.float -> F32.float -> float3.
Variable stepBullet : Physics.t -> F32.float -> Physics.t.

Definition run_op (p : Physics.t) (op : physics_op) : Physics.t :=
  match op with
  | OpUpdate dt => Physics.Update sinf cosf stepBullet p dt
  | OpUpdate2D dt => Physics.Update2D sinf cosf p dt
  | OpCheckCollisions2D => snd (Physics.CheckCollisions2D p)
  | OpApplyThrust dt =>
      let '(p', lander') := Physics.ApplyThrust sinf cosf btRotateUp p (Physics.mLander p) dt in
      Physics.set_mLander p' lander'
  | OpLanderUpdate dt =>
      Physics.set_mLander p (option_map (fun l => Lander.Update l dt) (Physics.mLander p))
  | OpLanderApplyThrust amount =>
      Physics.set_mLander p
        (option_map (fun l => Lander.ApplyThrust l amount) (Physics.mLander p))
  | OpLanderReset =>
      Physics.set_mLander p (option_map Lander.Reset (Physics.mLander p))
  end.

Definition run_ops (p : Physics.t) (ops : list physics_op) : Physics.t :=
  foldl run_op p ops.
End EngineOperations.

(** The landed and crashed flags of the registered lander are not both
    set. *)
Definition flags_exclusive (p : Physics.t) : Prop :=
  forall l, Physics.mLander p = Some l ->
            ~ (Lander.mLanded l = true /\ Lander.mCrashed l = true).

(** What a detected collision at height [h] makes of lander [l]. *)
Definition settled (p : Physics.t) (terrain : Terrain.t) (l : Lander.t)
    (h : F32.float) (l' : Lander.t) : Prop :=
  Entity.mPosition (Lander.base l')
    = mkFloat3 (at0 (Entity.mPosition (Lander.base l)))
               (F32.add h (F32.div (F32.div (Lander.mHeight l) (Physics.mPixelsPerMeter p))
                                   (F32.of_int 2)))
               F32.zero
  /\ at0 (Lander.mVelocity l') = F32.zero
  /\ at1 (Lander.mVelocity l') = F32.zero
  /\ Lander.mLanded l' = Terrain.IsValidLanding2D terrain (Some l)
  /\ Lander.mCrashed l' = negb (Terrain.IsValidLanding2D terrain (Some l))
  /\ Lander.mFuel l' = Lander.mFuel l.

(** ** Single-precision rounding *)

(** After [k] one-bit shifts of [M]: the mantissa is [M / 2^k], and the
    round and sticky bits are both clear exactly when nothing was lost. *)
Definition shifted (M k : Z) (mrs : shr_record) : Prop :=
  shr_m mrs = M / 2 ^ k
  /\ (shr_r mrs || shr_s mrs = false <-> M mod 2 ^ k = 0).

(** A float that is not below zero: a NaN, a zero of either sign, plus
    infinity or a positive finite number. *)
Definition not_negative (x : spec_float) : Prop :=
  match x with
  | S754_nan | S754_zero _ => True
  | S754_infinity s | S754_finite s _ _ => s = false
  end.

(** ** Fuel *)

(** The fuel state the constructor establishes: a valid, non-negative fuel
    amount, a non-negative thrust level and a non-negative consumption
    rate. *)
Definition fuel_ok (l : Lander.t) : Prop :=
  F32.valid (Lander.mFuel l) = true
  /\ F32.leb F32.zero (Lander.mFuel l) = true
  /\ F32.leb F32.zero (Lander.mThrustLevel l) = true
  /\ F32.leb F32.zero (Lander.mFuelConsumptionRate l) = true.

(** ** Scenarios *)

(** Stand-ins for the external code in the scenarios: [sin] and [cos] at
    angle 0, the identity rotation, and a Bullet step that does nothing.
    No scenario runs with thrust or in 3D mode, so none of them is
    reached. *)
Definition sin_zero (x : F32.float) : F32.float := F32.zero.
Definition cos_zero (x : F32.float) : F32.float := F32.of_int 1.
Definition rotate_identity (z y x : F32.float) : float3 :=
  mkFloat3 F32.zero (F32.of_int 1) F32.zero.
Definition step_nothing (p : Physics.t) (dt : F32.float) : Physics.t := p.

(** A 600-pixel-high terrain at height 0 m: a landing pad from 0 to 200
    pixels (0 to 10 m) and plain ground from 200 to 400 pixels. *)
Definition flat_terrain : Terrain.t :=
  {| Terrain.base := Entity.init;
     Terrain.mSegments2D :=
       [ TerrainSegment.mk (F32.of_int 0) (F32.of_int 600)
                           (F32.of_int 200) (F32.of_int 600) true;
         TerrainSegment.mk (F32.of_int 200) (F32.of_int 600)
                           (F32.of_int 400) (F32.of_int 600) false ];
     Terrain.mTriangles3D := [];
     Terrain.mWidth := 400; Terrain.mHeight := 600; Terrain.mLength := 800;
     Terrain.mPixelsPerMeter := F32.of_int 20 |}.

(** A fresh lander at ([x], [y]) meters with vertical velocity [vy]. *)
Definition lander_at (x y vy : F32.float) : Lander.t :=
  Lander.set_mVelocity (Lander.SetPosition Lander.init x y F32.zero)
                       (mkFloat3 F32.zero vy F32.zero).

(** Scenario A: over the pad at (5 m, 0.5 m), descending at 1 m/s. *)
Definition lander_A : Lander.t := lander_at (F32.of_int 5) (F32.lit 1 2) (F32.of_int (-1)).
(** Scenario B: the same place, descending at 5 m/s. *)
Definition lander_B : Lander.t := lander_at (F32.of_int 5) (F32.lit 1 2) (F32.of_int (-5)).
(** Scenario C: off the pad at (15 m, 0.5 m), descending at 1 m/s. *)
Definition lander_C : Lander.t := lander_at (F32.of_int 15) (F32.lit 1 2) (F32.of_int (-1)).
(** A lander at rest 20 m up, beyond the end of the terrain. *)
Definition lander_high : Lander.t := lander_at (F32.of_int 50) (F32.of_int 20) F32.zero.

(** The engine in 2D mode with time scale [s], lander [l] and the flat
    terrain registered. *)
Definition engine (s : F32.float) (l : Lander.t) : Physics.t :=
  {| Physics.mGravity := F32.lit 162 100;
     Physics.mAirDensity := F32.zero;
     Physics.mTimeScale := s;
     Physics.mPixelsPerMeter := F32.of_int 20;
     Physics.m3DMode := false;
     Physics.mLander := Some l;
     Physics.mTerrain := Some flat_terrain;
     Physics.mLanderRigidBody := None |}.

(** Scenario D: a full tank with the thrust at level 0.5. *)
Definition lander_D : Lander.t := Lander.ApplyThrust Lander.init (F32.lit 1 2).

(** Two more ways to spend the 2 seconds of scenario D: three updates of
    [2 - 2^-16], [2^-17] and [2^-17] seconds, which add up to 2 seconds
    exactly, and 120 frames of 1/60 s, as the game loop produces them. *)
Definition uneven_frames : list F32.float :=
  [F32.sub (F32.of_int 2) (F32.lit 1 65536); F32.lit 1 131072; F32.lit 1 131072].
Definition frames_60Hz : list F32.float := replicate 120 (F32.lit 1 60).

(** ** Operations on the lander between physics steps *)

(** [l] with another position, other velocity components along x and y,
    and other terminal flags. *)
Definition with_motion (l : Lander.t) (position : float3) (vx vy : F32.float)
    (landed crashed : bool) : Lander.t :=
  Lander.mk
    (Entity.mk position (Entity.mRotation (Lander.base l))
       (Entity.mScale (Lander.base l)) (Entity.mActive (Lander.base l)))
    (Lander.mWidth l) (Lander.mHeight l) (Lander.mDepth l) (Lander.mMass l)
    (mkFloat3 vx vy (at2 (Lander.mVelocity l))) (Lander.mAcceleration l)
    (Lander.mThrustLevel l) (Lander.mThrustActive l) (Lander.mMaxThrustForce l)
    (Lander.mFuel l) (Lander.mMaxFuel l) (Lander.mFuelConsumptionRate l)
    landed crashed.

(** [l'] is [l] up to its position, its velocity along x and y and its
    terminal flags, and no terminal flag of [l] is cleared in [l']. *)
Definition moved (l l' : Lander.t) : Prop :=
  l' = with_motion l (Entity.mPosition (Lander.base l'))
         (at0 (Lander.mVelocity l')) (at1 (Lander.mVelocity l'))
         (Lander.mLanded l') (Lander.mCrashed l')
  /\ (Lander.mLanded l = true -> Lander.mLanded l' = true)
  /\ (Lander.mCrashed l = true -> Lander.mCrashed l' = true).

(** The lander with its thrust switched off. *)
Definition thrust_off (l : Lander.t) : Lander.t :=
  Lander.set_mThrustLevel (Lander.set_mThrustActive l false) F32.zero.

(** What each operation makes of the registered lander in 2D mode. *)
Definition lander_step (op : physics_op) (l l' : Lander.t) : Prop :=
  match op with
  | OpUpdate _ | OpUpdate2D _ | OpCheckCollisions2D => moved l l'
  | OpApplyThrust _ => l' = l \/ l' = thrust_off l
  | OpLanderUpdate dt => l' = Lander.Update l dt
  | OpLanderApplyThrust amount => l' = Lander.ApplyThrust l amount
  | OpLanderReset => l' = Lander.Reset l
  end.

(** The thrust flag is set exactly when the level is above zero, and then
    the fuel is not at or below zero. *)
Definition thrust_consistent (l : Lander.t) : Prop :=
  Lander.mThrustActive l = F32.gtb (Lander.mThrustLevel l) F32.zero
  /\ (Lander.mThrustActive l = true -> F32.leb (Lander.mFuel l) F32.zero = false).

(** A fuel state as the constructor leaves it, with the fuel not above a
    valid capacity. *)
Definition tank_ok (l : Lander.t) : Prop :=
  fuel_ok l
  /\ F32.leb (Lander.mFuel l) (Lander.mMaxFuel l) = true
  /\ F32.valid (Lander.mMaxFuel l) = true.

Definition is_reset (op : physics_op) : bool :=
  match op with
  | OpLanderReset => true
  | _ => false
  end.

(** The lander's [Update] is called with a delta-time that is not
    negative. *)
Definition steady_update (op : physics_op) : Prop :=
  match op with
  | OpLanderUpdate dt => F32.leb F32.zero dt = true
  | _ => True
  end.

(** ** Rotation by whole degrees *)

(** Equality of two floats as data. *)
Definition same_float (x y : F32.float) : bool :=
  match x, y with
  | S754_zero s, S754_zero s' => Bool.eqb s s'
  | S754_infinity s, S754_infinity s' => Bool.eqb s s'
  | S754_nan, S754_nan => true
  | S754_finite s m e, S754_finite s' m' e' =>
      Bool.eqb s s' && (m =? m')%positive && (e =? e')
  | _, _ => false
  end.

(** From the heading [d] degrees, the loop of [RotateLeft] (of
    [RotateRight]) stops within two tests at [d + a] (at [d - a])
    modulo 360. *)
Definition turn_left_ok (d a : Z) : bool :=
  match Lander.wrap_down 2 (F32.add (F32.of_int d) (F32.of_int a)) with
  | Some r => same_float r (F32.of_int ((d + a) mod 360))
  | None => false
  end.

Definition turn_right_ok (d a : Z) : bool :=
  match Lander.wrap_up 2 (F32.sub (F32.of_int d) (F32.of_int a)) with
  | Some r => same_float r (F32.of_int ((d - a) mod 360))
  | None => false
  end.

(** The heading is a whole number of degrees in [0, 360). *)
Definition whole_heading (l : Lander.t) : Prop :=
  exists d, 0 <= d < 360 /\ at2 (Lander.GetRotation l) = F32.of_int d.

(** ** The 3D terrain *)

(** The average of the heights (y) of the three vertices of a triangle:
    [(y1 + y2 + y3) / 3]. *)
Definition average_height (tri : TerrainTriangle.t) : F32.float :=
  F32.div (F32.add (F32.add (TerrainTriangle.v1 (TerrainTriangle.vertices tri))
                            (TerrainTriangle.v4 (TerrainTriangle.vertices tri)))
                   (TerrainTriangle.v7 (TerrainTriangle.vertices tri)))
          (F32.of_int 3).

(** Triangle [tri] is under the lander and its average height is at or
    below the lander's y plus half its height: the test of
    [CheckCollision3D]. *)
Definition touches3D (l : Lander.t) (tri : TerrainTriangle.t) : Prop :=
  bbox_contains (at0 (Lander.GetPosition l)) (at2 (Lander.GetPosition l)) tri
  /\ F32.geb (F32.add (at1 (Lander.GetPosition l))
                      (F32.div (Lander.mHeight l) (F32.of_int 2)))
             (average_height tri) = true.

(** The same with the height as [CheckCollision3D] computes it. *)
Definition touches3D_as_computed (l : Lander.t) (tri : TerrainTriangle.t) : Prop :=
  bbox_contains (at0 (Lander.GetPosition l)) (at2 (Lander.GetPosition l)) tri
  /\ F32.geb (F32.add (at1 (Lander.GetPosition l))
                      (F32.div (Lander.mHeight l) (F32.of_int 2)))
             (Terrain.avgHeight tri) = true.

(** The number of calls of [rand()] [Generate3D] has made when it reaches
    the [n]-th vertex of the grid, in row-major order. *)
Fixpoint rand_calls (n : nat) : nat :=
  match n with
  | O => O
  | S n' =>
      (rand_calls n'
       + if Terrain.in_centre (Z.of_nat n' mod 21) (Z.of_nat n' / 21) then 0 else 1)%nat
  end.

(** The height [Generate3D] gives to the vertex ([x], [z]). *)
Definition vertex_height (rnd : nat -> Z) (height : Z) (x z : Z) : F32.float :=
  if Terrain.in_centre x z then F32.of_int (Int32.sub height 50)
  else F32.add (F32.of_int (Int32.sub height 50))
               (F32.of_int (Z.rem (rnd (rand_calls (Z.to_nat (z * 21 + x)))) 20 - 10)).

Definition heightmap (rnd : nat -> Z) (height : Z) : list F32.float :=
  map (fun n => vertex_height rnd height (Z.of_nat n mod 21) (Z.of_nat n / 21))
      (seq 0 441).

(** The heightmap loops have filled the first [n] entries. *)
Definition filled_up_to (rnd : nat -> Z) (height : Z) (n : Z)
    (st : list F32.float * nat) : Prop :=
  length (fst st) = 441%nat
  /\ snd st = rand_calls (Z.to_nat n)
  /\ forall i : nat, (i < Z.to_nat n)%nat ->
       fst st !! i = Some (vertex_height rnd height (Z.of_nat i mod 21) (Z.of_nat i / 21)).

(** The triangles of the 400 cells, row by row. *)
Definition grid_triangles (heightData : list F32.float) (cellWidth cellLength : F32.float)
    : list TerrainTriangle.t :=
  flat_map (fun z => flat_map (Terrain.cell_triangles heightData cellWidth cellLength z)
                              (seqZ 0 20))
           (seqZ 0 20).

(** ** Operations of the game *)

(** What the game loop calls: [Update], and [ProcessInput] with the
    events SDL has queued for the frame, the outcome of the renderer's
    initialisation should the frame rebuild the game, and the keyboard
    state; and [Reset] and [SetDifficulty]. *)
Inductive game_op : Type :=
  | GameUpdate (deltaTime : F32.float)
  | GameProcessInput (events : list Game.event) (rendererOk : bool) (k : Game.keys)
  | GameReset
  | GameSetDifficulty (difficulty : Game.Difficulty).

(** The event that toggles the rendering mode: a key-down of TAB. *)
Definition is_mode_switch (e : Game.event) : bool :=
  match e with
  | Game.SDL_KEYDOWN Game.SDLK_TAB => true
  | _ => false
  end.

Definition no_mode_switch_in (events : list Game.event) : bool :=
  forallb (fun e => negb (is_mode_switch e)) events.

(** The TAB key is not pressed in the frame. *)
Definition no_mode_switch (op : game_op) : Prop :=
  match op with
  | GameProcessInput events _ _ => no_mode_switch_in events = true
  | _ => True
  end.

Section GameOperations.
Variable sinf cosf : F32.float -> F32.float.
Variable stepBullet : Physics.t -> F32.float -> Physics.t.
Variable InitializeBulletPhysics : Physics.t -> Physics.t.
Variable CreateLanderRigidBody : Physics.t -> Physics.t.
Variable CreateTerrainRigidBodies : Physics.t -> Physics.t.
Variable rand : nat -> Z.

Definition game_op_run (fuel : nat) (g : Game.t) (op : game_op) : Game.result Game.t :=
  match op with
  | GameUpdate deltaTime => Game.Ok (Game.Update sinf cosf stepBullet g deltaTime)
  | GameProcessInput events rendererOk k =>
      Game.ProcessInput InitializeBulletPhysics CreateLanderRigidBody
        CreateTerrainRigidBodies rand fuel rendererOk g events k
  | GameReset => Game.Reset rand g
  | GameSetDifficulty difficulty => Game.SetDifficulty rand g difficulty
  end.

Fixpoint game_run (fuel : nat) (g : Game.t) (ops : list game_op) : Game.result Game.t :=
  match ops with
  | [] => Game.Ok g
  | op :: ops' => Game.bind (game_op_run fuel g op) (fun g' => game_run fuel g' ops')
  end.
End GameOperations.

(** What [main] does before the game loop, with a renderer that
    initialises: [SetRenderingMode(use3D)] on a new game, then
    [Initialize], which returns true. *)
Definition game_start (InitializeBulletPhysics CreateLanderRigidBody
    CreateTerrainRigidBodies : Physics.t -> Physics.t) (rand : nat -> Z) (use3D : bool)
    : Game.result Game.t :=
  Game.bind
    (Game.SetRenderingMode InitializeBulletPhysics CreateLanderRigidBody
       CreateTerrainRigidBodies rand true Game.init use3D)
    (Game.Initialize InitializeBulletPhysics CreateLanderRigidBody
       CreateTerrainRigidBodies rand true).

(** The game state and the lander's terminal flags tell the same story. *)
Definition state_agrees (state : Game.GameState) (l : Lander.t) : Prop :=
  match state with
  | Game.LANDED => Lander.mLanded l = true
  | Game.CRASHED => Lander.mLanded l = false /\ Lander.mCrashed l = true
  | Game.FLYING | Game.READY => Lander.mLanded l = false /\ Lander.mCrashed l = false
  end.

(** A game as [Initialize] leaves it: the window of the constructor, the
    engine in 2D mode with a lander and a terrain registered, a heading of
    whole degrees, and a game state that agrees with the lander. *)
Definition game_ready (g : Game.t) : Prop :=
  Game.mWindowWidth g = 800 /\ Game.mWindowHeight g = 600
  /\ Game.mPixelsPerMeter g = F32.of_int 20
  /\ exists p l terrain,
       Game.mPhysics g = Some p /\ Physics.m3DMode p = false
       /\ Physics.mLander p = Some l /\ Physics.mTerrain p = Some terrain
       /\ whole_heading l /\ state_agrees (Game.mGameState g) l.

(** The 2D segments of the game's terrain. *)
Definition game_segments (g : Game.t) : list TerrainSegment.t :=
  match Game.mPhysics g with
  | Some p =>
      match Physics.mTerrain p with
      | Some terrain => Terrain.mSegments2D terrain
      | None => []
      end
  | None => []
  end.

(** A game that is ready and whose engine has the lander and the terrain
    registered. *)
Definition game_live (g : Game.t) : Prop :=
  game_ready g /\ Game.mRegistered g = true.

(** What an operation of the game keeps as long as the game is not
    rebuilt: the rendering mode, the fuel statistic unless it is zeroed, in
    3D mode the 2D segments, the registration of the lander and the terrain
    with the engine, the input handler and the number of handlers made. *)
Definition game_frame (g g' : Game.t) : Prop :=
  Game.m3DMode g' = Game.m3DMode g
  /\ (Game.mFuelUsed g' = Game.mFuelUsed g \/ Game.mFuelUsed g' = F32.zero)
  /\ (Game.m3DMode g = true -> game_segments g' = game_segments g)
  /\ Game.mRegistered g' = Game.mRegistered g
  /\ Game.mInputHandler g' = Game.mInputHandler g
  /\ Game.handlersMade g' = Game.handlersMade g.

(** A game in 3D mode, in flight over a terrain without 2D segments. *)
Definition in_the_void (g : Game.t) : Prop :=
  game_live g /\ Game.m3DMode g = true /\ game_segments g = []
  /\ Game.mGameState g = Game.FLYING.

(** What [Game::Reset] leaves behind: a flying game with zeroed
    statistics, the same gravity, and the lander reset and put at its
    starting place. *)
Definition restarted (g g' : Game.t) : Prop :=
  Game.mGameState g' = Game.FLYING
  /\ Game.mScore g' = F32.zero /\ Game.mElapsedTime g' = F32.zero
  /\ Game.mFuelUsed g' = F32.zero
  /\ exists p p' l,
       Game.mPhysics g = Some p /\ Game.mPhysics g' = Some p'
       /\ Physics.mGravity p' = Physics.mGravity p
       /\ Physics.mLander p = Some l
       /\ Physics.mLander p' = Some (Game.reset_lander g l).

(** The gravity of each difficulty level, in m/s^2. *)
Definition gravity_of (difficulty : Game.Difficulty) : F32.float :=
  match difficulty with
  | Game.EASY => F32.of_int 1
  | Game.NORMAL => F32.lit 162 100
  | Game.HARD => F32.of_int 2
  end.

(** ** Further scenarios *)

(** A game in flight with the engine of scenario A, as [Initialize]
    leaves it but for the place of the lander. *)
Definition game_A : Game.t :=
  {| Game.mGameState := Game.FLYING; Game.mDifficulty := Game.NORMAL;
     Game.m3DMode := false;
     Game.mScore := F32.zero; Game.mElapsedTime := F32.zero; Game.mFuelUsed := F32.zero;
     Game.mWindowWidth := 800; Game.mWindowHeight := 600;
     Game.mPixelsPerMeter := F32.of_int 20; Game.mIsRunning := true;
     Game.mPhysics := Some (engine (F32.of_int 1) lander_high);
     Game.mHeightData := []; Game.randCalls := O;
     Game.mRegistered := true; Game.mInputHandler := Some O;
     Game.handlersMade := 1%nat |}.

(** Frames of the scenarios: no key held; a TAB key-down with no key
    held; and a TAB key-down followed by another key-down. *)
Definition no_key : Game.keys := Game.mkKeys false false false false false false.
Definition tab_frame (rendererOk : bool) : game_op :=
  GameProcessInput [Game.SDL_KEYDOWN Game.SDLK_TAB] rendererOk no_key.
Definition tab_and_key_frame : game_op :=
  GameProcessInput [Game.SDL_KEYDOWN Game.SDLK_TAB; Game.SDL_KEYDOWN Game.SDLK_other]
    true no_key.

(** The thrust key alone. *)
Definition thrust_key : Game.keys := Game.mkKeys true false false false false false.

(** Two frames with events and keys, each followed by an update of 0.1 s:
    key-downs of 3 and of R with the thrust, left and start keys held, then
    a quit event with the left, reset and quit keys held. *)
Definition busy_frames : list game_op :=
  [GameProcessInput [Game.SDL_KEYDOWN Game.SDLK_3; Game.SDL_KEYUP Game.SDLK_3;
                     Game.SDL_other; Game.SDL_KEYDOWN Game.SDLK_r]
     true (Game.mkKeys true true false true false false);
   GameUpdate (F32.lit 1 10);
   GameProcessInput [Game.SDL_QUIT] true (Game.mkKeys false true false false true true);
   GameUpdate (F32.lit 1 10)].

(** A Bullet set-up that does nothing; the engine never asks for it. *)
Definition no_bullet (p : Physics.t) : Physics.t := p.

(** Segment [s] lies within the pixels [startX, startX + width], the sum
    being the 32-bit [int] sum: the test of [CreateLandingPad2D]. *)
Definition lies_within (startX width : Z) (s : TerrainSegment.t) : bool :=
  F32.geb (TerrainSegment.x1 s) (F32.of_int startX)
  && F32.leb (TerrainSegment.x2 s) (F32.of_int (Int32.add startX width)).

(** What the regeneration of the terrain keeps of the game. *)
Definition regenerated (g g' : Game.t) : Prop :=
  Game.mGameState g' = Game.mGameState g
  /\ Game.mScore g' = Game.mScore g
  /\ Game.mElapsedTime g' = Game.mElapsedTime g
  /\ Game.mFuelUsed g' = Game.mFuelUsed g
  /\ exists p p',
       Game.mPhysics g = Some p /\ Game.mPhysics g' = Some p'
       /\ Physics.mGravity p' = Physics.mGravity p
       /\ Physics.mLander p' = Physics.mLander p.

(** * Properties *)

Arguments F32.add : simpl never.
Arguments F32.sub : simpl never.
Arguments F32.mul : simpl never.
Arguments F32.div : simpl never.
Arguments F32.neg : simpl never.
Arguments F32.abs : simpl never.
Arguments F32.ltb : simpl never.
Arguments F32.leb : simpl never.
Arguments F32.gtb : simpl never.
Arguments F32.geb : simpl never.
Arguments F32.of_int : simpl never.
Arguments F32.lit : simpl never.
Arguments F32.max : simpl never.
Arguments F32.min : simpl never.
Arguments deg2rad : simpl never.

(** ** Rounding to single precision never exceeds a representable bound *)

Lemma digits2_pos_bounds (m : positive) :
  2 ^ (Zpos (digits2_pos m) - 1) <= Zpos m < 2 ^ Zpos (digits2_pos m).
Proof.
  induction m as [m IH|m IH|]; cbn [digits2_pos].
  - rewrite Pos2Z.inj_succ, Z.pow_succ_r by lia.
    replace (Z.succ (Zpos (digits2_pos m)) - 1) with (Z.succ (Zpos (digits2_pos m) - 1)) by lia.
    rewrite Z.pow_succ_r by lia. lia.
  - rewrite Pos2Z.inj_succ, Z.pow_succ_r by lia.
    replace (Z.succ (Zpos (digits2_pos m)) - 1) with (Z.succ (Zpos (digits2_pos m) - 1)) by lia.
    rewrite Z.pow_succ_r by lia. lia.
  - cbn. lia.
Qed.

Lemma digits2_pos_unique (m : positive) (d : Z) :
  2 ^ (d - 1) <= Zpos m < 2 ^ d -> Zpos (digits2_pos m) = d.
Proof.
  intros [Hlo Hhi]. pose proof (digits2_pos_bounds m) as [Hlo' Hhi'].
  assert (0 < d).
  { destruct (Z_lt_le_dec 0 d) as [|Hd]; [assumption|].
    assert (2 ^ d <= 2 ^ 0) by (destruct (Z.eq_dec d 0) as [->|]; [lia|rewrite Z.pow_neg_r by lia; cbn; lia]).
    cbn in *. lia. }
  assert (Zpos (digits2_pos m) - 1 < d).
  { apply (Z.pow_lt_mono_r_iff 2); lia. }
  assert (d - 1 < Zpos (digits2_pos m)).
  { apply (Z.pow_lt_mono_r_iff 2); lia. }
  lia.
Qed.

Lemma digits2_pos_scaled_le (a b : positive) (k : Z) :
  0 <= k -> Zpos a <= Zpos b * 2 ^ k ->
  Zpos (digits2_pos a) <= Zpos (digits2_pos b) + k.
Proof.
  intros Hk Hle.
  pose proof (digits2_pos_bounds a) as [Hlo _].
  pose proof (digits2_pos_bounds b) as [_ Hhi].
  assert (Zpos b * 2 ^ k < 2 ^ (Zpos (digits2_pos b) + k)).
  { rewrite Z.pow_add_r by lia. apply Z.mul_lt_mono_pos_r; [apply Z.pow_pos_nonneg; lia|lia]. }
  assert (Zpos (digits2_pos a) - 1 < Zpos (digits2_pos b) + k).
  { apply (Z.pow_lt_mono_r_iff 2); lia. }
  lia.
Qed.

Lemma Pos_iter_xO (m d : positive) : Zpos (Pos.iter xO m d) = Zpos m * 2 ^ Zpos d.
Proof.
  induction d as [|d IH] using Pos.peano_ind.
  - cbn. lia.
  - rewrite Pos.iter_succ, Pos2Z.inj_succ, Z.pow_succ_r by lia.
    rewrite Pos2Z.inj_xO, IH. lia.
Qed.

Lemma iter_pos_invariant {A : Type} (f : A -> A) (P : Z -> A -> Prop) :
  (forall k x, 0 <= k -> P k x -> P (k + 1) (f x)) ->
  forall p k x, 0 <= k -> P k x -> P (k + Zpos p) (SpecFloat.iter_pos f p x).
Proof.
  intros Hstep. induction p as [p IH|p IH|]; intros k x Hk Hx; cbn [SpecFloat.iter_pos].
  - replace (k + Zpos p~1) with (k + 1 + Zpos p + Zpos p) by lia.
    apply IH; [lia|]. apply IH; [lia|]. apply Hstep; assumption.
  - replace (k + Zpos p~0) with (k + Zpos p + Zpos p) by lia.
    apply IH; [lia|]. apply IH; assumption.
  - apply Hstep; assumption.
Qed.

Lemma shr_1_shifted (M k : Z) (mrs : shr_record) :
  0 <= M -> 0 <= k -> shifted M k mrs -> shifted M (k + 1) (shr_1 mrs).
Proof.
  intros HM Hk [Hm Hexact]. destruct mrs as [m r s]. cbn [shr_m shr_r shr_s] in *.
  assert (Hpow : 2 ^ (k + 1) = 2 ^ k * 2) by (rewrite Z.pow_add_r by lia; reflexivity).
  assert (Hpos : 0 < 2 ^ k) by (apply Z.pow_pos_nonneg; lia).
  assert (Hdiv : M / 2 ^ (k + 1) = m / 2).
  { rewrite Hpow, <- Z.div_div by lia. rewrite <- Hm. reflexivity. }
  pose proof (Z.div_mod M (2 ^ k) ltac:(lia)) as HM'. rewrite <- Hm in HM'.
  pose proof (Z.mod_pos_bound M (2 ^ k) ltac:(lia)) as HMb.
  pose proof (Z.div_mod m 2 ltac:(lia)) as Hm'.
  pose proof (Z.mod_pos_bound m 2 ltac:(lia)) as Hmb.
  assert (Hiff : M mod 2 ^ (k + 1) = 0 <-> (M mod 2 ^ k = 0 /\ m mod 2 = 0)).
  { split.
    - intros H0. apply Z.mod_divide in H0; [|lia]. destruct H0 as [c Hc].
      rewrite Hpow in Hc.
      assert (HMk : M mod 2 ^ k = 0).
      { rewrite Hc. replace (c * (2 ^ k * 2)) with (c * 2 * 2 ^ k) by lia.
        apply Z.mod_mul. lia. }
      split; [exact HMk|].
      assert (Hmc : m = c * 2) by nia. rewrite Hmc. apply Z.mod_mul. lia.
    - intros [H1 H2].
      replace M with (m / 2 * 2 ^ (k + 1)) by (rewrite Hpow; nia).
      apply Z.mod_mul. lia. }
  unfold shifted. rewrite Hdiv, Hiff, <- Hexact.
  assert (0 <= m) by (rewrite Hm; apply Z.div_pos; lia).
  destruct m as [|[p|p|]|p]; try lia; cbn [shr_1 shr_m shr_r shr_s orb].
  - split; [reflexivity|]. split; [intros Hrs; split; [exact Hrs|reflexivity]|tauto].
  - split; [rewrite Pos2Z.inj_xI; apply Z.div_unique with (r := 1); lia|].
    split; [discriminate|]. intros [_ Hodd]. exfalso.
    rewrite Pos2Z.inj_xI in Hodd.
    replace (2 * Z.pos p + 1) with (1 + Z.pos p * 2) in Hodd by lia.
    rewrite Z.mod_add in Hodd by lia. discriminate.
  - split; [rewrite Pos2Z.inj_xO; apply Z.div_unique with (r := 0); lia|].
    split; [|tauto]. intros Hrs. split; [exact Hrs|].
    rewrite Pos2Z.inj_xO, Z.mul_comm. apply Z.mod_mul. lia.
  - split; [reflexivity|]. split; [discriminate|]. intros [_ Hodd]. discriminate.
Qed.

Lemma iter_shr_1_shifted (M p : positive) :
  shifted (Zpos M) (Zpos p)
    (SpecFloat.iter_pos shr_1 p {| shr_m := Zpos M; shr_r := false; shr_s := false |}).
Proof.
  change (Zpos p) with (0 + Zpos p).
  apply (iter_pos_invariant shr_1 (shifted (Zpos M))); [|lia|].
  - intros k x Hk. apply shr_1_shifted; lia.
  - split; [cbn; rewrite Z.div_1_r; reflexivity|].
    split; [intros _; apply Z.mod_1_r|reflexivity].
Qed.

Lemma round_nearest_even_cases (mrs : shr_record) :
  let m := round_nearest_even (shr_m mrs) (loc_of_shr_record mrs) in
  m = shr_m mrs \/ (m = shr_m mrs + 1 /\ shr_r mrs || shr_s mrs = true).
Proof.
  destruct mrs as [m [|] [|]]; cbn; auto.
  destruct (Z.even m); auto.
Qed.

Lemma fexp32_eq (e : Z) : fexp 24 128 e = Z.max (e - 24) (-149).
Proof. reflexivity. Qed.

Lemma leb_emax (e : Z) : e <= 104 -> (e <=? 128 - 24) = true.
Proof. intros H. apply Z.leb_le. lia. Qed.

(** A canonical mantissa goes through the rounding unchanged. *)
Lemma binary_round_aux_canonical (s : bool) (m : positive) (e : Z) :
  fexp 24 128 (Zpos (digits2_pos m) + e) = e -> e <= 104 ->
  binary_round_aux 24 128 s (Zpos m) e loc_Exact = S754_finite s m e.
Proof.
  intros Hcan He. unfold binary_round_aux, shr_fexp.
  cbn [Zdigits2 shr_record_of_loc]. rewrite Hcan, Z.sub_diag.
  cbn [shr shr_m loc_of_shr_record round_nearest_even Zdigits2 shr_record_of_loc].
  rewrite Hcan, Z.sub_diag. cbn [shr shr_m].
  rewrite leb_emax by assumption. reflexivity.
Qed.


Lemma canonical_bounded (m : positive) (e : Z) :
  fexp 24 128 (Zpos (digits2_pos m) + e) = e -> e <= 104 ->
  bounded 24 128 m e = true.
Proof.
  intros Hcan He. unfold bounded, canonical_mantissa.
  rewrite Hcan, Z.eqb_refl, leb_emax by assumption. reflexivity.
Qed.

Lemma bounded_canonical (m : positive) (e : Z) :
  bounded 24 128 m e = true ->
  fexp 24 128 (Zpos (digits2_pos m) + e) = e /\ e <= 104.
Proof.
  unfold bounded, canonical_mantissa. intros H.
  apply andb_true_iff in H as [H1 H2].
  apply Z.eqb_eq in H1. apply Z.leb_le in H2. split; [exact H1|lia].
Qed.



(** Rounding [M * 2^e] when bits must be dropped ([e] is below the
    canonical exponent [E]): the result is zero, or a canonical float with
    exponent [E] whose mantissa is at most any integer [K] with
    [M <= K * 2^(E - e)], or the power of two [2^23 * 2^(E+1)] when the
    mantissa rounds up to [2^24]. *)
Lemma binary_round_aux_shift (M : positive) (e K : Z) :
  let E := fexp 24 128 (Zpos (digits2_pos M) + e) in
  e < E -> E <= 104 -> (K < 2 ^ 24 \/ E < 104) ->
  Zpos M <= K * 2 ^ (E - e) ->
  binary_round_aux 24 128 false (Zpos M) e loc_Exact = S754_zero false
  \/ (exists m, binary_round_aux 24 128 false (Zpos M) e loc_Exact
                = S754_finite false m E
                /\ bounded 24 128 m E = true /\ Zpos m <= K)
  \/ (binary_round_aux 24 128 false (Zpos M) e loc_Exact
      = S754_finite false (2 ^ 23) (E + 1)
      /\ 2 ^ 24 <= K).
Proof.
  intros E HeE HE HK HM.
  pose proof (digits2_pos_bounds M) as [Hlo Hhi].
  set (d := Zpos (digits2_pos M)) in *.
  assert (HEd : E = Z.max (d + e - 24) (-149)) by reflexivity.
  destruct (E - e) as [|p|p] eqn:Hp; try lia.
  assert (Hpow : 0 < 2 ^ Zpos p) by (apply Z.pow_pos_nonneg; lia).
  unfold binary_round_aux, shr_fexp. cbn [Zdigits2 shr_record_of_loc].
  fold d. fold E. rewrite Hp. cbn [shr].
  pose proof (iter_shr_1_shifted M p) as [Hm Hexact].
  pose proof (round_nearest_even_cases
                (SpecFloat.iter_pos shr_1 p {| shr_m := Zpos M; shr_r := false; shr_s := false |}))
    as Hround.
  cbv zeta in Hround.
  set (mrs := SpecFloat.iter_pos shr_1 p _) in *.
  set (m2 := round_nearest_even (shr_m mrs) (loc_of_shr_record mrs)) in *.
  replace (e + Zpos p) with E by lia.
  (* the truncated mantissa *)
  assert (Hm1 : 0 <= shr_m mrs < 2 ^ 24).
  { rewrite Hm. split; [apply Z.div_pos; lia|].
    apply Z.div_lt_upper_bound; [lia|].
    rewrite <- Z.pow_add_r by lia.
    apply Z.lt_le_trans with (1 := Hhi). apply Z.pow_le_mono_r; lia. }
  assert (Hm1K : shr_m mrs <= K).
  { rewrite Hm. apply Z.div_le_upper_bound; lia. }
  assert (Hm2K : m2 <= K).
  { destruct Hround as [->|[-> Hrs]]; [exact Hm1K|].
    assert (Hne : Zpos M mod 2 ^ Zpos p <> 0).
    { intros H0. apply Hexact in H0. congruence. }
    rewrite Hm.
    pose proof (Z.div_mod (Zpos M) (2 ^ Zpos p) ltac:(lia)).
    pose proof (Z.mod_pos_bound (Zpos M) (2 ^ Zpos p) ltac:(lia)).
    nia. }
  assert (Hm2 : shr_m mrs <= m2 <= 2 ^ 24) by (destruct Hround as [->|[-> _]]; lia).
  assert (Hnormal : -149 < E -> 2 ^ 23 <= shr_m mrs).
  { intros Hn. rewrite Hm. apply Z.div_le_lower_bound; [lia|].
    rewrite <- Z.pow_add_r by lia.
    apply Z.le_trans with (2 := Hlo). apply Z.pow_le_mono_r; lia. }
  clearbody m2. clear Hround.
  destruct m2 as [|m|m]; [| |lia].
  - (* the mantissa rounds to zero *)
    left. cbn [Zdigits2]. rewrite fexp32_eq.
    destruct (Z.max (0 + E - 24) (-149) - E) eqn:Hn; try lia; reflexivity.
  - pose proof (digits2_pos_bounds m) as [Hmlo Hmhi].
    cbn [Zdigits2]. set (dm := Zpos (digits2_pos m)) in *.
    destruct (Z_lt_le_dec (Zpos m) (2 ^ 24)) as [Hlt|Hge].
    + (* no carry out of the mantissa *)
      right. left. exists m.
      assert (dm <= 24).
      { assert (dm - 1 < 24) by (apply (Z.pow_lt_mono_r_iff 2); lia). lia. }
      assert (Hcan : fexp 24 128 (dm + E) = E).
      { rewrite fexp32_eq. destruct (Z.eq_dec E (-149)) as [HE'|HE']; [lia|].
        assert (2 ^ 23 <= Zpos m) by (specialize (Hnormal ltac:(lia)); lia).
        assert (23 < dm) by (apply (Z.pow_lt_mono_r_iff 2); lia). lia. }
      rewrite Hcan, Z.sub_diag. cbn [shr shr_m].
      rewrite leb_emax by assumption.
      split; [reflexivity|]. split; [apply canonical_bounded; assumption|exact Hm2K].
    + (* the mantissa rounds up to 2^24 *)
      right. right.
      assert (Hm24 : m = (2 ^ 24)%positive) by (apply Pos2Z.inj; change (Zpos (2 ^ 24)) with (2 ^ 24); lia).
      subst m dm. rewrite fexp32_eq.
      change (Zpos (digits2_pos (2 ^ 24))) with 25.
      replace (Z.max (25 + E - 24) (-149) - E) with 1 by lia.
      change (Zpos (2 ^ 24)) with (Zpos 16777216).
      cbn [shr SpecFloat.iter_pos shr_1].
      cbn [shr_m]. rewrite leb_emax by lia.
      split; [reflexivity|]. change (2 ^ 24) with (Zpos (2 ^ 24)). exact Hm2K.
Qed.


(** Rounding a positive value that does not exceed the canonical float
    [mf * 2^ef]: the result is zero or a canonical float that does not
    exceed it either. *)
Lemma binary_round_le (M mf : positive) (e ef : Z) :
  bounded 24 128 mf ef = true -> e <= ef -> Zpos M <= Zpos mf * 2 ^ (ef - e) ->
  binary_round 24 128 false M e = S754_zero false
  \/ exists m3 e3,
       binary_round 24 128 false M e = S754_finite false m3 e3
       /\ bounded 24 128 m3 e3 = true
       /\ (e3 < ef \/ (e3 = ef /\ Zpos m3 <= Zpos mf)).
Proof.
  intros Hb He HM. apply bounded_canonical in Hb as [Hcan Hef].
  pose proof (digits2_pos_bounds mf) as [Hflo Hfhi].
  pose proof (digits2_pos_scaled_le M mf (ef - e) ltac:(lia) HM) as Hd.
  rewrite fexp32_eq in Hcan.
  set (df := Zpos (digits2_pos mf)) in *.
  assert (Hdf : df <= 24) by lia.
  assert (Hmf : Zpos mf < 2 ^ 24).
  { apply Z.lt_le_trans with (1 := Hfhi). apply Z.pow_le_mono_r; lia. }
  unfold binary_round.
  set (d := Zpos (digits2_pos M)) in *.
  set (E := fexp 24 128 (d + e)).
  assert (HEd : E = Z.max (d + e - 24) (-149)) by reflexivity.
  assert (HEef : E <= ef) by lia.
  unfold shl_align. destruct (E - e) as [|p|p] eqn:Hp.
  - (* the value is representable as it is *)
    assert (HEe : E = e) by lia.
    rewrite binary_round_aux_canonical by (exact HEe || lia).
    right. exists M, e. split; [reflexivity|].
    split; [apply canonical_bounded; [exact HEe|lia]|].
    destruct (Z.eq_dec e ef) as [->|]; [right|left; lia].
    split; [reflexivity|]. rewrite Z.sub_diag, Z.pow_0_r, Z.mul_1_r in HM. lia.
  - (* low bits are rounded away *)
    assert (Hsplit : 2 ^ (ef - e) = 2 ^ (ef - E) * 2 ^ (E - e))
      by (rewrite <- Z.pow_add_r by lia; f_equal; lia).
    destruct (binary_round_aux_shift M e (Zpos mf * 2 ^ (ef - E)))
      as [Hz | [(m & Hr & Hbm & Hle) | [Hr Hle]]]; fold d; fold E; try lia.
    + destruct (Z.eq_dec E ef) as [HE'|HE']; [left|right; lia].
      rewrite HE', Z.sub_diag, Z.pow_0_r, Z.mul_1_r. lia.
    + left. exact Hz.
    + right. exists m, E. split; [exact Hr|]. split; [exact Hbm|].
      destruct (Z.eq_dec E ef) as [HE'|HE']; [right|left; lia].
      split; [exact HE'|]. rewrite HE', Z.sub_diag, Z.pow_0_r, Z.mul_1_r in Hle. lia.
    + assert (HEne : E <> ef).
      { intros HE'. rewrite HE', Z.sub_diag, Z.pow_0_r, Z.mul_1_r in Hle.
        clear - Hle Hmf. lia. }
      right. exists (2 ^ 23)%positive, (E + 1). split; [exact Hr|].
      split; [apply canonical_bounded;
               [rewrite fexp32_eq; change (Zpos (digits2_pos (2 ^ 23))) with 24; lia|lia]|].
      destruct (Z.eq_dec (E + 1) ef) as [HE'|HE']; [right|left; lia].
      split; [exact HE'|].
      assert (23 < df) by lia.
      assert (2 ^ 23 <= 2 ^ (df - 1)) by (apply Z.pow_le_mono_r; lia).
      change (Zpos (2 ^ 23)) with (2 ^ 23). lia.
  - (* the mantissa is shifted left onto the canonical exponent *)
    assert (Hshift : Zpos (Pos.iter xO M p) = Zpos M * 2 ^ Zpos p) by apply Pos_iter_xO.
    pose proof (digits2_pos_bounds M) as [Hlo Hhi]. fold d in Hlo, Hhi.
    assert (Hdz : Zpos (digits2_pos (Pos.iter xO M p)) = d + Zpos p).
    { apply digits2_pos_unique. rewrite Hshift.
      assert (0 < 2 ^ Zpos p) by (apply Z.pow_pos_nonneg; lia).
      replace (d + Zpos p - 1) with (d - 1 + Zpos p) by lia.
      rewrite !Z.pow_add_r by lia. nia. }
    assert (Hcz : fexp 24 128 (Zpos (digits2_pos (Pos.iter xO M p)) + E) = E).
    { rewrite Hdz. replace (d + Zpos p + E) with (d + e) by lia. reflexivity. }
    rewrite binary_round_aux_canonical by (assumption || lia).
    right. exists (Pos.iter xO M p), E. split; [reflexivity|].
    split; [apply canonical_bounded; [assumption|lia]|]. left. lia.
Qed.

Lemma shl_align_fst (m : positive) (e e' : Z) :
  e' <= e -> Zpos (fst (shl_align m e e')) = Zpos m * 2 ^ (e - e').
Proof.
  intros He. unfold shl_align. destruct (e' - e) as [|d|d] eqn:Hd; cbn [fst]; try lia.
  - replace (e - e') with 0 by lia. lia.
  - rewrite Pos_iter_xO. f_equal. f_equal. lia.
Qed.

Lemma binary_round_aux_sign (s : bool) (m e : Z) (l : location) :
  match binary_round_aux 24 128 s m e l with
  | S754_nan => True
  | S754_zero s' | S754_infinity s' | S754_finite s' _ _ => s' = s
  end.
Proof.
  unfold binary_round_aux.
  destruct (shr_fexp 24 128 m e l) as [mrs' e'].
  destruct (shr_fexp 24 128 _ e' loc_Exact) as [mrs'' e''].
  destruct (shr_m mrs''); [reflexivity| |exact I].
  destruct (e'' <=? 128 - 24); reflexivity.
Qed.

Lemma SFleb_zero_not_negative (x : spec_float) :
  SFleb (S754_zero false) x = true -> not_negative x.
Proof. destruct x as [s|[|]| |[|] m e]; cbn; intros H; auto; discriminate. Qed.

Lemma SFmul_not_negative (a b : spec_float) :
  not_negative a -> not_negative b -> not_negative (SFmul 24 128 a b).
Proof.
  destruct a as [sa|sa| |sa ma ea], b as [sb|sb| |sb mb eb]; cbn [not_negative SFmul];
    intros Ha Hb; subst; try exact I; try reflexivity.
  pose proof (binary_round_aux_sign (xorb false false) (Zpos (ma * mb)) (ea + eb) loc_Exact) as Hs.
  destruct (binary_round_aux 24 128 _ _ _ _); cbn [not_negative]; auto.
Qed.

Lemma SFleb_refl (x : spec_float) : x <> S754_nan -> SFleb x x = true.
Proof.
  unfold SFleb. destruct x as [s|[|]| |[|] m e]; cbn [SFcompare]; intros Hx;
    try reflexivity; try congruence.
  - rewrite Z.compare_refl, Pos.compare_cont_refl. reflexivity.
  - rewrite Z.compare_refl, Pos.compare_cont_refl. reflexivity.
Qed.

(** One step of fuel consumption: from a valid positive amount [f],
    subtracting a consumption [c] that is not negative and clamping at zero
    gives a valid amount between zero and [f]. *)
Lemma clamped_sub_bounds (f c : F32.float) :
  F32.valid f = true -> F32.gtb f F32.zero = true -> not_negative c ->
  let f' := F32.max F32.zero (F32.sub f c) in
  F32.valid f' = true
  /\ F32.leb F32.zero f' = true
  /\ F32.leb f' f = true.
Proof.
  unfold F32.valid, F32.gtb, F32.max, F32.sub, F32.leb, F32.ltb, F32.zero,
    F32.prec, F32.emax.
  intros Hvalid Hpos Hc.
  destruct f as [sf|[|]| |[|] mf ef]; try discriminate Hpos.
  - (* an infinite amount *)
    destruct c as [sc|sc| |sc mc ec]; cbn in Hc; subst; cbn; auto.
  - destruct c as [sc|sc| |sc mc ec]; cbn [not_negative] in Hc; subst.
    + cbn. rewrite Z.compare_refl, Pos.compare_cont_refl. auto.
    + cbn. auto.
    + cbn. auto.
    + cbn [valid_binary] in Hvalid. cbn [SFsub cond_Zopp].
      set (ez := Z.min ef ec).
      pose proof (shl_align_fst mf ef ez ltac:(lia)) as Hf.
      set (D := Zpos (fst (shl_align mf ef ez)) - Zpos (fst (shl_align mc ec ez))).
      assert (HD : D <= Zpos mf * 2 ^ (ef - ez)) by lia.
      clearbody D. destruct D as [|M|M]; cbn [binary_normalize].
      * cbn. auto.
      * destruct (binary_round_le M mf ez ef Hvalid ltac:(lia) HD)
          as [-> | (m3 & e3 & -> & Hb & Hle)]; [cbn; auto|].
        cbn [SFltb SFcompare valid_binary].
        split; [exact Hb|]. split; [reflexivity|].
        unfold SFleb. cbn [SFcompare].
        destruct Hle as [Hlt | [-> Hm]].
        -- apply Z.compare_lt_iff in Hlt. rewrite Hlt. reflexivity.
        -- rewrite Z.compare_refl.
           change (Pos.compare_cont Eq m3 mf) with (Pos.compare m3 mf).
           destruct (Pos.compare_spec m3 mf); [reflexivity|reflexivity|lia].
      * unfold binary_round. destruct (shl_align M ez _) as [mz ez'].
        pose proof (binary_round_aux_sign true (Zpos mz) ez' loc_Exact) as Hs.
        destruct (binary_round_aux 24 128 true _ _ _); subst; cbn; auto.
Qed.

(** ** Landing validity and collision detection on the 2D terrain *)

Lemma in_span_true x s : Terrain.in_span x s = true <-> span_contains x s.
Proof. unfold Terrain.in_span, span_contains. apply andb_true_iff. Qed.

Lemma scan_landing2D_true l x segs :
  Terrain.scan_landing2D l x segs = true <->
  (exists s, s ∈ segs /\ TerrainSegment.isLandingPad s = true /\ span_contains x s)
  /\ safe_velocity2D l.
Proof.
  unfold safe_velocity2D.
  induction segs as [|s segs IH]; cbn [Terrain.scan_landing2D].
  - split; [discriminate|]. intros [(s & Hs & _) _]. inversion Hs.
  - destruct (TerrainSegment.isLandingPad s && Terrain.in_span x s) eqn:Hpad.
    + apply andb_true_iff in Hpad as [Hp Hin]. apply in_span_true in Hin.
      destruct (Terrain.safeVertical l && Terrain.safeHorizontal l) eqn:Hsafe.
      * apply andb_true_iff in Hsafe as [Hv Hh].
        split; [intros _|reflexivity].
        split; [exists s; split; [left|]; auto | split; assumption].
      * rewrite IH. split.
        -- intros [(s' & Hs' & H') Hvel]. split; [|exact Hvel].
           exists s'. split; [right; exact Hs' | exact H'].
        -- intros [_ [Hv Hh]]. exfalso.
           unfold Terrain.safeVertical, Terrain.safeHorizontal, Lander.GetVelocity in Hsafe.
           rewrite Hv, Hh in Hsafe. discriminate.
    + rewrite IH. split.
      * intros [(s' & Hs' & H') Hvel]. split; [|exact Hvel].
        exists s'. split; [right; exact Hs' | exact H'].
      * intros [(s' & Hs' & Hp & Hin) Hvel]. split; [|exact Hvel].
        apply elem_of_cons in Hs' as [->|Hs'].
        -- apply in_span_true in Hin. rewrite Hp, Hin in Hpad. discriminate.
        -- exists s'. auto.
Qed.

(** C1. [IsValidLanding2D] is true exactly when some landing-pad segment's
    span contains the lander's x-coordinate in screen pixels and the velocity
    is within 2.0 m/s vertically and 1.0 m/s horizontally; it is false when
    no landing-pad segment contains the x-coordinate; and its result is a
    function of the segments, the conversion factor, the x-position and the
    velocity alone, so a repeated call on an unchanged state returns the
    same boolean. *)
Theorem IsValidLanding2D_iff_pad_and_velocity (t : Terrain.t) (l : Lander.t) :
  let x := F32.mul (at0 (Entity.mPosition (Lander.base l))) (Terrain.mPixelsPerMeter t) in
  (Terrain.IsValidLanding2D t (Some l) = true <->
     (exists s, s ∈ Terrain.mSegments2D t
                /\ TerrainSegment.isLandingPad s = true /\ span_contains x s)
     /\ safe_velocity2D l)
  /\ ((forall s, s ∈ Terrain.mSegments2D t ->
         TerrainSegment.isLandingPad s = true -> ~ span_contains x s) ->
      Terrain.IsValidLanding2D t (Some l) = false)
  /\ (forall (t' : Terrain.t) (l' : Lander.t),
        Terrain.mSegments2D t' = Terrain.mSegments2D t ->
        Terrain.mPixelsPerMeter t' = Terrain.mPixelsPerMeter t ->
        at0 (Entity.mPosition (Lander.base l')) = at0 (Entity.mPosition (Lander.base l)) ->
        at0 (Lander.mVelocity l') = at0 (Lander.mVelocity l) ->
        at1 (Lander.mVelocity l') = at1 (Lander.mVelocity l) ->
        Terrain.IsValidLanding2D t' (Some l') = Terrain.IsValidLanding2D t (Some l)).
Proof.
  intros x. split; [|split].
  - apply scan_landing2D_true.
  - intros Hno. apply not_true_is_false. intros Htrue.
    apply scan_landing2D_true in Htrue as [(s & Hs & Hp & Hin) _].
    exact (Hno s Hs Hp Hin).
  - intros t' l' Hsegs Hppm Hx Hv0 Hv1.
    apply eq_true_iff_eq. unfold Terrain.IsValidLanding2D.
    rewrite !scan_landing2D_true.
    unfold Terrain.screenLanderX, Lander.GetPosition, safe_velocity2D.
    rewrite Hsegs, Hppm, Hx, Hv0, Hv1. reflexivity.
Qed.

Lemma scan_collision2D_None t x bottom segs :
  Terrain.scan_collision2D t x bottom segs = None <->
  forall s, s ∈ segs -> ~ touches_as_computed t x bottom s.
Proof.
  unfold touches_as_computed.
  induction segs as [|s segs IH]; cbn [Terrain.scan_collision2D].
  - split; [|reflexivity]. intros _ s Hs. inversion Hs.
  - destruct (Terrain.in_span x s) eqn:Hin;
      [destruct (F32.leb bottom (Terrain.terrainHeightMeters t x s)) eqn:Hle|].
    + split; [discriminate|]. intros Hall. exfalso.
      apply (Hall s); [left|]. split; [apply in_span_true|]; assumption.
    + rewrite IH. split.
      * intros Hall s' Hs'. apply elem_of_cons in Hs' as [->|Hs']; [|auto].
        intros [_ Hle']. congruence.
      * intros Hall s' Hs'. apply Hall. right. exact Hs'.
    + rewrite IH. split.
      * intros Hall s' Hs'. apply elem_of_cons in Hs' as [->|Hs']; [|auto].
        intros [Hin' _]. apply in_span_true in Hin'. congruence.
      * intros Hall s' Hs'. apply Hall. right. exact Hs'.
Qed.

Lemma scan_collision2D_Some t x bottom segs h :
  Terrain.scan_collision2D t x bottom segs = Some h ->
  exists pre s post,
    segs = pre ++ s :: post
    /\ (forall s', s' ∈ pre -> ~ touches_as_computed t x bottom s')
    /\ touches_as_computed t x bottom s
    /\ h = Terrain.terrainHeightMeters t x s.
Proof.
  induction segs as [|s segs IH]; cbn [Terrain.scan_collision2D]; [discriminate|].
  assert (Hskip :
    ~ touches_as_computed t x bottom s ->
    Terrain.scan_collision2D t x bottom segs = Some h ->
    exists pre s0 post,
      s :: segs = pre ++ s0 :: post
      /\ (forall s', s' ∈ pre -> ~ touches_as_computed t x bottom s')
      /\ touches_as_computed t x bottom s0
      /\ h = Terrain.terrainHeightMeters t x s0).
  { intros Hno Hscan. destruct (IH Hscan) as (pre & s0 & post & -> & Hpre & Hs0 & Hh).
    exists (s :: pre), s0, post. split; [reflexivity|]. split; [|auto].
    intros s' Hs'. apply elem_of_cons in Hs' as [->|Hs']; auto. }
  destruct (Terrain.in_span x s) eqn:Hin;
    [destruct (F32.leb bottom (Terrain.terrainHeightMeters t x s)) eqn:Hle|].
  - intros [= <-]. exists [], s, segs. split; [reflexivity|].
    split; [intros s' Hs'; inversion Hs'|].
    split; [|reflexivity]. split; [apply in_span_true|]; assumption.
  - apply Hskip. intros [_ Hle']. congruence.
  - apply Hskip. intros [Hin' _]. apply in_span_true in Hin'. congruence.
Qed.

(** C2. For a non-null lander, [CheckCollision2D] returns true exactly when
    some segment's span contains the lander's bottom-center x in screen
    pixels and the lander's bottom (position.y minus half its height in
    meters) is at or below that segment's y, linearly interpolated at that x
    ([y1 + (x - x1) / (x2 - x1) * (y2 - y1)]) and converted to physics units
    ([(mHeight - y) / pixelsPerMeter], in meters); the collision height it
    then writes is this interpolated height of the first such segment, and
    without a collision the output is left as it was. *)
Theorem CheckCollision2D_iff_touches (t : Terrain.t) (l : Lander.t) (h0 : F32.float) :
  let x := F32.mul (at0 (Entity.mPosition (Lander.base l))) (Terrain.mPixelsPerMeter t) in
  let bottom :=
    F32.sub (at1 (Entity.mPosition (Lander.base l)))
            (F32.div (F32.div (Lander.mHeight l) (Terrain.mPixelsPerMeter t))
                     (F32.of_int 2)) in
  let r := Terrain.CheckCollision2D t (Some l) h0 in
  (fst r = true <-> exists s, s ∈ Terrain.mSegments2D t /\ touches t x bottom s)
  /\ (fst r = true ->
      exists pre s post,
        Terrain.mSegments2D t = pre ++ s :: post
        /\ (forall s', s' ∈ pre -> ~ touches t x bottom s')
        /\ touches t x bottom s
        /\ snd r = interpolated_height t x s)
  /\ (fst r = false -> snd r = h0).
Proof.
  intros x bottom r.
  enough (H : (fst r = true <->
               exists s, s ∈ Terrain.mSegments2D t /\ touches_as_computed t x bottom s)
              /\ (fst r = true ->
                  exists pre s post,
                    Terrain.mSegments2D t = pre ++ s :: post
                    /\ (forall s', s' ∈ pre -> ~ touches_as_computed t x bottom s')
                    /\ touches_as_computed t x bottom s
                    /\ snd r = Terrain.terrainHeightMeters t x s)
              /\ (fst r = false -> snd r = h0)) by exact H.
  subst r. unfold Terrain.CheckCollision2D.
  change (Terrain.screenLanderX t l) with x.
  change (Terrain.landerBottomY t l) with bottom.
  destruct (Terrain.scan_collision2D t x bottom (Terrain.mSegments2D t)) as [h|] eqn:Hscan;
    cbn [fst snd].
  - destruct (scan_collision2D_Some _ _ _ _ _ Hscan) as (pre & s & post & Hsegs & Hpre & Hs & Hh).
    split; [|split].
    + split; [intros _|reflexivity]. exists s. split; [|exact Hs].
      rewrite Hsegs. apply elem_of_app. right. left.
    + intros _. exists pre, s, post. auto.
    + discriminate.
  - split; [|split].
    + split; [discriminate|]. intros (s & Hs & Ht). exfalso.
      exact (proj1 (scan_collision2D_None _ _ _ _) Hscan s Hs Ht).
    + discriminate.
    + reflexivity.
Qed.

(** ** Landing validity on the 3D terrain *)

Lemma in_bounds_true x z tri : Terrain.in_bounds x z tri = true <-> bbox_contains x z tri.
Proof.
  unfold Terrain.in_bounds, bbox_contains. cbv zeta.
  rewrite !andb_true_iff. tauto.
Qed.

Lemma safeVelocity3D_true l : Terrain.safeVelocity3D l = true <-> safe_velocity3D l.
Proof.
  unfold Terrain.safeVelocity3D, safe_velocity3D, Lander.GetVelocity. cbv zeta.
  rewrite !andb_true_iff. tauto.
Qed.

Lemma scan_landing3D_true l tris :
  Terrain.scan_landing3D l tris = true <->
  (exists tri, tri ∈ tris /\ TerrainTriangle.isLandingPad tri = true
               /\ bbox_contains (at0 (Lander.GetPosition l)) (at2 (Lander.GetPosition l)) tri)
  /\ safe_velocity3D l.
Proof.
  induction tris as [|tri tris IH]; cbn [Terrain.scan_landing3D].
  - split; [discriminate|]. intros [(s & Hs & _) _]. inversion Hs.
  - assert (Hnext :
      ~ (TerrainTriangle.isLandingPad tri = true
         /\ bbox_contains (at0 (Lander.GetPosition l)) (at2 (Lander.GetPosition l)) tri
         /\ safe_velocity3D l) ->
      Terrain.scan_landing3D l tris = true <->
      (exists tri0, tri0 ∈ tri :: tris /\ TerrainTriangle.isLandingPad tri0 = true
         /\ bbox_contains (at0 (Lander.GetPosition l)) (at2 (Lander.GetPosition l)) tri0)
      /\ safe_velocity3D l).
    { intros Hno. rewrite IH. split.
      - intros [(tri0 & Hin & H') Hvel]. split; [|exact Hvel].
        exists tri0. split; [right; exact Hin | exact H'].
      - intros [(tri0 & Hin & Hp & Hb) Hvel]. split; [|exact Hvel].
        apply elem_of_cons in Hin as [->|Hin]; [exfalso; apply Hno; auto|].
        exists tri0. auto. }
    destruct (TerrainTriangle.isLandingPad tri) eqn:Hpad; cbn [negb].
    + destruct (Terrain.in_bounds _ _ tri) eqn:Hin.
      * destruct (Terrain.safeVelocity3D l) eqn:Hsafe.
        -- apply in_bounds_true in Hin. apply safeVelocity3D_true in Hsafe.
           split; [intros _|reflexivity].
           split; [exists tri; split; [left|]; auto | exact Hsafe].
        -- apply Hnext. intros (_ & _ & Hvel).
           apply safeVelocity3D_true in Hvel. congruence.
      * apply Hnext. intros (_ & Hb & _). apply in_bounds_true in Hb. congruence.
    + apply Hnext. intros (Hp & _). discriminate.
Qed.

(** C7. For a (non-null) lander, [IsValidLanding3D] returns true exactly when
    some landing-pad triangle's (x, z) bounding box contains the lander's
    (x, z) position and the velocity satisfies [|vx| <= 2.0],
    [0 <= vy <= 2.0] and [|vz| <= 2.0]. *)
Theorem IsValidLanding3D_iff_pad_and_velocity (t : Terrain.t) (l : Lander.t) :
  exists b : bool,
    Terrain.IsValidLanding3D t (Some l) = Done b
    /\ (b = true <->
        (exists tri, tri ∈ Terrain.mTriangles3D t
                     /\ TerrainTriangle.isLandingPad tri = true
                     /\ bbox_contains (at0 (Entity.mPosition (Lander.base l)))
                                      (at2 (Entity.mPosition (Lander.base l))) tri)
        /\ safe_velocity3D l).
Proof.
  exists (Terrain.scan_landing3D l (Terrain.mTriangles3D t)).
  split; [reflexivity|]. apply scan_landing3D_true.
Qed.

Lemma IsValidLanding2D_depends (t : Terrain.t) (l l' : Lander.t) :
  at0 (Lander.GetPosition l') = at0 (Lander.GetPosition l) ->
  at0 (Lander.mVelocity l') = at0 (Lander.mVelocity l) ->
  at1 (Lander.mVelocity l') = at1 (Lander.mVelocity l) ->
  Terrain.IsValidLanding2D t (Some l') = Terrain.IsValidLanding2D t (Some l).
Proof.
  intros Hx Hv0 Hv1. apply eq_true_iff_eq. unfold Terrain.IsValidLanding2D.
  rewrite !scan_landing2D_true. unfold Terrain.screenLanderX, safe_velocity2D.
  rewrite Hx, Hv0, Hv1. reflexivity.
Qed.

(** ** The 2D physics step *)

Section PhysicsProperties.
Variable sinf cosf : F32.float -> F32.float.
Variable btRotateUp : F32.float -> F32.float -> F32.float -> float3.
Variable stepBullet : Physics.t -> F32.float -> Physics.t.

Local Abbreviation Update2D := (Physics.Update2D sinf cosf).
Local Abbreviation Update := (Physics.Update sinf cosf stepBullet).
Local Abbreviation ApplyThrust := (Physics.ApplyThrust sinf cosf btRotateUp).
Local Abbreviation integrate2D := (Physics.integrate2D sinf cosf).
Local Abbreviation run_op := (run_op sinf cosf btRotateUp stepBullet).
Local Abbreviation run_ops := (run_ops sinf cosf btRotateUp stepBullet).

Lemma CheckCollisions2D_hit p l terrain h :
  Physics.mLander p = Some l -> Physics.mTerrain p = Some terrain ->
  Lander.mLanded l = false -> Lander.mCrashed l = false ->
  Terrain.CheckCollision2D terrain (Some l) F32.zero = (true, h) ->
  exists l', Physics.CheckCollisions2D p = (true, Physics.set_mLander p (Some l'))
             /\ settled p terrain l h l'.
Proof.
  intros Hl Ht Hlanded Hcrashed Hhit.
  unfold Physics.CheckCollisions2D. rewrite Hl, Ht.
  unfold Lander.IsLanded, Lander.IsCrashed. rewrite Hlanded, Hcrashed.
  cbn [orb]. rewrite Hhit.
  set (l1 := Lander.SetPosition l _ _ _).
  assert (Hvalid : Terrain.IsValidLanding2D terrain (Some l1)
                   = Terrain.IsValidLanding2D terrain (Some l))
    by (apply IsValidLanding2D_depends; reflexivity).
  rewrite Hvalid.
  unfold settled.
  destruct (Terrain.IsValidLanding2D terrain (Some l)); eexists;
    (split; [reflexivity|]); repeat split; try reflexivity; exact Hcrashed || exact Hlanded.
Qed.

Lemma CheckCollisions2D_miss p l terrain h :
  Physics.mLander p = Some l -> Physics.mTerrain p = Some terrain ->
  Terrain.CheckCollision2D terrain (Some l) F32.zero = (false, h) ->
  Physics.CheckCollisions2D p = (false, p).
Proof.
  intros Hl Ht Hmiss. unfold Physics.CheckCollisions2D. rewrite Hl, Ht, Hmiss.
  destruct (Lander.IsLanded l || Lander.IsCrashed l); reflexivity.
Qed.

Lemma CheckCollisions2D_terminal p l :
  Physics.mLander p = Some l ->
  Lander.mLanded l = true \/ Lander.mCrashed l = true ->
  Physics.CheckCollisions2D p = (false, p).
Proof.
  intros Hl Hterm. unfold Physics.CheckCollisions2D. rewrite Hl.
  destruct (Physics.mTerrain p); [|reflexivity].
  unfold Lander.IsLanded, Lander.IsCrashed.
  destruct Hterm as [-> | ->]; [reflexivity|]. rewrite orb_true_r. reflexivity.
Qed.

Lemma CheckCollisions2D_exclusive p :
  flags_exclusive p -> flags_exclusive (snd (Physics.CheckCollisions2D p)).
Proof.
  intros Hex.
  destruct (Physics.mLander p) as [l|] eqn:Hl;
    [destruct (Physics.mTerrain p) as [terrain|] eqn:Ht|];
    try (unfold Physics.CheckCollisions2D; rewrite Hl, ?Ht; exact Hex).
  destruct (Lander.mLanded l) eqn:Hlanded;
    [rewrite (CheckCollisions2D_terminal p l); auto|].
  destruct (Lander.mCrashed l) eqn:Hcrashed;
    [rewrite (CheckCollisions2D_terminal p l); auto|].
  destruct (Terrain.CheckCollision2D terrain (Some l) F32.zero) as [[|] h] eqn:Hhit.
  - destruct (CheckCollisions2D_hit p l terrain h) as (l' & -> & Hs); auto.
    destruct Hs as (_ & _ & _ & Hland & Hcrash & _).
    intros l0 [= <-] [H1 H2]. rewrite Hland in H1. rewrite Hcrash, H1 in H2.
    discriminate.
  - rewrite (CheckCollisions2D_miss p l terrain h); auto.
Qed.

Lemma integrate2D_flags p l dt :
  Lander.mLanded (integrate2D p l dt) = Lander.mLanded l
  /\ Lander.mCrashed (integrate2D p l dt) = Lander.mCrashed l
  /\ Lander.mFuel (integrate2D p l dt) = Lander.mFuel l.
Proof.
  unfold Physics.integrate2D. cbv zeta.
  destruct (Lander.IsThrustActive _); cbn; auto.
Qed.

Lemma Update2D_flying p l terrain dt :
  Physics.mLander p = Some l -> Physics.mTerrain p = Some terrain ->
  Lander.mLanded l = false -> Lander.mCrashed l = false ->
  Update2D p dt
  = snd (Physics.CheckCollisions2D
           (Physics.set_mLander p
              (Some (integrate2D p l (F32.mul dt (Physics.mTimeScale p)))))).
Proof.
  intros Hl Ht Hlanded Hcrashed. unfold Physics.Update2D. rewrite Hl, Ht.
  unfold Lander.IsLanded, Lander.IsCrashed. rewrite Hlanded, Hcrashed.
  reflexivity.
Qed.

Lemma Update2D_terminal p l dt :
  Physics.mLander p = Some l ->
  Lander.mLanded l = true \/ Lander.mCrashed l = true ->
  Update2D p dt = p.
Proof.
  intros Hl Hterm. unfold Physics.Update2D. rewrite Hl.
  destruct (Physics.mTerrain p); [|reflexivity].
  replace (negb (Lander.IsLanded l) && negb (Lander.IsCrashed l)) with false.
  - rewrite (CheckCollisions2D_terminal p l); auto.
  - unfold Lander.IsLanded, Lander.IsCrashed.
    destruct Hterm as [-> | ->]; [reflexivity|]. rewrite andb_false_r. reflexivity.
Qed.

Lemma Update2D_exclusive p dt : flags_exclusive p -> flags_exclusive (Update2D p dt).
Proof.
  intros Hex.
  destruct (Physics.mLander p) as [l|] eqn:Hl;
    [destruct (Physics.mTerrain p) as [terrain|] eqn:Ht|];
    try (unfold Physics.Update2D; rewrite Hl, ?Ht; exact Hex).
  destruct (Lander.mLanded l) eqn:Hlanded;
    [rewrite (Update2D_terminal p l); auto|].
  destruct (Lander.mCrashed l) eqn:Hcrashed;
    [rewrite (Update2D_terminal p l); auto|].
  rewrite (Update2D_flying p l terrain) by assumption.
  apply CheckCollisions2D_exclusive.
  intros l0 [= <-]. destruct (integrate2D_flags p l (F32.mul dt (Physics.mTimeScale p)))
    as (-> & -> & _).
  rewrite Hlanded. intros [? _]. discriminate.
Qed.
Lemma Lander_ApplyThrust_zero (l : Lander.t) :
  Lander.ApplyThrust l F32.zero
  = Lander.set_mThrustLevel (Lander.set_mThrustActive l false) F32.zero.
Proof. unfold Lander.ApplyThrust. destruct (F32.leb _ _); reflexivity. Qed.

(** The lander [ApplyThrust] leaves behind: the one it was given, or that
    one with the thrust switched off. *)
Lemma ApplyThrust_lander p l dt :
  let newFuel :=
    F32.max F32.zero
      (F32.sub (Lander.mFuel l)
         (F32.mul (F32.mul (F32.of_int 10) (Lander.mThrustLevel l)) dt)) in
  snd (ApplyThrust p (Some l) dt)
  = Some (match Physics.mLanderRigidBody p with
          | Some _ =>
              if Lander.mThrustActive l
                 && (F32.gtb (Lander.mFuel l) F32.zero && F32.leb newFuel F32.zero)
              then Lander.set_mThrustLevel (Lander.set_mThrustActive l false) F32.zero
              else l
          | None => l
          end).
Proof.
  cbv zeta. unfold Physics.ApplyThrust.
  destruct (Physics.mLanderRigidBody p) as [body|]; [|reflexivity].
  unfold Lander.IsThrustActive, Lander.GetFuel, Lander.GetThrustLevel.
  destruct (Lander.mThrustActive l); cbn [negb andb]; [|reflexivity].
  destruct (F32.gtb _ _ && F32.leb _ _); cbn [snd]; [|reflexivity].
  rewrite Lander_ApplyThrust_zero. reflexivity.
Qed.

Lemma ApplyThrust_engine p lander dt :
  let p' := fst (ApplyThrust p lander dt) in
  Physics.mLander p' = Physics.mLander p
  /\ Physics.mTerrain p' = Physics.mTerrain p
  /\ Physics.m3DMode p' = Physics.m3DMode p.
Proof.
  cbv zeta. unfold Physics.ApplyThrust.
  destruct lander as [l|]; [|auto].
  destruct (Physics.mLanderRigidBody p) as [body|]; [|auto].
  destruct (negb (Lander.IsThrustActive l)); [auto|].
  destruct (F32.gtb _ _ && F32.leb _ _); cbn; auto.
Qed.

(** Every operation of the 2D engine keeps the fuel, the mode and
    the exclusion of the two terminal flags. *)
Lemma run_op_fuel p op l :
  touches_fuel op = false ->
  Physics.m3DMode p = false -> Physics.mLander p = Some l ->
  exists l', Physics.mLander (run_op p op) = Some l'
             /\ Lander.mFuel l' = Lander.mFuel l.
Proof.
  intros Hop Hmode Hl.
  assert (Hcc : forall q l0, Physics.mLander q = Some l0 ->
            exists l', Physics.mLander (snd (Physics.CheckCollisions2D q)) = Some l'
                       /\ Lander.mFuel l' = Lander.mFuel l0).
  { intros q l0 Hq.
    destruct (Physics.mTerrain q) as [terrain|] eqn:Ht;
      [|unfold Physics.CheckCollisions2D; rewrite Hq, Ht; eauto].
    destruct (Lander.mLanded l0) eqn:Hlanded;
      [rewrite (CheckCollisions2D_terminal q l0); eauto|].
    destruct (Lander.mCrashed l0) eqn:Hcrashed;
      [rewrite (CheckCollisions2D_terminal q l0); eauto|].
    destruct (Terrain.CheckCollision2D terrain (Some l0) F32.zero) as [[|] h] eqn:Hhit.
    - destruct (CheckCollisions2D_hit q l0 terrain h) as (l' & -> & Hs); auto.
      exists l'. split; [reflexivity|]. apply Hs.
    - rewrite (CheckCollisions2D_miss q l0 terrain h); eauto. }
  assert (Hup : forall dt, exists l', Physics.mLander (Update2D p dt) = Some l'
                                      /\ Lander.mFuel l' = Lander.mFuel l).
  { intros dt.
    destruct (Physics.mTerrain p) as [terrain|] eqn:Ht;
      [|unfold Physics.Update2D; rewrite Hl, Ht; eauto].
    destruct (Lander.mLanded l) eqn:Hlanded;
      [rewrite (Update2D_terminal p l); eauto|].
    destruct (Lander.mCrashed l) eqn:Hcrashed;
      [rewrite (Update2D_terminal p l); eauto|].
    rewrite (Update2D_flying p l terrain) by assumption.
    destruct (Hcc (Physics.set_mLander p
                     (Some (integrate2D p l (F32.mul dt (Physics.mTimeScale p)))))
                  _ eq_refl) as (l' & Hl' & Hf).
    exists l'. split; [exact Hl'|]. rewrite Hf. apply integrate2D_flags. }
  destruct op as [dt|dt| |dt|dt|amount|]; try discriminate Hop; cbn [run_op].
  - unfold Physics.Update. rewrite Hmode.
    unfold Physics.Update2D. fold (Update2D p (F32.mul dt (Physics.mTimeScale p))).
    apply Hup.
  - apply Hup.
  - apply Hcc. exact Hl.
  - rewrite Hl. destruct (ApplyThrust p (Some l) dt) as [p' lander'] eqn:Hat.
    pose proof (ApplyThrust_lander p l dt) as Hlander. rewrite Hat in Hlander.
    cbn [snd] in Hlander. cbv zeta in Hlander. subst lander'. cbn.
    eexists. split; [reflexivity|].
    destruct (Physics.mLanderRigidBody p); [|reflexivity].
    destruct (_ && _); reflexivity.
  - rewrite Hl. eexists. split; [reflexivity|].
    unfold Lander.ApplyThrust. destruct (F32.leb _ _); reflexivity.
Qed.

Lemma run_op_mode p op :
  Physics.m3DMode p = false -> Physics.m3DMode (run_op p op) = false.
Proof.
  intros Hmode.
  assert (Hcc : forall q, Physics.m3DMode (snd (Physics.CheckCollisions2D q))
                          = Physics.m3DMode q).
  { intros q. unfold Physics.CheckCollisions2D.
    destruct (Physics.mLander q) as [l|]; [|reflexivity].
    destruct (Physics.mTerrain q) as [terrain|]; [|reflexivity].
    destruct (_ || _); [reflexivity|].
    destruct (Terrain.CheckCollision2D _ _ _) as [[|] h]; [|reflexivity].
    destruct (Terrain.IsValidLanding2D _ _); reflexivity. }
  assert (Hup : forall dt, Physics.m3DMode (Update2D p dt) = false).
  { intros dt. unfold Physics.Update2D.
    destruct (Physics.mLander p) as [l|]; [|exact Hmode].
    destruct (Physics.mTerrain p) as [terrain|]; [|exact Hmode].
    rewrite Hcc. destruct (_ && _); exact Hmode. }
  destruct op as [dt|dt| |dt|dt|amount|]; cbn [run_op]; try exact Hmode.
  - unfold Physics.Update. rewrite Hmode. apply Hup.
  - apply Hup.
  - rewrite Hcc. exact Hmode.
  - destruct (ApplyThrust p (Physics.mLander p) dt) as [p' lander'] eqn:Hat.
    pose proof (ApplyThrust_engine p (Physics.mLander p) dt) as He.
    rewrite Hat in He. cbn [fst] in He. cbv zeta in He.
    destruct He as (_ & _ & He). cbn. rewrite He. exact Hmode.
Qed.

Lemma run_op_exclusive p op :
  Physics.m3DMode p = false -> flags_exclusive p -> flags_exclusive (run_op p op).
Proof.
  intros Hmode Hex.
  assert (Hmap : forall f : Lander.t -> Lander.t,
            (forall l, Lander.mLanded (f l) = true /\ Lander.mCrashed (f l) = true ->
                       Lander.mLanded l = true /\ Lander.mCrashed l = true) ->
            flags_exclusive (Physics.set_mLander p (option_map f (Physics.mLander p)))).
  { intros f Hf l0 Hl0. cbn in Hl0.
    destruct (Physics.mLander p) as [l|] eqn:Hl; [|discriminate].
    injection Hl0 as <-. intros Hboth. exact (Hex l Hl (Hf l Hboth)). }
  destruct op as [dt|dt| |dt|dt|amount|]; cbn [run_op].
  5: { apply Hmap. intros l. unfold Lander.Update.
       destruct (_ && _); [|auto]. cbv zeta. destruct (F32.leb _ _); auto. }
  5: { apply Hmap. intros l. unfold Lander.ApplyThrust.
       destruct (F32.leb _ _); auto. }
  5: { apply Hmap. intros l [H _]. discriminate H. }
  - unfold Physics.Update. rewrite Hmode. apply Update2D_exclusive. exact Hex.
  - apply Update2D_exclusive. exact Hex.
  - apply CheckCollisions2D_exclusive. exact Hex.
  - destruct (Physics.mLander p) as [l|] eqn:Hl.
    + destruct (ApplyThrust p (Some l) dt) as [p' lander'] eqn:Hat.
      pose proof (ApplyThrust_lander p l dt) as Hlander. rewrite Hat in Hlander.
      cbn [snd] in Hlander. cbv zeta in Hlander. subst lander'.
      intros l0 [= <-]. specialize (Hex l Hl).
      destruct (Physics.mLanderRigidBody p); [|exact Hex].
      destruct (_ && _); exact Hex.
    + intros l0 Hl0. exfalso. unfold Physics.ApplyThrust in Hl0.
      cbn in Hl0. discriminate.
Qed.

Lemma run_ops_exclusive ops : forall p,
  Physics.m3DMode p = false -> flags_exclusive p -> flags_exclusive (run_ops p ops).
Proof.
  induction ops as [|op ops IH]; intros p Hmode Hex; [exact Hex|].
  cbn [run_ops foldl]. apply IH.
  - apply run_op_mode. exact Hmode.
  - apply run_op_exclusive; assumption.
Qed.

(** C3. In 2D mode, for a registered lander that is neither landed nor
    crashed: when the collision check detects a collision at height [h]
    (directly, or on the lander as integrated by an [Update2D] step), the
    lander's position is set to [h] plus half its height (so that its bottom
    sits at the contact height), both velocity components are zeroed, and
    exactly one terminal flag is set: landed when [IsValidLanding2D] holds,
    crashed otherwise.  Hence after any sequence of physics operations the
    two flags are never both true. *)
Theorem collision_sets_exactly_one_terminal_flag
    (p : Physics.t) (l : Lander.t) (terrain : Terrain.t) :
  Physics.m3DMode p = false ->
  Physics.mLander p = Some l -> Physics.mTerrain p = Some terrain ->
  Lander.mLanded l = false -> Lander.mCrashed l = false ->
  (forall h, Terrain.CheckCollision2D terrain (Some l) F32.zero = (true, h) ->
     exists l', Physics.CheckCollisions2D p = (true, Physics.set_mLander p (Some l'))
                /\ settled p terrain l h l'
                /\ xorb (Lander.mLanded l') (Lander.mCrashed l') = true)
  /\ (forall dt h,
       let l1 := integrate2D p l (F32.mul dt (Physics.mTimeScale p)) in
       Terrain.CheckCollision2D terrain (Some l1) F32.zero = (true, h) ->
       exists l', Update2D p dt = Physics.set_mLander p (Some l')
                  /\ settled p terrain l1 h l'
                  /\ xorb (Lander.mLanded l') (Lander.mCrashed l') = true)
  /\ (forall ops, flags_exclusive (run_ops p ops)).
Proof.
  intros Hmode Hl Ht Hlanded Hcrashed.
  assert (Hxor : forall q l0 h l',
            settled q terrain l0 h l' ->
            xorb (Lander.mLanded l') (Lander.mCrashed l') = true).
  { intros q l0 h l' (_ & _ & _ & -> & -> & _).
    destruct (Terrain.IsValidLanding2D terrain (Some l0)); reflexivity. }
  split; [|split].
  - intros h Hhit.
    destruct (CheckCollisions2D_hit p l terrain h) as (l' & Hcc & Hs); auto.
    exists l'. eauto.
  - intros dt h l1 Hhit.
    rewrite (Update2D_flying p l terrain) by assumption. fold l1.
    destruct (integrate2D_flags p l (F32.mul dt (Physics.mTimeScale p)))
      as (Hl1 & Hc1 & _). fold l1 in Hl1, Hc1.
    destruct (CheckCollisions2D_hit (Physics.set_mLander p (Some l1)) l1 terrain h)
      as (l' & Hcc & Hs); auto; try congruence.
    rewrite Hcc. exists l'. split; [reflexivity|]. eauto.
  - intros ops. apply run_ops_exclusive; [exact Hmode|].
    intros l0 Hl0. rewrite Hl in Hl0. injection Hl0 as <-.
    rewrite Hlanded. intros [? _]. discriminate.
Qed.

(** C4. Terminal-state idempotence: once the landed or the crashed flag is
    set, any number of 2D-mode [Update] (or [Update2D]) calls with any
    delta-times leaves the whole engine state, and so the lander's position
    and velocity, unchanged. *)
Theorem terminal_state_idempotence
    (p : Physics.t) (l : Lander.t) (dts : list F32.float) :
  Physics.m3DMode p = false ->
  Physics.mLander p = Some l ->
  Lander.mLanded l = true \/ Lander.mCrashed l = true ->
  foldl Update p dts = p
  /\ foldl Update2D p dts = p
  /\ exists l', Physics.mLander (foldl Update p dts) = Some l'
                /\ Entity.mPosition (Lander.base l') = Entity.mPosition (Lander.base l)
                /\ Lander.mVelocity l' = Lander.mVelocity l.
Proof.
  intros Hmode Hl Hterm.
  assert (H2 : foldl Update2D p dts = p).
  { induction dts as [|dt dts IH]; [reflexivity|].
    cbn [foldl]. rewrite (Update2D_terminal p l) by assumption. exact IH. }
  assert (H1 : foldl Update p dts = p).
  { clear H2. induction dts as [|dt dts IH]; [reflexivity|].
    cbn [foldl]. unfold Physics.Update at 2. rewrite Hmode.
    rewrite (Update2D_terminal p l) by assumption. exact IH. }
  split; [exact H1|]. split; [exact H2|].
  exists l. rewrite H1. auto.
Qed.





(** C10. [Physics::ApplyThrust] never changes the lander's fuel: the lander
    it leaves behind is the one it was given, except that the thrust is
    switched off (level 0, not active) when a rigid body is registered, the
    thrust is active, the current fuel is positive and the fuel it computes
    as remaining is not; a null lander is returned as it is.  No operation
    of the 2D engine changes the fuel of the registered lander, while
    [Lander::Update] does consume fuel. *)
Theorem Physics_ApplyThrust_never_changes_fuel (p : Physics.t) (dt : F32.float) :
  (forall l,
     let newFuel :=
       F32.max F32.zero
         (F32.sub (Lander.mFuel l)
            (F32.mul (F32.mul (F32.of_int 10) (Lander.mThrustLevel l)) dt)) in
     exists l',
       snd (ApplyThrust p (Some l) dt) = Some l'
       /\ Lander.mFuel l' = Lander.mFuel l
       /\ l' = match Physics.mLanderRigidBody p with
                | Some _ =>
                    if Lander.mThrustActive l
                       && (F32.gtb (Lander.mFuel l) F32.zero
                           && F32.leb newFuel F32.zero)
                    then Lander.set_mThrustLevel
                           (Lander.set_mThrustActive l false) F32.zero
                    else l
                | None => l
                end)
  /\ ApplyThrust p None dt = (p, None)
  /\ (forall op l, touches_fuel op = false ->
        Physics.m3DMode p = false -> Physics.mLander p = Some l ->
        exists l', Physics.mLander (run_op p op) = Some l'
                   /\ Lander.mFuel l' = Lander.mFuel l)
  /\ Lander.mFuel
       (Lander.Update (Lander.ApplyThrust Lander.init (F32.of_int 1)) (F32.of_int 2))
     = F32.of_int 980.
Proof.
  split; [|split; [|split]].
  - intros l newFuel. eexists. split; [apply ApplyThrust_lander|].
    split; [|reflexivity].
    destruct (Physics.mLanderRigidBody p); [|reflexivity].
    destruct (_ && _); reflexivity.
  - reflexivity.
  - intros op l. apply run_op_fuel.
  - vm_compute. reflexivity.
Qed.
End PhysicsProperties.

(** ** Null collaborators *)

(** C8 (as the code has it). The 2D operations return early on a null
    lander or terrain and change nothing; [CheckCollision3D] and
    [IsValidLanding3D] have no such check and dereference the null lander. *)
Theorem null_lander_is_dereferenced_by_3D_checks (t : Terrain.t) (h : F32.float) :
  Terrain.CheckCollision3D t None h = Fault NullDereference
  /\ Terrain.IsValidLanding3D t None = Fault NullDereference
  /\ Terrain.CheckCollision2D t None h = (false, h)
  /\ Terrain.IsValidLanding2D t None = false
  /\ (forall sinf cosf (p : Physics.t) dt,
        Physics.mLander p = None \/ Physics.mTerrain p = None ->
        Physics.Update2D sinf cosf p dt = p
        /\ Physics.CheckCollisions2D p = (false, p)).
Proof.
  repeat split; try reflexivity.
  - unfold Physics.Update2D. destruct H as [-> | ->]; [reflexivity|].
    destruct (Physics.mLander p); reflexivity.
  - unfold Physics.CheckCollisions2D. destruct H as [-> | ->]; [reflexivity|].
    destruct (Physics.mLander p); reflexivity.
Qed.

(** ** 32-bit sums and differences *)

Lemma Int32_wrap_in_range (z : Z) : Int32.in_range (Int32.wrap z).
Proof.
  unfold Int32.in_range, Int32.wrap, Int32.min_signed, Int32.max_signed.
  pose proof (Z.mod_pos_bound (z + 2147483648) 4294967296 ltac:(lia)). lia.
Qed.

Lemma Int32_wrap_small (z : Z) : Int32.in_range z -> Int32.wrap z = z.
Proof.
  unfold Int32.in_range, Int32.wrap, Int32.min_signed, Int32.max_signed. intros Hz.
  rewrite Z.mod_small by lia. lia.
Qed.

Lemma Int32_sub_0_r (a b : Z) : Int32.sub (Int32.sub a b) 0 = Int32.sub a b.
Proof.
  unfold Int32.sub at 1. rewrite Z.sub_0_r.
  apply Int32_wrap_small, Int32_wrap_in_range.
Qed.

(** ** Terrain generation *)

Lemma pad_indices (width : Z) :
  50 <= width ->
  let q := width ÷ 10 in
  5 <= q /\ (width ÷ 2 - q * 2 ÷ 2) ÷ q = 4
  /\ (width ÷ 2 - q * 2 ÷ 2 + q * 2) ÷ q = 6.
Proof.
  intros Hw q. subst q.
  rewrite Z.quot_mul by discriminate.
  rewrite (Z.quot_div_nonneg width 10), (Z.quot_div_nonneg width 2) by lia.
  assert (Hq : 5 <= width / 10) by (apply Z.div_le_lower_bound; lia).
  assert (Hk : 0 <= width / 2 - 5 * (width / 10) < 5).
  { pose proof (Z.div_mod width 10 ltac:(lia)).
    pose proof (Z.mod_pos_bound width 10 ltac:(lia)).
    pose proof (Z.div_mod width 2 ltac:(lia)).
    pose proof (Z.mod_pos_bound width 2 ltac:(lia)). lia. }
  split; [exact Hq|].
  rewrite !Z.quot_div_nonneg by lia.
  split; symmetry.
  - apply Z.div_unique with (r := width / 2 - 5 * (width / 10)); lia.
  - apply Z.div_unique with (r := width / 2 - 5 * (width / 10)); lia.
Qed.

(** The iteration bounds given to [for_up] are enough: a loop whose
    condition is false from [bound] on has finished after [bound - i]
    iterations, and more fuel changes nothing.  Both loops of [Generate2D]
    stop at [segmentCount] at the latest. *)
Lemma for_up_enough {S : Type} (cond : Z -> bool) (body : Z -> S -> S) (bound : Z) :
  (forall i, bound <= i -> cond i = false) ->
  forall (fuel extra : nat) i s,
    bound - i <= Z.of_nat fuel ->
    for_up (fuel + extra) i cond body s = for_up fuel i cond body s.
Proof.
  intros Hcond. induction fuel as [|fuel IH]; intros extra i s Hfuel.
  - destruct extra as [|extra]; [reflexivity|].
    cbn [Nat.add for_up]. rewrite Hcond by lia. reflexivity.
  - cbn [Nat.add for_up]. destruct (cond i); [|reflexivity]. apply IH. lia.
Qed.

Lemma Generate2D_loops_stop (endSegment : Z) :
  (forall i, Terrain.segmentCount <= i -> (i <? Terrain.segmentCount) = false)
  /\ (forall i, Terrain.segmentCount <= i ->
        (i <=? endSegment) && (i <? Terrain.segmentCount) = false).
Proof.
  split; intros i Hi.
  - apply Z.ltb_ge. exact Hi.
  - apply andb_false_iff. right. apply Z.ltb_ge. exact Hi.
Qed.

Lemma mark_pad_length base i segs : length (Terrain.mark_pad base i segs) = length segs.
Proof.
  unfold Terrain.mark_pad. destruct (_ && _); [apply length_alter|reflexivity].
Qed.

Lemma mark_pad_lookup base i segs (j : nat) :
  Terrain.mark_pad base i segs !! j
  = (fun s => if i =? Z.of_nat j then Terrain.flatten base s else s) <$> (segs !! j).
Proof.
  unfold Terrain.mark_pad.
  destruct ((0 <=? i) && (i <? Z.of_nat (length segs))) eqn:Hin.
  - apply andb_true_iff in Hin as [H0 Hlen]. apply Z.leb_le in H0. apply Z.ltb_lt in Hlen.
    destruct (Z.eqb_spec i (Z.of_nat j)) as [->|Hne].
    + rewrite Nat2Z.id, list_lookup_alter_eq. destruct (segs !! j); reflexivity.
    + rewrite list_lookup_alter_ne by lia. destruct (segs !! j); reflexivity.
  - destruct (segs !! j) as [s|] eqn:Hj; [|reflexivity]. cbn.
    destruct (Z.eqb_spec i (Z.of_nat j)) as [->|Hne]; [|reflexivity].
    apply lookup_lt_Some in Hj. apply andb_false_iff in Hin as [H|H].
    + apply Z.leb_gt in H. lia.
    + apply Z.ltb_ge in H. lia.
Qed.

Lemma mark_loop_length {cond} base (fuel : nat) : forall i segs,
  length (for_up fuel i cond (Terrain.mark_pad base) segs) = length segs.
Proof.
  induction fuel as [|fuel IH]; intros i segs; cbn [for_up]; [reflexivity|].
  destruct (cond i); [|reflexivity]. rewrite IH. apply mark_pad_length.
Qed.

Lemma mark_loop_lookup base endSegment (fuel : nat) : forall i segs (j : nat),
  length segs = 10%nat -> 10 - i <= Z.of_nat fuel ->
  for_up fuel i (fun i => (i <=? endSegment) && (i <? Terrain.segmentCount))
         (Terrain.mark_pad base) segs !! j
  = (fun s => if (i <=? Z.of_nat j) && (Z.of_nat j <=? endSegment)
              then Terrain.flatten base s else s) <$> (segs !! j).
Proof.
  unfold Terrain.segmentCount.
  induction fuel as [|fuel IH]; intros i segs j Hlen Hfuel; cbn [for_up].
  - destruct (segs !! j) as [s|] eqn:Hj; [|reflexivity]. cbn.
    apply lookup_lt_Some in Hj.
    destruct (Z.leb_spec i (Z.of_nat j)); [lia|reflexivity].
  - destruct ((i <=? endSegment) && (i <? 10)) eqn:Hcond.
    + apply andb_true_iff in Hcond as [Hend H10].
      apply Z.leb_le in Hend. apply Z.ltb_lt in H10.
      rewrite IH by (rewrite ?mark_pad_length; lia).
      rewrite mark_pad_lookup. destruct (segs !! j) as [s|] eqn:Hj; [|reflexivity].
      cbn. f_equal.
      destruct (Z.eqb_spec i (Z.of_nat j)) as [->|Hne].
      * destruct (Z.leb_spec (Z.of_nat j + 1) (Z.of_nat j)); [lia|].
        destruct (Z.leb_spec (Z.of_nat j) (Z.of_nat j)); [|lia].
        destruct (Z.leb_spec (Z.of_nat j) endSegment); [|lia]. reflexivity.
      * destruct (Z.leb_spec (i + 1) (Z.of_nat j)), (Z.leb_spec i (Z.of_nat j));
          try lia; reflexivity.
    + destruct (segs !! j) as [s|] eqn:Hj; [|reflexivity]. cbn.
      apply lookup_lt_Some in Hj. apply andb_false_iff in Hcond as [H|H].
      * apply Z.leb_gt in H.
        destruct (Z.leb_spec i (Z.of_nat j)), (Z.leb_spec (Z.of_nat j) endSegment);
          try lia; reflexivity.
      * apply Z.ltb_ge in H.
        destruct (Z.leb_spec i (Z.of_nat j)); [lia|reflexivity].
Qed.

(** Whenever [Generate2D] is defined ([width / 10] is not zero), the
    segments flagged as landing pad are those with an index between
    [startSegment] and [endSegment]: a contiguous range of the 10 segments,
    each of them flat at the baseline [height - 50]. *)
Lemma Generate2D_pad_is_a_flat_index_range
    (rnd : nat -> Z) (t : Terrain.t) (width height : Z) :
  width ÷ 10 <> 0 ->
  exists t' startSegment endSegment,
    Terrain.Generate2D rnd t width height = Some t'
    /\ length (Terrain.mSegments2D t') = 10%nat
    /\ forall (j : nat) s,
         Terrain.mSegments2D t' !! j = Some s ->
         (TerrainSegment.isLandingPad s = true
          <-> startSegment <= Z.of_nat j <= endSegment)
         /\ (TerrainSegment.isLandingPad s = true ->
             TerrainSegment.y1 s = F32.of_int (Int32.sub height 50)
             /\ TerrainSegment.y2 s = F32.of_int (Int32.sub height 50)).
Proof.
  intros Hq. unfold Terrain.Generate2D. cbv zeta.
  destruct (Z.eqb_spec (width ÷ Terrain.segmentCount) 0) as [H0|_]; [contradiction|].
  match goal with
  | |- context [for_up (Z.to_nat (_ - ?a)) ?a (fun i => (i <=? ?b) && _) _ _] =>
      set (startSegment := a); set (endSegment := b)
  end.
  eexists _, startSegment, endSegment.
  split; [reflexivity|]. cbn [Terrain.mSegments2D].
  set (segs := for_up 10 0 _ _ []).
  assert (Hlen : length segs = 10%nat) by reflexivity.
  assert (Hfuel : 10 - startSegment <= Z.of_nat (Z.to_nat (Terrain.segmentCount - startSegment)))
    by (unfold Terrain.segmentCount; lia).
  assert (Hlookup := fun j => mark_loop_lookup (Int32.sub height 50) endSegment _ _ _ j Hlen Hfuel).
  set (segs' := for_up _ startSegment _ _ segs) in *.
  split.
  - subst segs'. rewrite mark_loop_length. exact Hlen.
  - intros j s Hj. rewrite Hlookup in Hj.
    destruct (segs !! j) as [s0|] eqn:Hs0; [|discriminate]. cbn in Hj.
    injection Hj as <-.
    assert (Hnew : TerrainSegment.isLandingPad s0 = false).
    { assert (Hall : Forall (fun s => TerrainSegment.isLandingPad s = false) segs)
        by (repeat constructor).
      rewrite Forall_lookup in Hall. exact (Hall j s0 Hs0). }
    destruct ((startSegment <=? Z.of_nat j) && (Z.of_nat j <=? endSegment)) eqn:Hin.
    + apply andb_true_iff in Hin as [H1 H2]. apply Z.leb_le in H1, H2.
      split; [split; [lia|reflexivity]|]. intros _. split; reflexivity.
    + rewrite Hnew. split; [|discriminate]. split; [discriminate|].
      intros [H1 H2]. apply andb_false_iff in Hin as [H|H];
        [apply Z.leb_gt in H|apply Z.leb_gt in H]; lia.
Qed.

(** C6 (as the code has it). For every width of at least 50 pixels,
    [Generate2D] marks segments 4, 5 and 6 as landing pad, because its
    marking loop runs up to and including [endSegment]: the pad is a
    contiguous range of indices within [0, 10) and each of its segments is
    flat at the baseline [height - 50] (the difference of 32-bit [int]s,
    which is [height - 50] unless the height is within 50 of the smallest
    [int]), but it is three segments wide, from
    [4 * (width / 10)] to [7 * (width / 10)]. *)
Theorem Generate2D_pad_is_three_segments
    (rnd : nat -> Z) (t : Terrain.t) (width height : Z) :
  50 <= width ->
  exists t',
    Terrain.Generate2D rnd t width height = Some t'
    /\ pad_flags t'
       = [false; false; false; false; true; true; true; false; false; false]
    /\ (forall s, s ∈ Terrain.mSegments2D t' ->
          TerrainSegment.isLandingPad s = true ->
          TerrainSegment.y1 s = F32.of_int (Int32.sub height 50)
          /\ TerrainSegment.y2 s = F32.of_int (Int32.sub height 50))
    /\ pad_extents t'
       = [ (F32.of_int (4 * (width ÷ 10)), F32.of_int (5 * (width ÷ 10)));
           (F32.of_int (5 * (width ÷ 10)), F32.of_int (6 * (width ÷ 10)));
           (F32.of_int (6 * (width ÷ 10)), F32.of_int (7 * (width ÷ 10))) ]
    /\ (Int32.min_signed + 50 <= height <= Int32.max_signed ->
        Int32.sub height 50 = height - 50).
Proof.
  intros Hw. destruct (pad_indices width Hw) as (Hq & Hstart & Hend).
  unfold Terrain.Generate2D. cbv zeta. unfold Terrain.segmentCount.
  rewrite Hstart, Hend.
  destruct (Z.eqb_spec (width ÷ 10) 0) as [H0|_]; [lia|].
  eexists. split; [reflexivity|].
  split; [reflexivity|]. split; [|split; [reflexivity|]].
  - intros s Hs Hpad. cbn in Hs.
    repeat (apply elem_of_cons in Hs as [->|Hs];
            [first [discriminate Hpad | split; reflexivity]|]).
    inversion Hs.
  - intros Hh. apply Int32_wrap_small.
    unfold Int32.in_range, Int32.min_signed, Int32.max_signed in *. lia.
Qed.

(** ** Fuel consumption *)

Lemma leb_zero_not_nan (x : F32.float) : F32.leb F32.zero x = true -> x <> S754_nan.
Proof. intros H ->. discriminate H. Qed.

Lemma consumption_not_negative (rate level dt : F32.float) :
  F32.leb F32.zero rate = true -> F32.leb F32.zero level = true ->
  F32.leb F32.zero dt = true ->
  not_negative (F32.mul (F32.mul rate level) dt).
Proof.
  intros Hr Hl Hd. unfold F32.mul.
  repeat apply SFmul_not_negative; apply SFleb_zero_not_negative; assumption.
Qed.

(** What [Lander::Update] does to a lander whose thrust is active and
    whose fuel is positive. *)
Lemma Lander_Update_burning (l : Lander.t) (dt : F32.float) :
  Lander.mThrustActive l = true -> F32.gtb (Lander.mFuel l) F32.zero = true ->
  let fuel' :=
    F32.max F32.zero
      (F32.sub (Lander.mFuel l)
         (F32.mul (F32.mul (Lander.mFuelConsumptionRate l) (Lander.mThrustLevel l)) dt)) in
  Lander.Update l dt
  = if F32.leb fuel' F32.zero
    then Lander.set_mThrustLevel
           (Lander.set_mThrustActive (Lander.set_mFuel l fuel') false) F32.zero
    else Lander.set_mFuel l fuel'.
Proof.
  intros Hact Hpos. unfold Lander.Update. rewrite Hact, Hpos. reflexivity.
Qed.

Lemma Lander_Update_idle (l : Lander.t) (dt : F32.float) :
  Lander.mThrustActive l && F32.gtb (Lander.mFuel l) F32.zero = false ->
  Lander.Update l dt = l.
Proof. intros H. unfold Lander.Update. rewrite H. reflexivity. Qed.

Lemma Lander_Update_step (l : Lander.t) (dt : F32.float) :
  fuel_ok l -> F32.leb F32.zero dt = true ->
  fuel_ok (Lander.Update l dt)
  /\ F32.leb (Lander.mFuel (Lander.Update l dt)) (Lander.mFuel l) = true
  /\ F32.leb F32.zero (Lander.mFuel (Lander.Update l dt)) = true.
Proof.
  intros (Hvalid & Hfuel & Hlevel & Hrate) Hdt.
  destruct (Lander.mThrustActive l && F32.gtb (Lander.mFuel l) F32.zero) eqn:Hburn.
  - apply andb_true_iff in Hburn as [Hact Hpos].
    rewrite Lander_Update_burning by assumption. cbv zeta.
    destruct (clamped_sub_bounds (Lander.mFuel l)
                (F32.mul (F32.mul (Lander.mFuelConsumptionRate l) (Lander.mThrustLevel l)) dt)
                Hvalid Hpos (consumption_not_negative _ _ _ Hrate Hlevel Hdt))
      as (Hv' & H0' & Hle').
    destruct (F32.leb (F32.max _ _) F32.zero); unfold fuel_ok; cbn; auto 10.
  - rewrite Lander_Update_idle by assumption.
    split; [unfold fuel_ok; auto|]. split; [|exact Hfuel].
    apply SFleb_refl. apply leb_zero_not_nan. exact Hfuel.
Qed.

(** The constructor establishes [fuel_ok] and a change of throttle keeps
    it, whatever the requested amount. *)
Lemma fuel_ok_init : fuel_ok Lander.init.
Proof. repeat split; vm_compute; reflexivity. Qed.

Lemma ltb_leb (a b : F32.float) : F32.ltb a b = true -> F32.leb a b = true.
Proof.
  unfold F32.ltb, F32.leb, SFltb, SFleb.
  destruct (SFcompare a b) as [[| |]|]; intros H; (reflexivity || discriminate H).
Qed.

Lemma fuel_ok_ApplyThrust (l : Lander.t) (amount : F32.float) :
  fuel_ok l ->
  fuel_ok (Lander.ApplyThrust l amount)
  /\ Lander.mFuel (Lander.ApplyThrust l amount) = Lander.mFuel l.
Proof.
  intros (Hvalid & Hfuel & Hlevel & Hrate). unfold Lander.ApplyThrust.
  destruct (F32.leb (Lander.mFuel l) F32.zero).
  - split; [|reflexivity]. repeat split; assumption || reflexivity.
  - split; [|reflexivity]. repeat split; try assumption.
    cbn [Lander.mThrustLevel Lander.set_mThrustActive Lander.set_mThrustLevel].
    unfold F32.max at 1.
    destruct (F32.ltb F32.zero _) eqn:Hlt; [apply ltb_leb; exact Hlt|reflexivity].
Qed.

Lemma foldl_Lander_Update_ok (dts : list F32.float) : forall l,
  fuel_ok l -> Forall (fun dt => F32.leb F32.zero dt = true) dts ->
  fuel_ok (foldl Lander.Update l dts).
Proof.
  induction dts as [|dt dts IH]; intros l Hok Hdts; [exact Hok|].
  apply Forall_cons in Hdts as [Hdt Hdts]. cbn [foldl].
  apply IH; [|exact Hdts]. apply Lander_Update_step; assumption.
Qed.

(** C5. With the thrust active and positive fuel, [Lander::Update] sets
    the fuel to [fuel - rate * level * dt] (in single precision), clamped at
    0, and in the step in which the fuel reaches 0 it switches the thrust
    off and zeroes the level; otherwise it changes nothing.  From a lander
    with non-negative fuel, level and rate, over any sequence of
    non-negative delta-times every update leaves the fuel non-negative and
    no larger than before.  With the thrust at level 0.5 and the rate of
    10 kg/s, 2 seconds in one update, or in two updates of 1 second, take
    the fuel from 1000 kg to 990 kg: exactly 10 kg.  The amount is that of
    the updates the 2 seconds are split into, each of which rounds its
    product and its difference to single precision; for other splits it
    need not be 10 kg. *)
Theorem Lander_Update_consumes_fuel (l : Lander.t) (dts : list F32.float) :
  fuel_ok l ->
  Forall (fun dt => F32.leb F32.zero dt = true) dts ->
  (forall dt,
     let burnt :=
       F32.max F32.zero
         (F32.sub (Lander.mFuel l)
            (F32.mul (F32.mul (Lander.mFuelConsumptionRate l) (Lander.mThrustLevel l)) dt)) in
     if Lander.mThrustActive l && F32.gtb (Lander.mFuel l) F32.zero
     then Lander.mFuel (Lander.Update l dt) = burnt
          /\ (F32.leb burnt F32.zero = true ->
              Lander.mThrustActive (Lander.Update l dt) = false
              /\ Lander.mThrustLevel (Lander.Update l dt) = F32.zero)
     else Lander.Update l dt = l)
  /\ (forall k dt, dts !! k = Some dt ->
        let before := foldl Lander.Update l (take k dts) in
        let after := Lander.Update before dt in
        foldl Lander.Update l (take (S k) dts) = after
        /\ F32.leb (Lander.mFuel after) (Lander.mFuel before) = true
        /\ F32.leb F32.zero (Lander.mFuel after) = true)
  /\ (Lander.mFuel lander_D = F32.of_int 1000
      /\ Lander.mFuel (Lander.Update lander_D (F32.of_int 2)) = F32.of_int 990
      /\ Lander.mFuel (foldl Lander.Update lander_D [F32.of_int 1; F32.of_int 1])
         = F32.of_int 990
      /\ F32.sub (F32.of_int 1000) (F32.of_int 990) = F32.of_int 10).
Proof.
  intros Hok Hdts. split; [|split].
  - intros dt burnt.
    destruct (Lander.mThrustActive l && F32.gtb (Lander.mFuel l) F32.zero) eqn:Hburn.
    + apply andb_true_iff in Hburn as [Hact Hpos].
      rewrite Lander_Update_burning by assumption. cbv zeta. fold burnt.
      destruct (F32.leb burnt F32.zero); cbn; auto. split; [reflexivity|discriminate].
    + apply Lander_Update_idle. exact Hburn.
  - intros k dt Hk before after.
    assert (Hbefore : fuel_ok before).
    { apply foldl_Lander_Update_ok; [exact Hok|]. apply Forall_take. exact Hdts. }
    assert (Hdt : F32.leb F32.zero dt = true).
    { rewrite Forall_lookup in Hdts. exact (Hdts k dt Hk). }
    split.
    + rewrite (take_S_r _ _ _ Hk), foldl_app. reflexivity.
    + apply Lander_Update_step; assumption.
  - repeat split; vm_compute; reflexivity.
Qed.

(** ** The scenarios of the specification *)

(** Scenario A: a slow descent onto the pad is a landing; the lander is put
    at 0.75 m (its bottom on the ground at 0 m) with zero velocity. *)
Lemma scenario_A_lands :
  exists l',
    Physics.CheckCollisions2D (engine (F32.of_int 1) lander_A)
    = (true, Physics.set_mLander (engine (F32.of_int 1) lander_A) (Some l'))
    /\ Lander.mLanded l' = true /\ Lander.mCrashed l' = false
    /\ Entity.mPosition (Lander.base l')
       = mkFloat3 (F32.of_int 5) (F32.lit 3 4) F32.zero
    /\ at0 (Lander.mVelocity l') = F32.zero
    /\ at1 (Lander.mVelocity l') = F32.zero.
Proof.
  destruct (collision_sets_exactly_one_terminal_flag
              sin_zero cos_zero rotate_identity step_nothing
              (engine (F32.of_int 1) lander_A) lander_A flat_terrain
              eq_refl eq_refl eq_refl eq_refl eq_refl)
    as (Hhit & _ & _).
  destruct (Hhit F32.zero) as (l' & Hcc & Hs & _); [vm_compute; reflexivity|].
  destruct Hs as (Hpos & Hv0 & Hv1 & Hlanded & Hcrashed & _).
  exists l'. split; [exact Hcc|].
  split; [rewrite Hlanded; vm_compute; reflexivity|].
  split; [rewrite Hcrashed; vm_compute; reflexivity|].
  split; [rewrite Hpos; vm_compute; reflexivity|].
  split; assumption.
Defined.

(** Scenario B: the same descent at 5 m/s is a crash. *)
Example scenario_B_crashes :
  Terrain.CheckCollision2D flat_terrain (Some lander_B) F32.zero = (true, F32.zero)
  /\ Terrain.IsValidLanding2D flat_terrain (Some lander_B) = false.
Proof. split; vm_compute; reflexivity. Qed.

(** Scenario C: a slow descent off the pad is a crash. *)
Example scenario_C_crashes :
  Terrain.CheckCollision2D flat_terrain (Some lander_C) F32.zero = (true, F32.zero)
  /\ Terrain.IsValidLanding2D flat_terrain (Some lander_C) = false.
Proof. split; vm_compute; reflexivity. Qed.

(** A landed lander is left where it is by two further updates. *)
Lemma landed_lander_stays_put :
  foldl (Physics.Update sin_zero cos_zero step_nothing)
        (engine (F32.of_int 1) (Lander.SetLanded lander_A true))
        [F32.of_int 1; F32.lit 1 60]
  = engine (F32.of_int 1) (Lander.SetLanded lander_A true).
Proof.
  apply (terminal_state_idempotence sin_zero cos_zero step_nothing
           (engine (F32.of_int 1) (Lander.SetLanded lander_A true))
           (Lander.SetLanded lander_A true)).
  - reflexivity.
  - reflexivity.
  - left. reflexivity.
Defined.


(** Scenario D: one update of 2 s at level 0.5 lowers the fuel, which stays
    non-negative. *)
Lemma scenario_D_fuel_decreases :
  F32.leb (Lander.mFuel (Lander.Update lander_D (F32.of_int 2)))
          (Lander.mFuel lander_D) = true
  /\ F32.leb F32.zero (Lander.mFuel (Lander.Update lander_D (F32.of_int 2))) = true.
Proof.
  destruct (Lander_Update_consumes_fuel lander_D [F32.of_int 2]) as (_ & Hseq & _).
  - repeat split; vm_compute; reflexivity.
  - repeat constructor.
  - exact (proj2 (Hseq 0%nat (F32.of_int 2) eq_refl)).
Defined.

(** C5 as it is stated fails: 2 seconds at level 0.5 and 10 kg/s do not
    always consume exactly 10 kg.  Each update rounds its product and its
    difference to single precision: the three updates of [uneven_frames],
    2 seconds in total, take the fuel from 1000 kg to 990 - 2^-14 kg, and
    the 120 frames of 1/60 s leave 990 + 40 * 2^-14 kg (990.00244...). *)
Lemma two_seconds_need_not_burn_10_kg :
  Lander.mThrustActive lander_D = true
  /\ Lander.mThrustLevel lander_D = F32.lit 1 2
  /\ Lander.mFuelConsumptionRate lander_D = F32.of_int 10
  /\ Lander.mFuel lander_D = F32.of_int 1000
  /\ foldl F32.add F32.zero uneven_frames = F32.of_int 2
  /\ Lander.mFuel (foldl Lander.Update lander_D uneven_frames)
     = S754_finite false 16220159 (-14)
  /\ Lander.mFuel (foldl Lander.Update lander_D uneven_frames)
     <> F32.sub (F32.of_int 1000) (F32.of_int 10)
  /\ F32.mul (F32.of_int 120) (F32.lit 1 60) = F32.of_int 2
  /\ Lander.mFuel (foldl Lander.Update lander_D frames_60Hz)
     = S754_finite false 16220200 (-14)
  /\ Lander.mFuel (foldl Lander.Update lander_D frames_60Hz)
     <> F32.sub (F32.of_int 1000) (F32.of_int 10).
Proof.
  repeat match goal with |- _ /\ _ => split end;
    vm_compute; first [reflexivity | discriminate].
Qed.

(** The default 800 x 600 window: the pad is segments 4, 5 and 6, from pixel
    320 to pixel 560, 240 pixels wide. *)
Lemma Generate2D_800_600 :
  exists t',
    Terrain.Generate2D (fun _ => 0) Terrain.init 800 600 = Some t'
    /\ pad_flags t'
       = [false; false; false; false; true; true; true; false; false; false]
    /\ pad_extents t'
       = [ (F32.of_int 320, F32.of_int 400);
           (F32.of_int 400, F32.of_int 480);
           (F32.of_int 480, F32.of_int 560) ].
Proof.
  destruct (Generate2D_pad_is_three_segments (fun _ => 0) Terrain.init 800 600)
    as (t' & Hgen & Hflags & _ & Hext & _); [lia|].
  exists t'. split; [exact Hgen|]. split; [exact Hflags|exact Hext].
Defined.

(** * Further properties of the code *)

(** ** The order on floats *)

Lemma ltb_irrefl (x : F32.float) : F32.ltb x x = false.
Proof.
  unfold F32.ltb, SFltb.
  destruct x as [s|s| |s m e]; try destruct s; cbn; try reflexivity;
    rewrite Z.compare_refl, Pos.compare_cont_refl; reflexivity.
Qed.

Lemma SFleb_trans (a b c : spec_float) :
  SFleb a b = true -> SFleb b c = true -> SFleb a c = true.
Proof.
  unfold SFleb.
  destruct a as [sa|sa| |sa ma ea], b as [sb|sb| |sb mb eb], c as [sc|sc| |sc mc ec];
    try destruct sa; try destruct sb; try destruct sc; cbn; try (intros; congruence);
    try reflexivity.
  all: try (destruct (Z.compare_spec ea eb); cbn; try (intros; congruence)).
  all: try (destruct (Z.compare_spec eb ec); cbn; try (intros; congruence)).
  all: try (destruct (Z.compare_spec ea ec); cbn; try (intros; congruence); try lia).
  all: subst.
  all: rewrite ?Pos.compare_cont_spec; cbn.
  all: try (destruct (Pos.compare_spec ma mb); cbn; try (intros; congruence)).
  all: try (destruct (Pos.compare_spec mb mc); cbn; try (intros; congruence)).
  all: try (destruct (Pos.compare_spec ma mc); cbn; try (intros; congruence); try lia).
Qed.

(** Two floats that are not in the order [b <= a] are in the order
    [a < b], unless one of them is not a number. *)
Lemma not_leb_ltb (a b : spec_float) :
  SFleb b a = false -> a = S754_nan \/ b = S754_nan \/ SFltb a b = true.
Proof.
  unfold SFleb, SFltb.
  destruct a as [sa|sa| |sa ma ea], b as [sb|sb| |sb mb eb];
    try destruct sa; try destruct sb; cbn; auto; try discriminate.
  all: intros H; right; right; revert H.
  all: rewrite (Z.compare_antisym ea eb); destruct (ea ?= eb); cbn;
    try reflexivity; try discriminate.
  all: rewrite !Pos.compare_cont_spec; cbn; rewrite (Pos.compare_antisym ma mb);
    destruct (ma ?= mb)%positive; cbn; try reflexivity; discriminate.
Qed.

Lemma same_float_eq (x y : F32.float) : same_float x y = true -> x = y.
Proof.
  destruct x as [s|s| |s m e], y as [s'|s'| |s' m' e']; cbn; try discriminate; try reflexivity.
  - intros H. apply eqb_prop in H. congruence.
  - intros H. apply eqb_prop in H. congruence.
  - intros H. apply andb_true_iff in H as [H He]. apply andb_true_iff in H as [Hs Hm].
    apply eqb_prop in Hs. apply Pos.eqb_eq in Hm. apply Z.eqb_eq in He. congruence.
Qed.

(** ** The throttle *)

(** The three cases of [std::max(0.0f, std::min(1.0f, amount))]. *)
Lemma clamp_cases (amount : F32.float) :
  F32.max F32.zero (F32.min (F32.of_int 1) amount)
  = if F32.ltb amount (F32.of_int 1)
    then if F32.ltb F32.zero amount then amount else F32.zero
    else F32.of_int 1.
Proof.
  unfold F32.max, F32.min.
  destruct (F32.ltb amount (F32.of_int 1)); reflexivity.
Qed.

Lemma clamp_bounds (amount : F32.float) :
  let level := F32.max F32.zero (F32.min (F32.of_int 1) amount) in
  F32.leb F32.zero level = true /\ F32.leb level (F32.of_int 1) = true.
Proof.
  cbv zeta. rewrite clamp_cases.
  destruct (F32.ltb amount (F32.of_int 1)) eqn:H1;
    [destruct (F32.ltb F32.zero amount) eqn:H0|]; auto using ltb_leb.
Qed.

Lemma Lander_Update_shape (l : Lander.t) (dt : F32.float) :
  exists fuel level active,
    Lander.Update l dt
    = Lander.set_mThrustLevel
        (Lander.set_mThrustActive (Lander.set_mFuel l fuel) active) level.
Proof.
  destruct (Lander.mThrustActive l && F32.gtb (Lander.mFuel l) F32.zero) eqn:Hburn.
  - apply andb_true_iff in Hburn as [Hon Hpos].
    rewrite Lander_Update_burning by assumption. cbv zeta.
    destruct (F32.leb (F32.max _ _) F32.zero); eexists _, _, _; reflexivity.
  - rewrite Lander_Update_idle by assumption.
    exists (Lander.mFuel l), (Lander.mThrustLevel l), (Lander.mThrustActive l).
    destruct l; reflexivity.
Qed.

Lemma Lander_ApplyThrust_shape (l : Lander.t) (amount : F32.float) :
  exists level active,
    Lander.ApplyThrust l amount
    = Lander.set_mThrustLevel (Lander.set_mThrustActive l active) level.
Proof.
  destruct l as [b w h d m v a tl ta mt f mf r la cr].
  unfold Lander.ApplyThrust. destruct (F32.leb _ _); eexists _, _; reflexivity.
Qed.

(** X1. [Lander::ApplyThrust] leaves a thrust level between 0 and 1
    whatever amount is asked for, sets the thrust flag exactly when that
    level is above zero, and never sets it while the fuel is at or below
    zero.  With fuel left the level is the amount itself when it lies
    strictly between 0 and 1, 0 when it is not above 0, and 1 when it is
    not below 1: an amount that is not a number selects full thrust. *)
Theorem Lander_ApplyThrust_clamps (l : Lander.t) (amount : F32.float) :
  let l' := Lander.ApplyThrust l amount in
  F32.leb F32.zero (Lander.mThrustLevel l') = true
  /\ F32.leb (Lander.mThrustLevel l') (F32.of_int 1) = true
  /\ Lander.mThrustActive l' = F32.gtb (Lander.mThrustLevel l') F32.zero
  /\ (Lander.mThrustActive l' = true -> F32.leb (Lander.mFuel l) F32.zero = false)
  /\ (F32.leb (Lander.mFuel l) F32.zero = false ->
      Lander.mThrustLevel l'
      = if F32.ltb amount (F32.of_int 1)
        then if F32.ltb F32.zero amount then amount else F32.zero
        else F32.of_int 1)
  /\ (F32.leb (Lander.mFuel l) F32.zero = false ->
      Lander.mThrustLevel (Lander.ApplyThrust l S754_nan) = F32.of_int 1
      /\ Lander.mThrustActive (Lander.ApplyThrust l S754_nan) = true)
  /\ (F32.leb (Lander.mFuel l) F32.zero = true ->
      Lander.mThrustLevel l' = F32.zero /\ Lander.mThrustActive l' = false).
Proof.
  cbv zeta. unfold Lander.ApplyThrust.
  destruct (F32.leb (Lander.mFuel l) F32.zero) eqn:Hfuel.
  - cbn. repeat split; try reflexivity; discriminate.
  - cbn [Lander.mThrustLevel Lander.mThrustActive Lander.set_mThrustActive
         Lander.set_mThrustLevel].
    destruct (clamp_bounds amount) as [H0 H1].
    split; [exact H0|]. split; [exact H1|]. split; [reflexivity|].
    split; [reflexivity|]. split; [intros _; apply clamp_cases|].
    split; [intros _; split; reflexivity|discriminate].
Qed.

(** ** What the operations make of the lander *)

Lemma moved_refl (l : Lander.t) : moved l l.
Proof.
  split; [|auto].
  destruct l as [[pos rot sc act] w h d m [vx vy vz] a tl ta mt f mf r la cr].
  reflexivity.
Qed.

Lemma moved_trans (l1 l2 l3 : Lander.t) : moved l1 l2 -> moved l2 l3 -> moved l1 l3.
Proof.
  intros (H12 & Hl12 & Hc12) (H23 & Hl23 & Hc23).
  split; [|auto]. rewrite H23 at 1. rewrite H12. reflexivity.
Qed.

Lemma thrust_consistent_off (l : Lander.t) : thrust_consistent (thrust_off l).
Proof. split; [reflexivity|discriminate]. Qed.

(** What [Lander::Reset] leaves, and that a second reset changes
    nothing. *)
Lemma Reset_state (l : Lander.t) :
  Lander.Reset (Lander.Reset l) = Lander.Reset l
  /\ Entity.mPosition (Lander.base (Lander.Reset l))
     = mkFloat3 F32.zero (F32.of_int 5) F32.zero
  /\ Entity.mRotation (Lander.base (Lander.Reset l)) = mkFloat3 F32.zero F32.zero F32.zero
  /\ Lander.mVelocity (Lander.Reset l) = mkFloat3 F32.zero F32.zero F32.zero
  /\ Lander.mThrustLevel (Lander.Reset l) = F32.zero
  /\ Lander.mThrustActive (Lander.Reset l) = false
  /\ Lander.mFuel (Lander.Reset l) = Lander.mMaxFuel l
  /\ Lander.mMaxFuel (Lander.Reset l) = Lander.mMaxFuel l
  /\ Lander.mFuelConsumptionRate (Lander.Reset l) = Lander.mFuelConsumptionRate l
  /\ Lander.mLanded (Lander.Reset l) = false
  /\ Lander.mCrashed (Lander.Reset l) = false.
Proof.
  destruct l as [[pos rot sc act] w h d m v a tl ta mt f mf r la cr].
  repeat match goal with |- _ /\ _ => split end; lazy; reflexivity.
Qed.

Lemma thrust_consistent_Reset (l : Lander.t) : thrust_consistent (Lander.Reset l).
Proof.
  destruct (Reset_state l) as (_ & _ & _ & _ & Hlevel & Hactive & _).
  split; [rewrite Hlevel, Hactive; reflexivity|]. rewrite Hactive. discriminate.
Qed.

Lemma thrust_consistent_ApplyThrust (l : Lander.t) (amount : F32.float) :
  thrust_consistent (Lander.ApplyThrust l amount).
Proof.
  unfold Lander.ApplyThrust.
  destruct (F32.leb (Lander.mFuel l) F32.zero) eqn:Hfuel;
    [apply thrust_consistent_off|].
  split; [reflexivity|]. intros _. exact Hfuel.
Qed.

Lemma thrust_consistent_Update (l : Lander.t) (dt : F32.float) :
  thrust_consistent l -> thrust_consistent (Lander.Update l dt).
Proof.
  intros [Hact Hfuel].
  destruct (Lander.mThrustActive l && F32.gtb (Lander.mFuel l) F32.zero) eqn:Hburn;
    [|rewrite Lander_Update_idle by assumption; split; assumption].
  apply andb_true_iff in Hburn as [Hon Hpos].
  rewrite Lander_Update_burning by assumption. cbv zeta.
  destruct (F32.leb (F32.max _ _) F32.zero) eqn:Hleb.
  - split; [reflexivity|discriminate].
  - split; [exact Hact|]. intros _. exact Hleb.
Qed.

Section EngineProperties.
Variable sinf cosf : F32.float -> F32.float.
Variable btRotateUp : F32.float -> F32.float -> F32.float -> float3.
Variable stepBullet : Physics.t -> F32.float -> Physics.t.

Local Abbreviation Update2D := (Physics.Update2D sinf cosf).
Local Abbreviation Update := (Physics.Update sinf cosf stepBullet).
Local Abbreviation integrate2D := (Physics.integrate2D sinf cosf).
Local Abbreviation run_op := (run_op sinf cosf btRotateUp stepBullet).
Local Abbreviation run_ops := (run_ops sinf cosf btRotateUp stepBullet).

Lemma integrate2D_moved p l dt : moved l (integrate2D p l dt).
Proof.
  destruct l as [[pos rot sc act] w h d m [vx vy vz] a tl ta mt f mf r la cr].
  unfold Physics.integrate2D. cbv zeta.
  destruct (Lander.IsThrustActive _); (split; [reflexivity|cbn; auto]).
Qed.

Lemma CheckCollisions2D_moved q l :
  Physics.mLander q = Some l ->
  exists l', Physics.mLander (snd (Physics.CheckCollisions2D q)) = Some l' /\ moved l l'.
Proof.
  intros Hl. unfold Physics.CheckCollisions2D. rewrite Hl.
  destruct (Physics.mTerrain q) as [terrain|]; [|exists l; split; [exact Hl|apply moved_refl]].
  destruct (Lander.IsLanded l || Lander.IsCrashed l) eqn:Hterm;
    [exists l; split; [exact Hl|apply moved_refl]|].
  apply orb_false_iff in Hterm as [Hla Hcr].
  unfold Lander.IsLanded, Lander.IsCrashed in Hla, Hcr.
  destruct (Terrain.CheckCollision2D _ _ _) as [[|] h];
    [|exists l; split; [exact Hl|apply moved_refl]].
  destruct l as [[pos rot sc act] w h' d m [vx vy vz] a tl ta mt f mf r la cr].
  cbn in Hla, Hcr. subst la cr.
  destruct (Terrain.IsValidLanding2D _ _); eexists; (split; [reflexivity|]);
    (split; [reflexivity|split; discriminate]).
Qed.

Lemma Update2D_moved p l dt :
  Physics.mLander p = Some l ->
  exists l', Physics.mLander (Update2D p dt) = Some l' /\ moved l l'.
Proof.
  intros Hl. unfold Physics.Update2D. rewrite Hl.
  destruct (Physics.mTerrain p) as [terrain|]; [|exists l; split; [exact Hl|apply moved_refl]].
  destruct (negb (Lander.IsLanded l) && negb (Lander.IsCrashed l)).
  - destruct (CheckCollisions2D_moved
                (Physics.set_mLander p
                   (Some (integrate2D p l (F32.mul dt (Physics.mTimeScale p))))) _ eq_refl)
      as (l' & Hl' & Hm).
    exists l'. split; [exact Hl'|].
    eapply moved_trans; [apply integrate2D_moved|exact Hm].
  - apply CheckCollisions2D_moved. exact Hl.
Qed.

Lemma run_op_lander p op l :
  Physics.m3DMode p = false -> Physics.mLander p = Some l ->
  exists l', Physics.mLander (run_op p op) = Some l' /\ lander_step op l l'.
Proof.
  intros Hmode Hl.
  destruct op as [dt|dt| |dt|dt|amount|]; cbn [run_op lander_step].
  - unfold Physics.Update. rewrite Hmode. apply Update2D_moved. exact Hl.
  - apply Update2D_moved. exact Hl.
  - apply CheckCollisions2D_moved. exact Hl.
  - rewrite Hl. unfold Physics.ApplyThrust.
    destruct (Physics.mLanderRigidBody p) as [body|]; [|exists l; auto].
    destruct (negb (Lander.IsThrustActive l)); [exists l; auto|].
    destruct (F32.gtb _ _ && F32.leb _ _); cbn; [|exists l; auto].
    eexists. split; [reflexivity|]. right.
    unfold Lander.ApplyThrust, thrust_off. destruct (F32.leb _ _); reflexivity.
  - rewrite Hl. eexists. split; reflexivity.
  - rewrite Hl. eexists. split; reflexivity.
  - rewrite Hl. eexists. split; reflexivity.
Qed.

(** A property of the lander that every allowed operation keeps holds
    after any sequence of allowed operations. *)
Lemma run_ops_invariant (I : Lander.t -> Prop) (allowed : physics_op -> Prop) :
  (forall op l l', allowed op -> I l -> lander_step op l l' -> I l') ->
  forall ops p l,
    Physics.m3DMode p = false -> Physics.mLander p = Some l ->
    Forall allowed ops -> I l ->
    exists l', Physics.mLander (run_ops p ops) = Some l' /\ I l'.
Proof.
  intros Hstep. induction ops as [|op ops IH]; intros p l Hmode Hl Hall HI.
  - exists l. auto.
  - apply Forall_cons in Hall as [Hop Hall].
    destruct (run_op_lander p op l Hmode Hl) as (l1 & Hl1 & Hs).
    cbn [run_ops foldl].
    apply (IH _ l1); auto.
    + apply run_op_mode. exact Hmode.
    + eapply Hstep; eauto.
Qed.

(** X2. In 2D mode the thrust flag of the registered lander stays
    derived from the level and the fuel: after any sequence of engine and
    lander operations it is set exactly when the thrust level is above
    zero, and whenever it is set the fuel is not at or below zero. *)
Theorem thrust_flag_follows_level_and_fuel
    (p : Physics.t) (l : Lander.t) (ops : list physics_op) :
  Physics.m3DMode p = false -> Physics.mLander p = Some l ->
  thrust_consistent l ->
  exists l', Physics.mLander (run_ops p ops) = Some l' /\ thrust_consistent l'.
Proof.
  intros Hmode Hl HI.
  apply (run_ops_invariant thrust_consistent (fun _ => True)) with (l := l);
    auto; [|apply Forall_forall; auto].
  clear. intros op l l' _ HI Hstep.
  destruct op as [dt|dt| |dt|dt|amount|]; cbn in Hstep.
  1-3: destruct Hstep as (-> & _); exact HI.
  - destruct Hstep as [-> | ->]; [exact HI|apply thrust_consistent_off].
  - subst l'. apply thrust_consistent_Update. exact HI.
  - subst l'. apply thrust_consistent_ApplyThrust.
  - subst l'. apply thrust_consistent_Reset.
Qed.

Lemma tank_ok_step op l l' :
  steady_update op -> tank_ok l -> lander_step op l l' -> tank_ok l'.
Proof.
  intros Hop (Hok & Hmax & Hvalid) Hstep.
  destruct op as [dt|dt| |dt|dt|amount|]; cbn in Hstep, Hop.
  1-3: destruct Hstep as (-> & _); repeat split; assumption || apply Hok.
  - destruct Hstep as [-> | ->]; [repeat split; assumption || apply Hok|].
    destruct Hok as (H1 & H2 & H3 & H4). repeat split; assumption || reflexivity.
  - subst l'. destruct (Lander_Update_step l dt Hok Hop) as (Hok' & Hle & H0).
    split; [exact Hok'|]. split.
    + replace (Lander.mMaxFuel (Lander.Update l dt)) with (Lander.mMaxFuel l)
        by (destruct (Lander_Update_shape l dt) as (? & ? & ? & ->); reflexivity).
      unfold F32.leb in *. apply (SFleb_trans _ (Lander.mFuel l)); assumption.
    + replace (Lander.mMaxFuel (Lander.Update l dt)) with (Lander.mMaxFuel l)
        by (destruct (Lander_Update_shape l dt) as (? & ? & ? & ->); reflexivity).
      exact Hvalid.
  - subst l'. destruct (fuel_ok_ApplyThrust l amount Hok) as (Hok' & Hsame).
    split; [exact Hok'|]. rewrite Hsame.
    replace (Lander.mMaxFuel (Lander.ApplyThrust l amount)) with (Lander.mMaxFuel l)
      by (destruct (Lander_ApplyThrust_shape l amount) as (? & ? & ->); reflexivity).
    split; assumption.
  - subst l'. destruct Hok as (H1 & H2 & H3 & H4).
    assert (H0max : F32.leb F32.zero (Lander.mMaxFuel l) = true)
      by (unfold F32.leb in *; apply (SFleb_trans _ (Lander.mFuel l)); assumption).
    destruct (Reset_state l) as (_ & _ & _ & _ & Hlevel & _ & Hfuel & Hcap & Hrate & _).
    unfold tank_ok, fuel_ok. rewrite Hlevel, Hfuel, Hcap, Hrate.
    repeat split; try assumption; try reflexivity.
    apply SFleb_refl. apply leb_zero_not_nan. exact H0max.
Qed.

(** X3. The fuel stays within the tank: from a lander with valid fuel
    between 0 and its capacity, after any sequence of engine and lander
    operations in 2D mode, with delta-times that are not negative in the
    lander's [Update], the fuel is still between 0 and the capacity, and
    the capacity is the one it was. *)
Theorem fuel_stays_within_tank (p : Physics.t) (l : Lander.t) (ops : list physics_op) :
  Physics.m3DMode p = false -> Physics.mLander p = Some l ->
  tank_ok l -> Forall steady_update ops ->
  exists l', Physics.mLander (run_ops p ops) = Some l'
             /\ F32.leb F32.zero (Lander.mFuel l') = true
             /\ F32.leb (Lander.mFuel l') (Lander.mMaxFuel l') = true
             /\ Lander.mMaxFuel l' = Lander.mMaxFuel l.
Proof.
  intros Hmode Hl HI Hops.
  destruct (run_ops_invariant
              (fun l' => tank_ok l' /\ Lander.mMaxFuel l' = Lander.mMaxFuel l) steady_update)
    with (ops := ops) (p := p) (l := l) as (l' & Hl' & (Hok & Hmax & _) & Hsame); auto.
  - clear. intros op l0 l' Hop [HI Hsame] Hstep. split; [eapply tank_ok_step; eassumption|].
    rewrite <- Hsame. destruct op as [dt|dt| |dt|dt|amount|]; cbn in Hstep.
    1-3: destruct Hstep as (-> & _); reflexivity.
    + destruct Hstep as [-> | ->]; reflexivity.
    + subst l'. destruct (Lander_Update_shape l0 dt) as (? & ? & ? & ->); reflexivity.
    + subst l'. destruct (Lander_ApplyThrust_shape l0 amount) as (? & ? & ->); reflexivity.
    + subst l'. destruct (Reset_state l0) as (_ & _ & _ & _ & _ & _ & _ & Hcap & _).
      exact Hcap.
  - exists l'. split; [exact Hl'|]. split; [apply Hok|]. split; assumption.
Qed.

(** X4. Only [Lander::Reset] clears a terminal flag: after any sequence
    of the other engine and lander operations in 2D mode, a lander that was
    landed is still landed and one that was crashed is still crashed. *)
Theorem terminal_flags_are_cleared_by_Reset_only
    (p : Physics.t) (l : Lander.t) (ops : list physics_op) :
  Physics.m3DMode p = false -> Physics.mLander p = Some l ->
  Forall (fun op => is_reset op = false) ops ->
  exists l', Physics.mLander (run_ops p ops) = Some l'
             /\ (Lander.mLanded l = true -> Lander.mLanded l' = true)
             /\ (Lander.mCrashed l = true -> Lander.mCrashed l' = true).
Proof.
  intros Hmode Hl Hops.
  apply (run_ops_invariant
           (fun l' => (Lander.mLanded l = true -> Lander.mLanded l' = true)
                      /\ (Lander.mCrashed l = true -> Lander.mCrashed l' = true))
           (fun op => is_reset op = false)) with (l := l); auto.
  clear. intros op l0 l' Hop [Hla Hcr] Hstep.
  destruct op as [dt|dt| |dt|dt|amount|]; cbn in Hstep; try discriminate Hop.
  1-3: destruct Hstep as (_ & H1 & H2); auto.
  - destruct Hstep as [-> | ->]; auto.
  - subst l'. destruct (Lander_Update_shape l0 dt) as (? & ? & ? & ->); auto.
  - subst l'. destruct (Lander_ApplyThrust_shape l0 amount) as (? & ? & ->); auto.
Qed.

(** X5. [Lander::Reset] forgets the flight: whatever engine and lander
    operations were run in 2D mode, resetting the lander gives the state
    that resetting it at the start would have given (position (0, 5, 0),
    no rotation, velocity or acceleration, thrust off, a full tank, both
    flags cleared); no operation changes what [Reset] keeps (the size, the
    mass, the scale, the capacity and the consumption rate). *)
Theorem Reset_forgets_the_flight (p : Physics.t) (l : Lander.t) (ops : list physics_op) :
  Physics.m3DMode p = false -> Physics.mLander p = Some l ->
  exists l', Physics.mLander (run_ops p ops) = Some l'
             /\ Lander.Reset l' = Lander.Reset l
             /\ Entity.mPosition (Lander.base (Lander.Reset l'))
                = mkFloat3 F32.zero (F32.of_int 5) F32.zero
             /\ Lander.mFuel (Lander.Reset l') = Lander.mMaxFuel l
             /\ Lander.mLanded (Lander.Reset l') = false
             /\ Lander.mCrashed (Lander.Reset l') = false.
Proof.
  intros Hmode Hl.
  destruct (run_ops_invariant
              (fun l' => Lander.Reset l' = Lander.Reset l) (fun _ => True))
    with (ops := ops) (p := p) (l := l) as (l' & Hl' & Hreset);
    auto; [|apply Forall_forall; auto|].
  - clear. intros op l0 l' _ HI Hstep. rewrite <- HI.
    destruct op as [dt|dt| |dt|dt|amount|]; cbn in Hstep.
    1-3: destruct Hstep as (-> & _); reflexivity.
    + destruct Hstep as [-> | ->]; reflexivity.
    + subst l'. destruct (Lander_Update_shape l0 dt) as (? & ? & ? & ->); reflexivity.
    + subst l'. destruct (Lander_ApplyThrust_shape l0 amount) as (? & ? & ->); reflexivity.
    + subst l'. destruct (Reset_state l0) as (Hidem & _). exact Hidem.
  - exists l'. split; [exact Hl'|]. split; [exact Hreset|]. rewrite Hreset.
    destruct (Reset_state l) as (_ & Hpos & _ & _ & _ & _ & Hfuel & _ & _ & Hla & Hcr).
    auto.
Qed.

(** X6. A step of the 2D engine changes nothing of the lander but its
    position, its velocity along x and y and its terminal flags, and it
    clears no flag: [Update], [Update2D] and [CheckCollisions2D] leave the
    rotation, the thrust, the fuel, the mass and the size as they were. *)
Theorem physics_step_changes_motion_only (p : Physics.t) (l : Lander.t) (dt : F32.float) :
  Physics.m3DMode p = false -> Physics.mLander p = Some l ->
  (exists l', Physics.mLander (Update p dt) = Some l' /\ moved l l')
  /\ (exists l', Physics.mLander (Update2D p dt) = Some l' /\ moved l l')
  /\ (exists l', Physics.mLander (snd (Physics.CheckCollisions2D p)) = Some l'
                 /\ moved l l').
Proof.
  intros Hmode Hl. split; [|split].
  - unfold Physics.Update. rewrite Hmode. apply Update2D_moved. exact Hl.
  - apply Update2D_moved. exact Hl.
  - apply CheckCollisions2D_moved. exact Hl.
Qed.
End EngineProperties.

(** X7. [CheckCollisions2D] returns true exactly when a lander and a
    terrain are registered, the lander is neither landed nor crashed, and
    the terrain reports a collision for it; when it returns false it has
    changed nothing; and a collision is reported once: checking again
    returns false and changes nothing.  In 2D mode [CheckCollisions] is
    this function. *)
Theorem CheckCollisions2D_reports_a_collision_once
    (CheckCollisions3D : Physics.t -> bool * Physics.t) (p : Physics.t) :
  let r := Physics.CheckCollisions2D p in
  (fst r = true <->
     exists l terrain h,
       Physics.mLander p = Some l /\ Physics.mTerrain p = Some terrain
       /\ Lander.mLanded l = false /\ Lander.mCrashed l = false
       /\ Terrain.CheckCollision2D terrain (Some l) F32.zero = (true, h))
  /\ (fst r = false -> snd r = p)
  /\ Physics.CheckCollisions2D (snd r) = (false, snd r)
  /\ (Physics.m3DMode p = false -> Physics.CheckCollisions CheckCollisions3D p = r).
Proof.
  cbv zeta.
  assert (Hdisp : Physics.m3DMode p = false ->
                  Physics.CheckCollisions CheckCollisions3D p = Physics.CheckCollisions2D p)
    by (intros Hmode; unfold Physics.CheckCollisions; rewrite Hmode; reflexivity).
  assert (Hquiet : Physics.CheckCollisions2D p = (false, p) ->
            ~ (exists l terrain h,
                 Physics.mLander p = Some l /\ Physics.mTerrain p = Some terrain
                 /\ Lander.mLanded l = false /\ Lander.mCrashed l = false
                 /\ Terrain.CheckCollision2D terrain (Some l) F32.zero = (true, h)) ->
            (fst (Physics.CheckCollisions2D p) = true <->
               exists l terrain h,
                 Physics.mLander p = Some l /\ Physics.mTerrain p = Some terrain
                 /\ Lander.mLanded l = false /\ Lander.mCrashed l = false
                 /\ Terrain.CheckCollision2D terrain (Some l) F32.zero = (true, h))
            /\ (fst (Physics.CheckCollisions2D p) = false ->
                snd (Physics.CheckCollisions2D p) = p)
            /\ Physics.CheckCollisions2D (snd (Physics.CheckCollisions2D p))
               = (false, snd (Physics.CheckCollisions2D p))).
  { intros Hr Hno. rewrite Hr. cbn [fst snd]. rewrite Hr.
    split; [split; [discriminate|contradiction]|]. split; reflexivity. }
  assert (Hmain :
            (fst (Physics.CheckCollisions2D p) = true <->
               exists l terrain h,
                 Physics.mLander p = Some l /\ Physics.mTerrain p = Some terrain
                 /\ Lander.mLanded l = false /\ Lander.mCrashed l = false
                 /\ Terrain.CheckCollision2D terrain (Some l) F32.zero = (true, h))
            /\ (fst (Physics.CheckCollisions2D p) = false ->
                snd (Physics.CheckCollisions2D p) = p)
            /\ Physics.CheckCollisions2D (snd (Physics.CheckCollisions2D p))
               = (false, snd (Physics.CheckCollisions2D p))).
  { destruct (Physics.mLander p) as [l|] eqn:Hl.
    2: { apply Hquiet; [unfold Physics.CheckCollisions2D; rewrite Hl; reflexivity|].
         intros (? & ? & ? & ? & _). discriminate. }
    destruct (Physics.mTerrain p) as [terrain|] eqn:Ht.
    2: { apply Hquiet; [unfold Physics.CheckCollisions2D; rewrite Hl, Ht; reflexivity|].
         intros (? & ? & ? & _ & ? & _). discriminate. }
    destruct (Lander.mLanded l) eqn:Hla.
    { apply Hquiet; [apply (CheckCollisions2D_terminal p l Hl); left; exact Hla|].
      intros (l0 & ? & ? & [= <-] & _ & H & _). congruence. }
    destruct (Lander.mCrashed l) eqn:Hcr.
    { apply Hquiet; [apply (CheckCollisions2D_terminal p l Hl); right; exact Hcr|].
      intros (l0 & ? & ? & [= <-] & _ & _ & H & _). congruence. }
    destruct (Terrain.CheckCollision2D terrain (Some l) F32.zero) as [[|] h] eqn:Hhit.
    - destruct (CheckCollisions2D_hit p l terrain h Hl Ht Hla Hcr Hhit) as (l' & Hcc & Hs).
      rewrite Hcc. cbn [fst snd].
      split; [split; [intros _; exists l, terrain, h; auto|reflexivity]|].
      split; [discriminate|].
      apply (CheckCollisions2D_terminal _ l'); [reflexivity|].
      destruct Hs as (_ & _ & _ & Hla' & Hcr' & _). rewrite Hla', Hcr'.
      destruct (Terrain.IsValidLanding2D terrain (Some l)); auto.
    - apply Hquiet; [apply (CheckCollisions2D_miss p l terrain h Hl Ht Hhit)|].
      intros (l0 & t0 & h0 & [= <-] & [= <-] & _ & _ & H). congruence. }
  destruct Hmain as (H1 & H2 & H3). auto.
Qed.

(** ** Rotation *)

Lemma whole_degrees_checked :
  forallb (fun d => forallb (fun a => turn_left_ok d a && turn_right_ok d a) (seqZ 0 361))
          (seqZ 0 360) = true.
Proof. vm_cast_no_check (eq_refl true). Qed.

Lemma whole_degrees_ok (d a : Z) :
  0 <= d < 360 -> 0 <= a <= 360 -> turn_left_ok d a = true /\ turn_right_ok d a = true.
Proof.
  intros Hd Ha. pose proof whole_degrees_checked as H.
  rewrite forallb_forall in H.
  assert (Hin : In d (seqZ 0 360)) by (apply list_elem_of_In, elem_of_seqZ; lia).
  specialize (H d Hin). rewrite forallb_forall in H.
  assert (Hin' : In a (seqZ 0 361)) by (apply list_elem_of_In, elem_of_seqZ; lia).
  specialize (H a Hin'). apply andb_true_iff in H. exact H.
Qed.

(** A loop that has stopped within [fuel] tests stops at the same value
    with more. *)
Lemma wrap_down_more (fuel extra : nat) : forall r r',
  Lander.wrap_down fuel r = Some r' -> Lander.wrap_down (fuel + extra) r = Some r'.
Proof.
  induction fuel as [|fuel IH]; intros r r' H; [discriminate H|].
  cbn [Nat.add Lander.wrap_down] in *. destruct (F32.geb r _); [apply IH|]; exact H.
Qed.

Lemma wrap_up_more (fuel extra : nat) : forall r r',
  Lander.wrap_up fuel r = Some r' -> Lander.wrap_up (fuel + extra) r = Some r'.
Proof.
  induction fuel as [|fuel IH]; intros r r' H; [discriminate H|].
  cbn [Nat.add Lander.wrap_up] in *. destruct (F32.ltb r _); [apply IH|]; exact H.
Qed.

Lemma set_rotationZ_same (l : Lander.t) :
  Lander.set_rotationZ l (at2 (Lander.GetRotation l)) = l.
Proof.
  destruct l as [[pos [rx ry rz] sc act] w h d m v a tl ta mt f mf r la cr]. reflexivity.
Qed.

Lemma RotateLeft_whole (l : Lander.t) (d a : Z) (extra : nat) :
  0 <= d < 360 -> 0 <= a <= 360 -> at2 (Lander.GetRotation l) = F32.of_int d ->
  Lander.RotateLeft (2 + extra) l (F32.of_int a)
  = Some (Lander.set_rotationZ l (F32.of_int ((d + a) mod 360))).
Proof.
  intros Hd Ha Hr. unfold Lander.RotateLeft. rewrite Hr.
  destruct (whole_degrees_ok d a Hd Ha) as [Hok _]. unfold turn_left_ok in Hok.
  destruct (Lander.wrap_down 2 _) as [r|] eqn:Hw; [|discriminate Hok].
  apply same_float_eq in Hok. subst r.
  rewrite (wrap_down_more 2 extra _ _ Hw). reflexivity.
Qed.

Lemma RotateRight_whole (l : Lander.t) (d a : Z) (extra : nat) :
  0 <= d < 360 -> 0 <= a <= 360 -> at2 (Lander.GetRotation l) = F32.of_int d ->
  Lander.RotateRight (2 + extra) l (F32.of_int a)
  = Some (Lander.set_rotationZ l (F32.of_int ((d - a) mod 360))).
Proof.
  intros Hd Ha Hr. unfold Lander.RotateRight. rewrite Hr.
  destruct (whole_degrees_ok d a Hd Ha) as [_ Hok]. unfold turn_right_ok in Hok.
  destruct (Lander.wrap_up 2 _) as [r|] eqn:Hw; [|discriminate Hok].
  apply same_float_eq in Hok. subst r.
  rewrite (wrap_up_more 2 extra _ _ Hw). reflexivity.
Qed.

(** X8. For a heading of [d] whole degrees in [0, 360) and an amount of
    [a] whole degrees between 0 and 360, [RotateLeft] returns after at most
    two tests of its loop with the heading [(d + a) mod 360], and
    [RotateRight] with [(d - a) mod 360], both exactly and again in
    [0, 360); nothing else of the lander changes, and each of the two
    undoes the other. *)
Theorem rotation_by_whole_degrees (l : Lander.t) (d a : Z) (extra : nat) :
  0 <= d < 360 -> 0 <= a <= 360 ->
  at2 (Lander.GetRotation l) = F32.of_int d ->
  let left := Lander.set_rotationZ l (F32.of_int ((d + a) mod 360)) in
  let right := Lander.set_rotationZ l (F32.of_int ((d - a) mod 360)) in
  Lander.RotateLeft (2 + extra) l (F32.of_int a) = Some left
  /\ Lander.RotateRight (2 + extra) l (F32.of_int a) = Some right
  /\ Lander.RotateRight (2 + extra) left (F32.of_int a) = Some l
  /\ Lander.RotateLeft (2 + extra) right (F32.of_int a) = Some l
  /\ 0 <= (d + a) mod 360 < 360 /\ 0 <= (d - a) mod 360 < 360.
Proof.
  intros Hd Ha Hrot left right.
  assert (Hl : 0 <= (d + a) mod 360 < 360) by (apply Z.mod_pos_bound; lia).
  assert (Hr : 0 <= (d - a) mod 360 < 360) by (apply Z.mod_pos_bound; lia).
  split; [apply RotateLeft_whole; assumption|].
  split; [apply RotateRight_whole; assumption|].
  split; [|split; [|split; assumption]].
  - rewrite (RotateRight_whole left ((d + a) mod 360)); [|exact Hl|exact Ha|reflexivity].
    subst left. change (Lander.set_rotationZ (Lander.set_rotationZ l ?x) ?y)
      with (Lander.set_rotationZ l y).
    replace (((d + a) mod 360 - a) mod 360) with d.
    + rewrite <- Hrot. rewrite set_rotationZ_same. reflexivity.
    + rewrite Zminus_mod_idemp_l. replace (d + a - a) with d by lia.
      symmetry. apply Z.mod_small. lia.
  - rewrite (RotateLeft_whole right ((d - a) mod 360)); [|exact Hr|exact Ha|reflexivity].
    subst right. change (Lander.set_rotationZ (Lander.set_rotationZ l ?x) ?y)
      with (Lander.set_rotationZ l y).
    replace (((d - a) mod 360 + a) mod 360) with d.
    + rewrite <- Hrot. rewrite set_rotationZ_same. reflexivity.
    + rewrite Zplus_mod_idemp_l. replace (d - a + a) with d by lia.
      symmetry. apply Z.mod_small. lia.
Qed.

Lemma wrap_down_stuck (r : F32.float) :
  F32.geb r (F32.of_int 360) = true -> F32.sub r (F32.of_int 360) = r ->
  forall fuel, Lander.wrap_down fuel r = None.
Proof.
  intros Hge Hfix. induction fuel as [|fuel IH]; [reflexivity|].
  cbn [Lander.wrap_down]. rewrite Hge, Hfix. exact IH.
Qed.

Lemma wrap_up_stuck (r : F32.float) :
  F32.ltb r F32.zero = true -> F32.add r (F32.of_int 360) = r ->
  forall fuel, Lander.wrap_up fuel r = None.
Proof.
  intros Hlt Hfix. induction fuel as [|fuel IH]; [reflexivity|].
  cbn [Lander.wrap_up]. rewrite Hlt, Hfix. exact IH.
Qed.

(** X9. The loops of [RotateLeft] and [RotateRight] need not stop: when
    the heading plus the amount is at least 360 and so large that
    subtracting 360 rounds back to it, [RotateLeft] is still running after
    any number of tests, and likewise [RotateRight] below zero.  This
    happens from heading 0 with an infinite amount and with the amount
    2^34. *)
Theorem rotation_loops_can_run_forever (l : Lander.t) (amount : F32.float) (fuel : nat) :
  let r := at2 (Lander.GetRotation l) in
  (F32.geb (F32.add r amount) (F32.of_int 360) = true
   /\ F32.sub (F32.add r amount) (F32.of_int 360) = F32.add r amount
   -> Lander.RotateLeft fuel l amount = None)
  /\ (F32.ltb (F32.sub r amount) F32.zero = true
      /\ F32.add (F32.sub r amount) (F32.of_int 360) = F32.sub r amount
      -> Lander.RotateRight fuel l amount = None)
  /\ Lander.RotateLeft fuel Lander.init (S754_infinity false) = None
  /\ Lander.RotateRight fuel Lander.init (S754_infinity false) = None
  /\ Lander.RotateLeft fuel Lander.init (F32.of_int (2 ^ 34)) = None
  /\ Lander.RotateRight fuel Lander.init (F32.of_int (2 ^ 34)) = None.
Proof.
  cbv zeta.
  assert (Hl : forall l0 a0,
            F32.geb (F32.add (at2 (Lander.GetRotation l0)) a0) (F32.of_int 360) = true ->
            F32.sub (F32.add (at2 (Lander.GetRotation l0)) a0) (F32.of_int 360)
            = F32.add (at2 (Lander.GetRotation l0)) a0 ->
            Lander.RotateLeft fuel l0 a0 = None).
  { intros l0 a0 H1 H2. unfold Lander.RotateLeft. rewrite wrap_down_stuck; auto. }
  assert (Hr : forall l0 a0,
            F32.ltb (F32.sub (at2 (Lander.GetRotation l0)) a0) F32.zero = true ->
            F32.add (F32.sub (at2 (Lander.GetRotation l0)) a0) (F32.of_int 360)
            = F32.sub (at2 (Lander.GetRotation l0)) a0 ->
            Lander.RotateRight fuel l0 a0 = None).
  { intros l0 a0 H1 H2. unfold Lander.RotateRight. rewrite wrap_up_stuck; auto. }
  split; [intros [H1 H2]; auto|]. split; [intros [H1 H2]; auto|].
  repeat split; (apply Hl || apply Hr); vm_compute; reflexivity.
Qed.

(** X10. Each rotation wraps on one side only.  When [RotateLeft]
    returns, the heading is below 360 or it is not a number, and nothing
    else has changed; a heading below zero is left as it is: from heading 0
    the amount -10 gives -10.  When [RotateRight] returns, the heading is at
    or above 0 or it is not a number; a heading of 360 or more is left as it
    is: from heading 0 the amount -400 gives 400.  An amount that is not a
    number makes the heading not a number, from any heading and in both
    directions. *)
Theorem rotation_is_wrapped_on_one_side_only
    (fuel : nat) (l : Lander.t) (amount : F32.float) :
  (forall l', Lander.RotateLeft fuel l amount = Some l' ->
     (at2 (Lander.GetRotation l') = S754_nan
      \/ F32.ltb (at2 (Lander.GetRotation l')) (F32.of_int 360) = true)
     /\ l' = Lander.set_rotationZ l (at2 (Lander.GetRotation l')))
  /\ (forall l', Lander.RotateRight fuel l amount = Some l' ->
        (at2 (Lander.GetRotation l') = S754_nan
         \/ F32.geb (at2 (Lander.GetRotation l')) F32.zero = true)
        /\ l' = Lander.set_rotationZ l (at2 (Lander.GetRotation l')))
  /\ Lander.RotateLeft (S fuel) l S754_nan = Some (Lander.set_rotationZ l S754_nan)
  /\ Lander.RotateRight (S fuel) l S754_nan = Some (Lander.set_rotationZ l S754_nan)
  /\ Lander.RotateLeft 1 Lander.init (F32.of_int (-10))
     = Some (Lander.set_rotationZ Lander.init (F32.of_int (-10)))
  /\ Lander.RotateRight 1 Lander.init (F32.of_int (-400))
     = Some (Lander.set_rotationZ Lander.init (F32.of_int 400)).
Proof.
  split; [|split; [|split; [|split; [|split; vm_compute; reflexivity]]]].
  - intros l'. unfold Lander.RotateLeft.
    destruct (Lander.wrap_down fuel _) as [r|] eqn:Hw; [|discriminate].
    intros [= <-]. split; [|reflexivity]. cbn.
    revert Hw. generalize (F32.add (at2 (Lander.GetRotation l)) amount).
    induction fuel as [|fuel IH]; intros r0 Hw; [discriminate Hw|].
    cbn [Lander.wrap_down] in Hw.
    destruct (F32.geb r0 (F32.of_int 360)) eqn:Hge; [eauto|].
    injection Hw as <-.
    destruct (not_leb_ltb r0 (F32.of_int 360) Hge) as [H|[H|H]]; auto.
    discriminate H.
  - intros l'. unfold Lander.RotateRight.
    destruct (Lander.wrap_up fuel _) as [r|] eqn:Hw; [|discriminate].
    intros [= <-]. split; [|reflexivity]. cbn.
    revert Hw. generalize (F32.sub (at2 (Lander.GetRotation l)) amount).
    induction fuel as [|fuel IH]; intros r0 Hw; [discriminate Hw|].
    cbn [Lander.wrap_up] in Hw.
    destruct (F32.ltb r0 F32.zero) eqn:Hlt; [eauto|].
    injection Hw as <-.
    destruct r0 as [[]|[]| |[] m e]; auto; discriminate Hlt.
  - unfold Lander.RotateLeft.
    replace (F32.add (at2 (Lander.GetRotation l)) S754_nan) with S754_nan
      by (destruct (at2 (Lander.GetRotation l)); reflexivity).
    reflexivity.
  - unfold Lander.RotateRight.
    replace (F32.sub (at2 (Lander.GetRotation l)) S754_nan) with S754_nan
      by (destruct (at2 (Lander.GetRotation l)); reflexivity).
    reflexivity.
Qed.

(** ** Collisions with the 3D terrain *)

Lemma scan_collision3D_None l tris :
  Terrain.scan_collision3D l tris = None <-> forall tri, tri ∈ tris -> ~ touches3D_as_computed l tri.
Proof.
  unfold touches3D_as_computed.
  induction tris as [|tri tris IH]; cbn [Terrain.scan_collision3D].
  - split; [|reflexivity]. intros _ tri Ht. inversion Ht.
  - cbv zeta.
    destruct (Terrain.in_bounds _ _ tri) eqn:Hin;
      [destruct (F32.geb _ (Terrain.avgHeight tri)) eqn:Hge|].
    + split; [discriminate|]. intros Hall. exfalso.
      apply (Hall tri); [left|]. split; [apply in_bounds_true; exact Hin|exact Hge].
    + rewrite IH. split.
      * intros Hall t' Ht'. apply elem_of_cons in Ht' as [->|Ht']; [|auto].
        intros [_ Hge']. unfold Lander.GetHeight in Hge. congruence.
      * intros Hall t' Ht'. apply Hall. right. exact Ht'.
    + rewrite IH. split.
      * intros Hall t' Ht'. apply elem_of_cons in Ht' as [->|Ht']; [|auto].
        intros [Hin' _]. apply in_bounds_true in Hin'. congruence.
      * intros Hall t' Ht'. apply Hall. right. exact Ht'.
Qed.

Lemma scan_collision3D_Some l tris h :
  Terrain.scan_collision3D l tris = Some h ->
  exists pre tri post,
    tris = pre ++ tri :: post
    /\ (forall t', t' ∈ pre -> ~ touches3D_as_computed l t')
    /\ touches3D_as_computed l tri
    /\ h = Terrain.avgHeight tri.
Proof.
  induction tris as [|tri tris IH]; cbn [Terrain.scan_collision3D]; [discriminate|].
  assert (Hskip :
    ~ touches3D_as_computed l tri ->
    Terrain.scan_collision3D l tris = Some h ->
    exists pre t0 post,
      tri :: tris = pre ++ t0 :: post
      /\ (forall t', t' ∈ pre -> ~ touches3D_as_computed l t')
      /\ touches3D_as_computed l t0
      /\ h = Terrain.avgHeight t0).
  { intros Hno Hscan. destruct (IH Hscan) as (pre & t0 & post & -> & Hpre & Ht0 & Hh).
    exists (tri :: pre), t0, post. split; [reflexivity|]. split; [|auto].
    intros t' Ht'. apply elem_of_cons in Ht' as [->|Ht']; auto. }
  cbv zeta.
  destruct (Terrain.in_bounds _ _ tri) eqn:Hin;
    [destruct (F32.geb _ (Terrain.avgHeight tri)) eqn:Hge|].
  - intros [= <-]. exists [], tri, tris. split; [reflexivity|].
    split; [intros t' Ht'; inversion Ht'|].
    split; [|reflexivity]. split; [apply in_bounds_true; exact Hin|exact Hge].
  - apply Hskip. intros [_ Hge']. unfold Lander.GetHeight in Hge. congruence.
  - apply Hskip. intros [Hin' _]. apply in_bounds_true in Hin'. congruence.
Qed.

(** X11. For a non-null lander [CheckCollision3D] returns true exactly
    when some triangle's (x, z) bounding box contains the lander and the
    lander's y plus half its height is at or above the average
    [(y1 + y2 + y3) / 3] of the heights of the triangle's three vertices;
    the collision height it then writes is that average for the first such
    triangle, and otherwise the output is left as it was. *)
Theorem CheckCollision3D_iff_touches (t : Terrain.t) (l : Lander.t) (h0 : F32.float) :
  exists r,
    Terrain.CheckCollision3D t (Some l) h0 = Done r
    /\ (fst r = true <-> exists tri, tri ∈ Terrain.mTriangles3D t /\ touches3D l tri)
    /\ (fst r = true ->
        exists pre tri post,
          Terrain.mTriangles3D t = pre ++ tri :: post
          /\ (forall t', t' ∈ pre -> ~ touches3D l t')
          /\ touches3D l tri
          /\ snd r = average_height tri)
    /\ (fst r = false -> snd r = h0).
Proof.
  enough (H : exists r,
            Terrain.CheckCollision3D t (Some l) h0 = Done r
            /\ (fst r = true <->
                exists tri, tri ∈ Terrain.mTriangles3D t /\ touches3D_as_computed l tri)
            /\ (fst r = true ->
                exists pre tri post,
                  Terrain.mTriangles3D t = pre ++ tri :: post
                  /\ (forall t', t' ∈ pre -> ~ touches3D_as_computed l t')
                  /\ touches3D_as_computed l tri
                  /\ snd r = Terrain.avgHeight tri)
            /\ (fst r = false -> snd r = h0)) by exact H.
  unfold Terrain.CheckCollision3D.
  destruct (Terrain.scan_collision3D l (Terrain.mTriangles3D t)) as [h|] eqn:Hscan;
    eexists; (split; [reflexivity|]); cbn [fst snd].
  - destruct (scan_collision3D_Some _ _ _ Hscan) as (pre & tri & post & Htris & Hpre & Ht & Hh).
    split; [|split].
    + split; [intros _|reflexivity]. exists tri. split; [|exact Ht].
      rewrite Htris. apply elem_of_app. right. left.
    + intros _. exists pre, tri, post. auto.
    + discriminate.
  - split; [|split].
    + split; [discriminate|]. intros (tri & Ht & Htouch). exfalso.
      exact (proj1 (scan_collision3D_None _ _) Hscan tri Ht Htouch).
    + discriminate.
    + reflexivity.
Qed.

(** ** The 2D terrain *)

(** The ten segments of [Generate2D], one by one. *)
Lemma Generate2D_lookup (rnd : nat -> Z) (t : Terrain.t) (width height : Z) :
  width ÷ 10 <> 0 ->
  exists t' startSegment endSegment,
    Terrain.Generate2D rnd t width height = Some t'
    /\ Terrain.mWidth t' = width /\ Terrain.mHeight t' = height
    /\ Terrain.mTriangles3D t' = Terrain.mTriangles3D t
    /\ Terrain.mPixelsPerMeter t' = Terrain.mPixelsPerMeter t
    /\ length (Terrain.mSegments2D t') = 10%nat
    /\ forall (j : nat), (j < 10)%nat ->
         Terrain.mSegments2D t' !! j
         = Some (let s := Terrain.new_segment width (Int32.sub height 50) (Z.of_nat j)
                            (rnd (2 * j)%nat) (rnd (2 * j + 1)%nat) in
                 if (startSegment <=? Z.of_nat j) && (Z.of_nat j <=? endSegment)
                 then Terrain.flatten (Int32.sub height 50) s else s).
Proof.
  intros Hq. unfold Terrain.Generate2D. cbv zeta.
  destruct (Z.eqb_spec (width ÷ Terrain.segmentCount) 0) as [H0|_]; [contradiction|].
  match goal with
  | |- context [for_up (Z.to_nat (_ - ?a)) ?a (fun i => (i <=? ?b) && _) _ _] =>
      set (startSegment := a); set (endSegment := b)
  end.
  eexists _, startSegment, endSegment.
  split; [reflexivity|]. cbn [Terrain.mSegments2D Terrain.mWidth Terrain.mHeight
                               Terrain.mTriangles3D Terrain.mPixelsPerMeter].
  do 4 (split; [reflexivity|]).
  set (segs := for_up 10 0 _ _ []).
  assert (Hlen : length segs = 10%nat) by reflexivity.
  assert (Hfuel : 10 - startSegment <= Z.of_nat (Z.to_nat (Terrain.segmentCount - startSegment)))
    by (unfold Terrain.segmentCount; lia).
  split; [rewrite mark_loop_length; exact Hlen|].
  intros j Hj. rewrite (mark_loop_lookup (Int32.sub height 50) endSegment _ _ _ j Hlen Hfuel).
  do 10 (destruct j as [|j]; [reflexivity|]). lia.
Qed.

(** X12. Whenever [Generate2D] is defined it makes 10 segments that
    tile the pixels from 0 to 10 times [width / 10] without a gap: segment
    [j] runs from [j * (width / 10)] to [(j + 1) * (width / 10)], so each
    one starts where the one before ends, and the last [width mod 10]
    pixels of the width are not covered.  The width and the height are
    recorded and the 3D triangles are left alone. *)
Theorem Generate2D_segments_tile_the_width
    (rnd : nat -> Z) (t : Terrain.t) (width height : Z) :
  width ÷ 10 <> 0 ->
  exists t',
    Terrain.Generate2D rnd t width height = Some t'
    /\ length (Terrain.mSegments2D t') = 10%nat
    /\ (forall (j : nat) s, Terrain.mSegments2D t' !! j = Some s ->
          TerrainSegment.x1 s = F32.of_int (Z.of_nat j * (width ÷ 10))
          /\ TerrainSegment.x2 s = F32.of_int ((Z.of_nat j + 1) * (width ÷ 10)))
    /\ (forall (j : nat) s s',
          Terrain.mSegments2D t' !! j = Some s ->
          Terrain.mSegments2D t' !! S j = Some s' ->
          TerrainSegment.x2 s = TerrainSegment.x1 s')
    /\ Terrain.mWidth t' = width /\ Terrain.mHeight t' = height
    /\ Terrain.mTriangles3D t' = Terrain.mTriangles3D t.
Proof.
  intros Hq.
  destruct (Generate2D_lookup rnd t width height Hq)
    as (t' & a & b & Hgen & Hw & Hh & Htri & _ & Hlen & Hlook).
  assert (Hx : forall (j : nat) s, Terrain.mSegments2D t' !! j = Some s ->
            TerrainSegment.x1 s = F32.of_int (Z.of_nat j * (width ÷ 10))
            /\ TerrainSegment.x2 s = F32.of_int ((Z.of_nat j + 1) * (width ÷ 10))).
  { intros j s Hj. assert (Hlt : (j < 10)%nat)
      by (rewrite <- Hlen; eapply lookup_lt_Some; exact Hj).
    rewrite (Hlook j Hlt) in Hj. injection Hj as <-. cbv zeta.
    destruct (_ && _); split; reflexivity. }
  exists t'. split; [exact Hgen|]. split; [exact Hlen|]. split; [exact Hx|].
  split; [|auto].
  intros j s s' Hj Hj'. destruct (Hx j s Hj) as [_ ->]. destruct (Hx (S j) s' Hj') as [-> _].
  f_equal. lia.
Qed.

(** X13. With [rand()] returning no negative number, every segment end
    that [Generate2D] makes lies between 0 and 19 pixels above the baseline
    [height - 50] (a smaller y is higher on the screen), and both ends of a
    landing-pad segment lie on the baseline: no terrain is below the
    pad.  The baseline and the heights are 32-bit [int] differences: they
    are [height - 50] and [height - 50 - e] whenever the height is not
    within 69 of the smallest [int], and wrap around below that. *)
Theorem Generate2D_heights_stay_near_the_baseline
    (rnd : nat -> Z) (t : Terrain.t) (width height : Z) :
  width ÷ 10 <> 0 -> (forall k, 0 <= rnd k) ->
  exists t',
    Terrain.Generate2D rnd t width height = Some t'
    /\ forall s, s ∈ Terrain.mSegments2D t' ->
         exists e1 e2,
           0 <= e1 <= 19 /\ 0 <= e2 <= 19
           /\ TerrainSegment.y1 s = F32.of_int (Int32.sub (Int32.sub height 50) e1)
           /\ TerrainSegment.y2 s = F32.of_int (Int32.sub (Int32.sub height 50) e2)
           /\ (TerrainSegment.isLandingPad s = true -> e1 = 0 /\ e2 = 0)
           /\ (Int32.min_signed + 69 <= height <= Int32.max_signed ->
               Int32.sub (Int32.sub height 50) e1 = height - 50 - e1
               /\ Int32.sub (Int32.sub height 50) e2 = height - 50 - e2).
Proof.
  intros Hq Hrnd.
  assert (Hplain : forall e, 0 <= e <= 19 ->
            Int32.min_signed + 69 <= height <= Int32.max_signed ->
            Int32.sub (Int32.sub height 50) e = height - 50 - e).
  { unfold Int32.min_signed, Int32.max_signed. intros e He Hh. unfold Int32.sub.
    rewrite (Int32_wrap_small (height - 50))
      by (unfold Int32.in_range, Int32.min_signed, Int32.max_signed; lia).
    apply Int32_wrap_small.
    unfold Int32.in_range, Int32.min_signed, Int32.max_signed. lia. }
  destruct (Generate2D_lookup rnd t width height Hq)
    as (t' & a & b & Hgen & _ & _ & _ & _ & Hlen & Hlook).
  exists t'. split; [exact Hgen|].
  intros s Hs. apply list_elem_of_lookup in Hs as [j Hj].
  assert (Hlt : (j < 10)%nat) by (rewrite <- Hlen; eapply lookup_lt_Some; exact Hj).
  rewrite (Hlook j Hlt) in Hj. injection Hj as <-. cbv zeta.
  destruct (_ && _).
  - exists 0, 0.
    split; [lia|]. split; [lia|].
    split; [rewrite Int32_sub_0_r; reflexivity|].
    split; [rewrite Int32_sub_0_r; reflexivity|].
    split; [auto|]. intros Hh. split; apply Hplain; lia.
  - exists (Z.rem (rnd (2 * j)%nat) 20), (Z.rem (rnd (2 * j + 1)%nat) 20).
    pose proof (Z.rem_bound_pos (rnd (2 * j)%nat) 20 (Hrnd _) ltac:(lia)).
    pose proof (Z.rem_bound_pos (rnd (2 * j + 1)%nat) 20 (Hrnd _) ltac:(lia)).
    split; [lia|]. split; [lia|]. split; [reflexivity|]. split; [reflexivity|].
    split; [discriminate|]. intros Hh. split; apply Hplain; lia.
Qed.

(** X14. [CreateLandingPad2D] turns the segments that lie within
    [startX, startX + width] into landing pads that are flat at
    [mHeight - 50] and leaves every other segment, the number of segments
    and all x-coordinates as they are; it never unmarks a pad, and calling
    it again with the same arguments changes nothing.  The sum and the
    difference are those of 32-bit [int]s: the sum is [startX + width] when
    that is an [int], and otherwise it wraps around, so that
    [CreateLandingPad2D(100, 2147483647)] does not mark a segment from
    pixel 100 to pixel 180. *)
Theorem CreateLandingPad2D_marks_the_segments_within (t : Terrain.t) (startX width : Z) :
  let t' := Terrain.CreateLandingPad2D t startX width in
  length (Terrain.mSegments2D t') = length (Terrain.mSegments2D t)
  /\ (forall (j : nat) s, Terrain.mSegments2D t !! j = Some s ->
        exists s',
          Terrain.mSegments2D t' !! j = Some s'
          /\ TerrainSegment.x1 s' = TerrainSegment.x1 s
          /\ TerrainSegment.x2 s' = TerrainSegment.x2 s
          /\ (TerrainSegment.isLandingPad s' = true <->
              TerrainSegment.isLandingPad s = true \/ lies_within startX width s = true)
          /\ (lies_within startX width s = true ->
              TerrainSegment.y1 s' = F32.of_int (Int32.sub (Terrain.mHeight t) 50)
              /\ TerrainSegment.y2 s' = F32.of_int (Int32.sub (Terrain.mHeight t) 50))
          /\ (lies_within startX width s = false -> s' = s))
  /\ Terrain.CreateLandingPad2D t' startX width = t'
  /\ (Int32.in_range (startX + width) ->
      forall s, lies_within startX width s
                = F32.geb (TerrainSegment.x1 s) (F32.of_int startX)
                  && F32.leb (TerrainSegment.x2 s) (F32.of_int (startX + width)))
  /\ (forall y1 y2 pad,
        lies_within 100 2147483647
          (TerrainSegment.mk (F32.of_int 100) y1 (F32.of_int 180) y2 pad) = false).
Proof.
  cbv zeta.
  assert (Hsum : Int32.in_range (startX + width) ->
            forall s, lies_within startX width s
                      = F32.geb (TerrainSegment.x1 s) (F32.of_int startX)
                        && F32.leb (TerrainSegment.x2 s) (F32.of_int (startX + width))).
  { intros Hr s. unfold lies_within, Int32.add. rewrite Int32_wrap_small by exact Hr.
    reflexivity. }
  assert (Hwrap : forall y1 y2 pad,
            lies_within 100 2147483647
              (TerrainSegment.mk (F32.of_int 100) y1 (F32.of_int 180) y2 pad) = false).
  { intros y1 y2 pad. vm_compute. reflexivity. }
  unfold Terrain.CreateLandingPad2D, lies_within.
  cbn [Terrain.mSegments2D Terrain.mHeight Terrain.base Terrain.mTriangles3D
       Terrain.mWidth Terrain.mLength Terrain.mPixelsPerMeter].
  split; [apply length_map|]. split; [|split; [|split; [exact Hsum|exact Hwrap]]].
  - intros j s Hj.
    change (map ?f ?l) with (f <$> l). rewrite list_lookup_fmap, Hj.
    cbn [fmap option_fmap option_map].
    destruct (F32.geb (TerrainSegment.x1 s) (F32.of_int startX)
              && F32.leb (TerrainSegment.x2 s) (F32.of_int (Int32.add startX width))) eqn:Hin;
      eexists; (split; [reflexivity|]).
    + cbn. repeat split; auto; discriminate.
    + repeat split; auto; try discriminate. intros [H|H]; [exact H|discriminate H].
  - f_equal. rewrite map_map. apply map_ext. intros s.
    destruct (F32.geb (TerrainSegment.x1 s) (F32.of_int startX)
              && F32.leb (TerrainSegment.x2 s) (F32.of_int (Int32.add startX width))) eqn:Hin.
    + cbn [Terrain.flatten TerrainSegment.x1 TerrainSegment.x2]. rewrite Hin. reflexivity.
    + rewrite Hin. reflexivity.
Qed.

(** ** The 3D terrain *)

(** A counting loop keeps what each of its iterations keeps. *)
Lemma for_up_invariant {S : Type} (P : Z -> S -> Prop) (n : Z)
    (cond : Z -> bool) (body : Z -> S -> S) :
  (forall i, 0 <= i < n -> cond i = true) ->
  (forall i s, 0 <= i < n -> P i s -> P (i + 1) (body i s)) ->
  forall s, 0 <= n -> P 0 s -> P n (for_up (Z.to_nat n) 0 cond body s).
Proof.
  intros Hcond Hbody.
  assert (H : forall (fuel : nat) i s, 0 <= i -> i + Z.of_nat fuel = n -> P i s ->
                P n (for_up fuel i cond body s)).
  { induction fuel as [|fuel IH]; intros i s Hi Hn HP; cbn [for_up].
    - replace n with i by lia. exact HP.
    - rewrite Hcond by lia. apply IH; [lia|lia|]. apply Hbody; [lia|exact HP]. }
  intros s Hn HP. apply H; [lia|lia|exact HP].
Qed.

Lemma for_up_append {A : Type} (f : Z -> list A) (n : Z) (cond : Z -> bool)
    (body : Z -> list A -> list A) (acc : list A) :
  0 <= n ->
  (forall i, 0 <= i < n -> cond i = true) ->
  (forall i tris, 0 <= i < n -> body i tris = tris ++ f i) ->
  for_up (Z.to_nat n) 0 cond body acc = acc ++ flat_map f (seqZ 0 n).
Proof.
  intros Hn Hcond Hbody.
  apply (for_up_invariant (fun i tris => tris = acc ++ flat_map f (seqZ 0 i)) n);
    [exact Hcond| |exact Hn|cbn; rewrite app_nil_r; reflexivity].
  intros i tris Hi ->. rewrite Hbody by exact Hi.
  rewrite seqZ_app, flat_map_app by lia.
  rewrite (seqZ_cons (0 + i) 1), (seqZ_nil _ (Z.pred 1)) by lia. cbn [flat_map].
  rewrite Z.add_0_l, app_nil_r, app_assoc. reflexivity.
Qed.

Lemma grid_index (x z : Z) :
  0 <= x <= 20 -> 0 <= z <= 20 ->
  (z * 21 + x) mod 21 = x /\ (z * 21 + x) / 21 = z /\ 0 <= z * 21 + x < 441.
Proof.
  intros Hx Hz. split; [|split; [|lia]].
  - rewrite Z.add_comm, Z.mod_add by lia. apply Z.mod_small. lia.
  - rewrite Z.add_comm, Z.div_add by lia. rewrite Z.div_small by lia. lia.
Qed.

Lemma in_centre_spec (x z : Z) :
  Terrain.in_centre x z = true <-> 7 <= x <= 12 /\ 7 <= z <= 12.
Proof.
  unfold Terrain.in_centre. change (Terrain.gridSize ÷ 3) with 6.
  change (2 * Terrain.gridSize ÷ 3) with 13.
  rewrite !andb_true_iff, !Z.gtb_lt, !Z.ltb_lt. lia.
Qed.

Lemma set_height_filled rnd height z x st :
  0 <= x <= 20 -> 0 <= z <= 20 ->
  filled_up_to rnd height (z * 21 + x) st ->
  filled_up_to rnd height (z * 21 + x + 1) (Terrain.set_height rnd height z x st).
Proof.
  intros Hx Hz (Hlen & Hk & Hlook).
  destruct (grid_index x z Hx Hz) as (Hmod & Hdiv & Hn).
  assert (HS : Z.to_nat (z * 21 + x + 1) = S (Z.to_nat (z * 21 + x))) by lia.
  unfold Terrain.set_height, filled_up_to. cbv zeta.
  change (Terrain.gridSize + 1) with 21.
  rewrite HS. cbn [rand_calls]. rewrite Z2Nat.id, Hmod, Hdiv by lia.
  split; [|split].
  - destruct (negb _); cbn [fst]; rewrite length_insert; exact Hlen.
  - rewrite Hk. destruct (Terrain.in_centre x z); cbn [negb snd]; lia.
  - intros i Hi. destruct (decide (i = Z.to_nat (z * 21 + x))) as [->|Hne].
    + rewrite Z2Nat.id, Hmod, Hdiv by lia. unfold vertex_height. rewrite Hk.
      destruct (Terrain.in_centre x z); cbn [negb fst];
        rewrite list_lookup_insert_eq by lia; reflexivity.
    + destruct (negb _); cbn [fst]; rewrite list_lookup_insert_ne by lia;
        apply Hlook; lia.
Qed.

(** The heightmap loops overwrite every entry: the result does not depend
    on what the heightmap held before. *)
Lemma fill_heights_closed (rnd : nat -> Z) (height : Z) (old : list F32.float) :
  Terrain.fill_heights rnd height old = (heightmap rnd height, rand_calls 441).
Proof.
  unfold Terrain.fill_heights.
  set (st0 := (resize _ F32.zero old, O)).
  assert (H0 : filled_up_to rnd height 0 st0).
  { split; [apply length_resize|]. split; [reflexivity|]. intros i Hi. cbn in Hi. lia. }
  assert (Hfinal : filled_up_to rnd height 441
            (for_up 21 0 (fun z => z <=? Terrain.gridSize)
               (fun z st => for_up 21 0 (fun x => x <=? Terrain.gridSize)
                              (Terrain.set_height rnd height z) st) st0)).
  { change 441 with (21 * 21).
    apply (for_up_invariant (fun z st => filled_up_to rnd height (z * 21) st) 21);
      [intros i Hi; apply Z.leb_le; unfold Terrain.gridSize; lia| |lia|exact H0].
    intros z st Hz Hst.
    replace ((z + 1) * 21) with (z * 21 + 21) by lia.
    apply (for_up_invariant (fun x st => filled_up_to rnd height (z * 21 + x) st) 21);
      [intros i Hi; apply Z.leb_le; unfold Terrain.gridSize; lia| |lia|].
    - intros x st' Hx Hst'. rewrite Z.add_assoc. apply set_height_filled; [lia|lia|exact Hst'].
    - rewrite Z.add_0_r. exact Hst. }
  destruct (for_up 21 0 _ _ st0) as [hd k]. destruct Hfinal as (Hlen & Hk & Hlook).
  cbn [fst snd] in *. f_equal; [|exact Hk].
  apply list_eq. intros i. unfold heightmap.
  destruct (decide (i < 441)%nat) as [Hi|Hi].
  - rewrite Hlook by lia. rewrite list_lookup_fmap, lookup_seq_lt by lia. reflexivity.
  - rewrite !lookup_ge_None_2; [reflexivity| |lia].
    rewrite length_map, length_seq. lia.
Qed.

Lemma make_triangles_closed heightData cellWidth cellLength :
  Terrain.make_triangles heightData cellWidth cellLength
  = grid_triangles heightData cellWidth cellLength.
Proof.
  unfold Terrain.make_triangles, grid_triangles.
  change 20%nat with (Z.to_nat 20).
  rewrite (for_up_append
             (fun z => flat_map (Terrain.cell_triangles heightData cellWidth cellLength z)
                                (seqZ 0 20)) 20); [reflexivity|lia| |].
  - intros i Hi. apply Z.ltb_lt. unfold Terrain.gridSize. lia.
  - intros z tris Hz.
    apply (for_up_append (Terrain.cell_triangles heightData cellWidth cellLength z) 20);
      [lia| |reflexivity].
    intros i Hi. apply Z.ltb_lt. unfold Terrain.gridSize. lia.
Qed.

Lemma elem_of_grid_triangles heightData cellWidth cellLength tri :
  tri ∈ grid_triangles heightData cellWidth cellLength
  <-> exists x z, 0 <= x < 20 /\ 0 <= z < 20
                  /\ tri ∈ Terrain.cell_triangles heightData cellWidth cellLength z x.
Proof.
  unfold grid_triangles. rewrite list_elem_of_In, in_flat_map. split.
  - intros (z & Hz & Hin). apply in_flat_map in Hin as (x & Hx & Hin).
    apply list_elem_of_In, elem_of_seqZ in Hz. apply list_elem_of_In, elem_of_seqZ in Hx.
    exists x, z. rewrite list_elem_of_In. repeat split; lia || exact Hin.
  - intros (x & z & Hx & Hz & Hin). exists z.
    split; [apply list_elem_of_In, elem_of_seqZ; lia|].
    apply in_flat_map. exists x. split; [apply list_elem_of_In, elem_of_seqZ; lia|].
    apply list_elem_of_In. exact Hin.
Qed.

Lemma map_flat_map {A B C : Type} (g : B -> C) (f : A -> list B) (l : list A) :
  map g (flat_map f l) = flat_map (fun a => map g (f a)) l.
Proof.
  induction l as [|a l IH]; [reflexivity|]. cbn [flat_map]. rewrite map_app, IH. reflexivity.
Qed.

Lemma pad_count (tris : list TerrainTriangle.t) :
  length (filter (fun tri => TerrainTriangle.isLandingPad tri = true) tris)
  = length (filter (fun b => b = true) (map TerrainTriangle.isLandingPad tris)).
Proof.
  induction tris as [|tri tris IH]; [reflexivity|].
  cbn [map]. rewrite !filter_cons.
  destruct (decide (TerrainTriangle.isLandingPad tri = true)) as [H|H];
    cbn [length]; rewrite IH; reflexivity.
Qed.

Lemma rand_calls_441 : rand_calls 441 = 405%nat.
Proof. vm_compute. reflexivity. Qed.

Lemma rand_calls_mono (n m : nat) : (n <= m)%nat -> (rand_calls n <= rand_calls m)%nat.
Proof.
  induction 1 as [|m Hle IH]; [reflexivity|]. cbn [rand_calls]. lia.
Qed.

Lemma heightmap_nth (rnd : nat -> Z) (height x z : Z) :
  0 <= x <= 20 -> 0 <= z <= 20 ->
  nth (Z.to_nat (z * 21 + x)) (heightmap rnd height) F32.zero
  = vertex_height rnd height x z.
Proof.
  intros Hx Hz. destruct (grid_index x z Hx Hz) as (Hmod & Hdiv & Hn).
  unfold heightmap.
  rewrite (nth_indep _ F32.zero
             (vertex_height rnd height (Z.of_nat 0 mod 21) (Z.of_nat 0 / 21)))
    by (rewrite length_map, length_seq; lia).
  rewrite (map_nth (fun n => vertex_height rnd height (Z.of_nat n mod 21) (Z.of_nat n / 21))).
  rewrite seq_nth by lia. cbn [Nat.add]. rewrite Z2Nat.id, Hmod, Hdiv by lia. reflexivity.
Qed.

Lemma vertex_height_outside (rnd : nat -> Z) (height x z : Z) :
  0 <= x <= 20 -> 0 <= z <= 20 -> ~ (7 <= x <= 12 /\ 7 <= z <= 12) ->
  exists k, (k < 405)%nat
    /\ vertex_height rnd height x z
       = F32.add (F32.of_int (Int32.sub height 50)) (F32.of_int (Z.rem (rnd k) 20 - 10)).
Proof.
  intros Hx Hz Hc. destruct (grid_index x z Hx Hz) as (Hmod & Hdiv & Hn).
  unfold vertex_height.
  destruct (Terrain.in_centre x z) eqn:Hin; [apply in_centre_spec in Hin; contradiction|].
  exists (rand_calls (Z.to_nat (z * 21 + x))). split; [|reflexivity].
  pose proof (rand_calls_mono (S (Z.to_nat (z * 21 + x))) 441 ltac:(lia)) as Hle.
  rewrite rand_calls_441 in Hle. cbn [rand_calls] in Hle.
  rewrite Z2Nat.id, Hmod, Hdiv, Hin in Hle by lia. lia.
Qed.

(** X15. [Generate3D] makes 800 triangles, two for each cell
    ([x], [z]) of a 20 x 20 grid, all with the normal (0, 1, 0); the 72
    triangles of the 36 cells with 7 <= x, z <= 12 are the landing pad and
    no other.  It makes 405 calls of [rand()], leaves a heightmap of 441
    entries that does not depend on the one it found, records the three
    dimensions and leaves the 2D segments alone. *)
Theorem Generate3D_builds_800_triangles_with_a_central_pad
    (rnd : nat -> Z) (t : Terrain.t) (old : list F32.float) (width length height : Z) :
  let r := Terrain.Generate3D rnd t old width length height in
  let t' := fst (fst r) in
  let heightData := snd (fst r) in
  let cellWidth := F32.div (F32.of_int width) (F32.of_int 20) in
  let cellLength := F32.div (F32.of_int length) (F32.of_int 20) in
  Datatypes.length (Terrain.mTriangles3D t') = 800%nat
  /\ Datatypes.length (filter (fun tri => TerrainTriangle.isLandingPad tri = true)
                              (Terrain.mTriangles3D t')) = 72%nat
  /\ (forall tri, tri ∈ Terrain.mTriangles3D t' <->
        exists x z, 0 <= x < 20 /\ 0 <= z < 20
                    /\ tri ∈ Terrain.cell_triangles heightData cellWidth cellLength z x)
  /\ (forall x z tri,
        tri ∈ Terrain.cell_triangles heightData cellWidth cellLength z x ->
        (TerrainTriangle.isLandingPad tri = true <-> 7 <= x <= 12 /\ 7 <= z <= 12)
        /\ TerrainTriangle.normal tri = mkFloat3 F32.zero (F32.of_int 1) F32.zero)
  /\ snd r = 405%nat
  /\ Datatypes.length heightData = 441%nat
  /\ heightData = snd (fst (Terrain.Generate3D rnd t [] width length height))
  /\ Terrain.mSegments2D t' = Terrain.mSegments2D t
  /\ (Terrain.mWidth t', Terrain.mLength t', Terrain.mHeight t') = (width, length, height).
Proof.
  cbv zeta. unfold Terrain.Generate3D. cbv zeta.
  rewrite !fill_heights_closed, make_triangles_closed.
  cbn [fst snd Terrain.mTriangles3D Terrain.mSegments2D Terrain.mWidth Terrain.mLength
       Terrain.mHeight].
  change (F32.of_int Terrain.gridSize) with (F32.of_int 20).
  set (cw := F32.div (F32.of_int width) (F32.of_int 20)).
  set (cl := F32.div (F32.of_int length) (F32.of_int 20)).
  set (hd := heightmap rnd height).
  split; [|split; [|split; [|split; [|split; [|split; [|split; [|split]]]]]]].
  - unfold grid_triangles.
    rewrite (flat_map_constant_length (c := 40)), length_seqZ; [reflexivity|].
    intros z _. rewrite (flat_map_constant_length (c := 2)), length_seqZ; [reflexivity|].
    intros x _. reflexivity.
  - rewrite pad_count. unfold grid_triangles. rewrite map_flat_map.
    rewrite (flat_map_ext _ (fun z => flat_map (fun x => [Terrain.in_centre x z;
                                                         Terrain.in_centre x z])
                                               (seqZ 0 20))).
    + vm_compute. reflexivity.
    + intros z. rewrite map_flat_map. reflexivity.
  - intros tri. apply elem_of_grid_triangles.
  - intros x z tri Hin. unfold Terrain.cell_triangles in Hin. cbv zeta in Hin.
    apply elem_of_cons in Hin as [->|Hin];
      [|apply elem_of_cons in Hin as [->|Hin]; [|inversion Hin]];
      cbn [TerrainTriangle.isLandingPad TerrainTriangle.normal];
      (split; [apply in_centre_spec|reflexivity]).
  - apply rand_calls_441.
  - unfold hd, heightmap. rewrite length_map, length_seq. reflexivity.
  - reflexivity.
  - reflexivity.
  - reflexivity.
Qed.

(** X16. The heights [Generate3D] gives to the 21 x 21 vertices: the
    vertex ([x], [z]) with 7 <= x, z <= 12 gets exactly [height - 50], and
    every other vertex gets [height - 50] plus [rand() % 20 - 10] for one of
    the 405 calls, which is between -10 and 9 for a [rand()] that is not
    negative.  The difference [height - 50] is that of 32-bit [int]s: it
    wraps around for a height within 50 of the smallest [int]. *)
Theorem Generate3D_heights
    (rnd : nat -> Z) (t : Terrain.t) (old : list F32.float) (width length height : Z)
    (x z : Z) :
  0 <= x <= 20 -> 0 <= z <= 20 ->
  let heightData := snd (fst (Terrain.Generate3D rnd t old width length height)) in
  let h := nth (Z.to_nat (z * 21 + x)) heightData F32.zero in
  (7 <= x <= 12 /\ 7 <= z <= 12 -> h = F32.of_int (Int32.sub height 50))
  /\ (~ (7 <= x <= 12 /\ 7 <= z <= 12) ->
      exists k, (k < 405)%nat
        /\ h = F32.add (F32.of_int (Int32.sub height 50))
                       (F32.of_int (Z.rem (rnd k) 20 - 10))
        /\ (0 <= rnd k -> -10 <= Z.rem (rnd k) 20 - 10 <= 9))
  /\ (Int32.min_signed + 50 <= height <= Int32.max_signed ->
      Int32.sub height 50 = height - 50).
Proof.
  intros Hx Hz. cbv zeta. unfold Terrain.Generate3D. cbv zeta.
  rewrite fill_heights_closed. cbn [fst snd].
  rewrite heightmap_nth by assumption. split; [|split].
  3: { intros Hh. apply Int32_wrap_small.
       unfold Int32.in_range, Int32.min_signed, Int32.max_signed in *. lia. }
  - intros Hc. unfold vertex_height. apply in_centre_spec in Hc. rewrite Hc. reflexivity.
  - intros Hc. destruct (vertex_height_outside rnd height x z Hx Hz Hc) as (k & Hk & Hh).
    exists k. split; [exact Hk|]. split; [exact Hh|].
    intros Hr. pose proof (Z.rem_bound_pos (rnd k) 20 Hr). lia.
Qed.

(** X17. The landing pad of [Generate3D] is flat in its interior only.
    Every triangle of a cell ([x], [z]) with 7 <= x, z <= 12 is flagged as
    landing pad; when x <= 11 and z <= 11 its three vertices are at
    [height - 50], the difference of 32-bit [int]s, but in the last column
    of the pad (x = 12) the vertex on the cell's far side (x = 13) carries a
    random offset [rand() % 20 - 10]. *)
Theorem Generate3D_pad_is_flat_in_its_interior_only
    (rnd : nat -> Z) (t : Terrain.t) (old : list F32.float) (width length height : Z)
    (x z : Z) (tri : TerrainTriangle.t) :
  let r := Terrain.Generate3D rnd t old width length height in
  let heightData := snd (fst r) in
  let cellWidth := F32.div (F32.of_int width) (F32.of_int 20) in
  let cellLength := F32.div (F32.of_int length) (F32.of_int 20) in
  let y := TerrainTriangle.vertices tri in
  7 <= x <= 12 -> 7 <= z <= 12 ->
  tri ∈ Terrain.cell_triangles heightData cellWidth cellLength z x ->
  TerrainTriangle.isLandingPad tri = true
  /\ (x <= 11 -> z <= 11 ->
      TerrainTriangle.v1 y = F32.of_int (Int32.sub height 50)
      /\ TerrainTriangle.v4 y = F32.of_int (Int32.sub height 50)
      /\ TerrainTriangle.v7 y = F32.of_int (Int32.sub height 50))
  /\ (x = 12 ->
      exists k, (k < 405)%nat
        /\ TerrainTriangle.v4 y
           = F32.add (F32.of_int (Int32.sub height 50)) (F32.of_int (Z.rem (rnd k) 20 - 10))).
Proof.
  cbv zeta. unfold Terrain.Generate3D. cbv zeta.
  rewrite fill_heights_closed. cbn [fst snd].
  intros Hx Hz Hin. unfold Terrain.cell_triangles in Hin. cbv zeta in Hin.
  change (Terrain.gridSize + 1) with 21 in Hin.
  replace (z * 21 + x + 1) with (z * 21 + (x + 1)) in Hin by lia.
  replace ((z + 1) * 21 + x + 1) with ((z + 1) * 21 + (x + 1)) in Hin by lia.
  rewrite !heightmap_nth in Hin by lia.
  assert (Hflat : forall x' z', 7 <= x' <= 12 -> 7 <= z' <= 12 ->
            vertex_height rnd height x' z' = F32.of_int (Int32.sub height 50)).
  { intros x' z' Hx' Hz'. unfold vertex_height.
    rewrite (proj2 (in_centre_spec x' z')) by lia. reflexivity. }
  assert (Hpad : Terrain.in_centre x z = true) by (apply in_centre_spec; lia).
  apply elem_of_cons in Hin as [->|Hin];
    [|apply elem_of_cons in Hin as [->|Hin]; [|inversion Hin]];
    cbn [TerrainTriangle.isLandingPad TerrainTriangle.vertices TerrainTriangle.v1
         TerrainTriangle.v4 TerrainTriangle.v7];
    (split; [exact Hpad|]);
    (split; [intros Hx' Hz'; rewrite !Hflat by lia; auto|]);
    intros ->; apply vertex_height_outside; lia.
Qed.

(** ** The game *)

Ltac game_cbn :=
  cbn [Game.mPhysics Game.set_mGameState Game.set_mScore Game.set_mElapsedTime
       Game.set_mFuelUsed Game.set_mPhysics Game.set_mDifficulty Game.set_mIsRunning
       Game.set_m3DMode
       Game.set_terrain Game.mGameState Game.mDifficulty Game.m3DMode
       Game.mScore Game.mElapsedTime Game.mFuelUsed Game.mWindowWidth Game.mWindowHeight
       Game.mPixelsPerMeter Game.mIsRunning Game.mHeightData Game.randCalls
       Game.mRegistered Game.mInputHandler Game.handlersMade
       Physics.mTerrain Physics.mLander Physics.m3DMode Physics.set_mLander
       Physics.mGravity Physics.mAirDensity Physics.mTimeScale Physics.mPixelsPerMeter
       Physics.mLanderRigidBody Physics.SetGravity option_map Game.of_option Game.bind].

Ltac split_ands := repeat match goal with |- _ /\ _ => split end.

Lemma game_frame_refl g : game_frame g g.
Proof. unfold game_frame. split_ands; auto. Qed.

Lemma game_frame_trans g1 g2 g3 : game_frame g1 g2 -> game_frame g2 g3 -> game_frame g1 g3.
Proof.
  intros (Hm & Hu & Hs & Hr & Hi & Hn) (Hm' & Hu' & Hs' & Hr' & Hi' & Hn').
  split; [congruence|]. split; [|split; [|split_ands; congruence]].
  - destruct Hu' as [Hu'|Hu']; [rewrite Hu'; exact Hu|right; exact Hu'].
  - intros H3. rewrite Hs' by congruence. apply Hs. exact H3.
Qed.

Lemma to_int_window :
  F32.to_int (F32.div (F32.of_int 800) (F32.of_int 20)) = Some 40
  /\ F32.to_int (F32.div (F32.of_int 600) (F32.of_int 20)) = Some 30.
Proof. split; vm_compute; reflexivity. Qed.

(** The lander [Game::Reset] leaves in the window of the constructor:
    at rest at (20 m, 20 m), with a full tank. *)
Lemma reset_lander_state (g : Game.t) (l : Lander.t) :
  Game.mWindowWidth g = 800 -> Game.mPixelsPerMeter g = F32.of_int 20 ->
  Entity.mPosition (Lander.base (Game.reset_lander g l))
  = mkFloat3 (F32.of_int 20) (F32.of_int 20)
             (if Game.m3DMode g then F32.of_int 20 else F32.zero)
  /\ at2 (Lander.GetRotation (Game.reset_lander g l)) = F32.of_int 0
  /\ Lander.mVelocity (Game.reset_lander g l) = mkFloat3 F32.zero F32.zero F32.zero
  /\ Lander.mThrustLevel (Game.reset_lander g l) = F32.zero
  /\ Lander.mThrustActive (Game.reset_lander g l) = false
  /\ Lander.mFuel (Game.reset_lander g l) = Lander.mMaxFuel l
  /\ Lander.mLanded (Game.reset_lander g l) = false
  /\ Lander.mCrashed (Game.reset_lander g l) = false.
Proof.
  intros Hw Hppm.
  destruct g as [state diff mode score time used w h ppm run phys hd calls reg ih made].
  destruct l as [[pos rot sc act] lw lh ld m v a tl ta mt f mf r la cr].
  cbn [Game.mWindowWidth Game.mPixelsPerMeter] in Hw, Hppm. subst w ppm.
  destruct mode; split_ands; lazy; reflexivity.
Qed.

Lemma moved_heading l l' : moved l l' -> whole_heading l -> whole_heading l'.
Proof. intros (-> & _) H. exact H. Qed.

Section GameProperties.
Variable sinf cosf : F32.float -> F32.float.
Variable stepBullet : Physics.t -> F32.float -> Physics.t.
Variable InitializeBulletPhysics : Physics.t -> Physics.t.
Variable CreateLanderRigidBody : Physics.t -> Physics.t.
Variable CreateTerrainRigidBodies : Physics.t -> Physics.t.
Variable rand : nat -> Z.

Local Abbreviation GameUpdate_ := (Game.Update sinf cosf stepBullet).
Local Abbreviation Initialize_ :=
  (Game.Initialize InitializeBulletPhysics CreateLanderRigidBody CreateTerrainRigidBodies
     rand).
Local Abbreviation SetRenderingMode_ :=
  (Game.SetRenderingMode InitializeBulletPhysics CreateLanderRigidBody
     CreateTerrainRigidBodies rand).
Local Abbreviation OnKeyDown_ :=
  (Game.OnKeyDown InitializeBulletPhysics CreateLanderRigidBody CreateTerrainRigidBodies
     rand).
Local Abbreviation pump :=
  (Game.InputHandler_ProcessInput InitializeBulletPhysics CreateLanderRigidBody
     CreateTerrainRigidBodies rand).
Local Abbreviation ProcessInput_ :=
  (Game.ProcessInput InitializeBulletPhysics CreateLanderRigidBody
     CreateTerrainRigidBodies rand).
Local Abbreviation op_run :=
  (game_op_run sinf cosf stepBullet InitializeBulletPhysics CreateLanderRigidBody
     CreateTerrainRigidBodies rand).
Local Abbreviation run :=
  (game_run sinf cosf stepBullet InitializeBulletPhysics CreateLanderRigidBody
     CreateTerrainRigidBodies rand).
Local Abbreviation start :=
  (game_start InitializeBulletPhysics CreateLanderRigidBody CreateTerrainRigidBodies rand).

(** [Update2D] changes nothing of the engine but the registered lander. *)
Lemma Physics_Update2D_frame (p : Physics.t) (dt : F32.float) :
  Physics.Update2D sinf cosf p dt
  = Physics.set_mLander p (Physics.mLander (Physics.Update2D sinf cosf p dt)).
Proof.
  assert (Hcc : forall q, snd (Physics.CheckCollisions2D q)
                          = Physics.set_mLander q
                              (Physics.mLander (snd (Physics.CheckCollisions2D q)))).
  { intros q. unfold Physics.CheckCollisions2D.
    destruct (Physics.mLander q) as [l|] eqn:Hl; [|destruct q; cbn in *; subst; reflexivity].
    destruct (Physics.mTerrain q) as [terrain|]; [|destruct q; cbn in *; subst; reflexivity].
    destruct (_ || _); [destruct q; cbn in *; subst; reflexivity|].
    destruct (Terrain.CheckCollision2D _ _ _) as [[|] h];
      [|destruct q; cbn in *; subst; reflexivity].
    destruct (Terrain.IsValidLanding2D _ _); reflexivity. }
  unfold Physics.Update2D.
  destruct (Physics.mLander p) as [l|] eqn:Hl; [|destruct p; cbn in *; subst; reflexivity].
  destruct (Physics.mTerrain p) as [terrain|]; [|destruct p; cbn in *; subst; reflexivity].
  destruct (_ && _); rewrite Hcc at 1; reflexivity.
Qed.

Lemma Physics_Update_ready (p : Physics.t) (l : Lander.t) (dt : F32.float) :
  Physics.m3DMode p = false -> Physics.mLander p = Some l ->
  exists l', Physics.Update sinf cosf stepBullet p dt = Physics.set_mLander p (Some l')
             /\ moved l l'.
Proof.
  intros Hmode Hl. unfold Physics.Update. rewrite Hmode.
  destruct (Update2D_moved sinf cosf p l (F32.mul dt (Physics.mTimeScale p)) Hl)
    as (l' & Hl' & Hm).
  exists l'. split; [|exact Hm]. rewrite Physics_Update2D_frame, Hl'. reflexivity.
Qed.

(** Without segments there is nothing to collide with: the step is the
    integration alone. *)
Lemma Physics_Update_in_the_void (p : Physics.t) (l : Lander.t) (terrain : Terrain.t)
    (dt : F32.float) :
  Physics.m3DMode p = false -> Physics.mLander p = Some l ->
  Physics.mTerrain p = Some terrain -> Terrain.mSegments2D terrain = [] ->
  Lander.mLanded l = false -> Lander.mCrashed l = false ->
  Physics.Update sinf cosf stepBullet p dt
  = Physics.set_mLander p
      (Some (Physics.integrate2D sinf cosf p l
               (F32.mul (F32.mul dt (Physics.mTimeScale p)) (Physics.mTimeScale p)))).
Proof.
  intros Hmode Hl Ht Hsegs Hla Hcr. unfold Physics.Update. rewrite Hmode.
  rewrite (Update2D_flying sinf cosf p l terrain) by assumption.
  erewrite CheckCollisions2D_miss; [reflexivity|reflexivity|exact Ht|].
  unfold Terrain.CheckCollision2D. rewrite Hsegs. reflexivity.
Qed.

Lemma Game_Update_ready (g : Game.t) (dt : F32.float) :
  game_live g -> game_ready (GameUpdate_ g dt) /\ game_frame g (GameUpdate_ g dt).
Proof.
  intros ((Hw & Hh & Hppm & p & l & terrain & Hp & Hmode & Hl & Ht & Hhead & Hstate) & Hreg).
  destruct g as [state diff mode score time used w h ppm run phys hd calls reg ih made].
  cbn [Game.mWindowWidth Game.mWindowHeight Game.mPixelsPerMeter Game.mPhysics
       Game.mGameState Game.mRegistered] in *. subst w h ppm phys reg.
  assert (Hsame : game_ready (Game.mk state diff mode score time used 800 600
                                (F32.of_int 20) run (Some p) hd calls true ih made)).
  { do 3 (split; [reflexivity|]). exists p, l, terrain. auto 10. }
  destruct state; try (split; [exact Hsame|apply game_frame_refl]).
  destruct (Physics_Update_ready p l dt Hmode Hl) as (l1 & Hup & Hm).
  unfold Game.Update, Game.engine_view, Game.engine_result.
  cbn [Game.mGameState Game.mPhysics Game.mRegistered]. rewrite Hup.
  cbn [Physics.mLander Physics.set_mLander].
  destruct (Lander_Update_shape l1 dt) as (f & tl & ta & Hl2).
  set (l2 := Lander.Update l1 dt) in *.
  assert (Hhead2 : whole_heading l2).
  { apply (moved_heading l l1 Hm) in Hhead. destruct Hhead as (d & Hd & Hrot).
    exists d. split; [exact Hd|]. rewrite Hl2. exact Hrot. }
  assert (Hframe : forall st sc tm,
            game_frame (Game.mk Game.FLYING diff mode score time used 800 600
                          (F32.of_int 20) run (Some p) hd calls true ih made)
                       (Game.mk st diff mode sc tm used 800 600 (F32.of_int 20) run
                          (Some (Physics.set_mLander p (Some l2))) hd calls true ih made)).
  { intros st sc tm. unfold game_frame, game_segments. game_cbn. split_ands; auto. }
  unfold Lander.IsLanded, Lander.IsCrashed.
  destruct (Lander.mLanded l2) eqn:Hla; [|destruct (Lander.mCrashed l2) eqn:Hcr];
    (split; [|apply Hframe]);
    do 3 (split; [reflexivity|]); eexists _, l2, terrain; game_cbn;
    unfold state_agrees; split_ands; auto.
Qed.

Lemma Game_regenerate_ready (g : Game.t) :
  game_ready g ->
  exists g', Game.regenerate rand g = Game.Ok g' /\ game_ready g' /\ game_frame g g'
             /\ regenerated g g'.
Proof.
  intros (Hw & Hh & Hppm & p & l & terrain & Hp & Hmode & Hl & Ht & Hhead & Hstate).
  destruct g as [state diff mode score time used w h ppm run phys hd calls reg ih made].
  cbn [Game.mWindowWidth Game.mWindowHeight Game.mPixelsPerMeter Game.mPhysics
       Game.mGameState] in *. subst w h ppm phys.
  unfold Game.regenerate. game_cbn. rewrite Ht.
  destruct mode.
  - destruct to_int_window as [-> ->]. game_cbn.
    destruct (Terrain.Generate3D _ terrain hd 40 40 30) as [[terrain' hd'] calls'] eqn:Hgen.
    assert (Hsegs : Terrain.mSegments2D terrain' = Terrain.mSegments2D terrain).
    { change terrain' with (fst (fst (terrain', hd', calls'))). rewrite <- Hgen.
      reflexivity. }
    eexists. split; [reflexivity|].
    split; [|split].
    + do 3 (split; [reflexivity|]). eexists _, l, terrain'.
      game_cbn. split_ands; auto.
    + unfold game_frame, game_segments. game_cbn. rewrite Ht.
      split_ands; try reflexivity; [left; reflexivity|]. intros _. exact Hsegs.
    + unfold regenerated. game_cbn. do 4 (split; [reflexivity|]).
      eexists _, _. split_ands; reflexivity.
  - destruct (Generate2D_lookup (fun k => rand (calls + k)%nat) terrain 800 600)
      as (terrain' & a & b & Hgen & _); [discriminate|].
    rewrite Hgen. game_cbn.
    eexists. split; [reflexivity|].
    split; [|split].
    + do 3 (split; [reflexivity|]). eexists _, l, terrain'.
      game_cbn. split_ands; auto.
    + unfold game_frame, game_segments. game_cbn.
      split_ands; try reflexivity; [left; reflexivity|discriminate].
    + unfold regenerated. game_cbn. do 4 (split; [reflexivity|]).
      eexists _, _. split_ands; reflexivity.
Qed.

Lemma Game_Reset_ready (g : Game.t) :
  game_ready g ->
  exists g', Game.Reset rand g = Game.Ok g' /\ game_ready g' /\ game_frame g g'
             /\ restarted g g'.
Proof.
  intros (Hw & Hh & Hppm & p & l & terrain & Hp & Hmode & Hl & Ht & Hhead & Hstate).
  destruct g as [state diff mode score time used w h ppm run phys hd calls reg ih made].
  cbn [Game.mWindowWidth Game.mWindowHeight Game.mPixelsPerMeter Game.mPhysics
       Game.mGameState] in *. subst w h ppm phys.
  unfold Game.Reset. cbv zeta. unfold Game.on_lander. game_cbn. rewrite Hl. game_cbn.
  set (g0 := Game.mk state diff mode score time used 800 600
               (F32.of_int 20) run (Some p) hd calls reg ih made).
  match goal with |- context [Game.reset_lander ?gx l] =>
    change (Game.reset_lander gx l) with (Game.reset_lander g0 l)
  end.
  destruct (reset_lander_state g0 l eq_refl eq_refl)
    as (_ & Hrot & _ & _ & _ & _ & Hla & Hcr).
  set (l' := Game.reset_lander g0 l) in *.
  match goal with |- context [Game.regenerate rand ?gl] =>
    destruct (Game_regenerate_ready gl) as (g' & Hgen & Hready & Hframe & Hregen)
  end.
  { do 3 (split; [reflexivity|]). eexists _, l', terrain. game_cbn.
    unfold state_agrees. split_ands; auto. exists 0. split; [lia|exact Hrot]. }
  exists g'. split; [exact Hgen|]. split; [exact Hready|].
  destruct Hframe as (Hf1 & Hf2 & Hf3 & Hf4 & Hf5 & Hf6).
  destruct Hregen as (Hr1 & Hr2 & Hr3 & Hr4 & p1 & p' & Hp1 & Hp' & Hgrav & Hlander).
  revert Hf1 Hf2 Hf3 Hf4 Hf5 Hf6 Hr1 Hr2 Hr3 Hr4 Hp1. unfold game_segments. game_cbn.
  rewrite Ht.
  intros Hf1 Hf2 Hf3 Hf4 Hf5 Hf6 Hr1 Hr2 Hr3 Hr4 [= <-].
  subst l' g0. split.
  - unfold game_frame, game_segments. game_cbn. rewrite Ht.
    split; [exact Hf1|]. split; [right; exact Hr4|]. split; [exact Hf3|].
    split; [exact Hf4|]. split; [exact Hf5|exact Hf6].
  - unfold restarted. game_cbn. do 4 (split; [assumption|]).
    exists p, p', l. split_ands; auto.
Qed.

Lemma Game_SetDifficulty_ready (g : Game.t) (difficulty : Game.Difficulty) :
  game_ready g ->
  exists g', Game.SetDifficulty rand g difficulty = Game.Ok g' /\ game_ready g'
             /\ game_frame g g'
             /\ Game.mGameState g' = Game.FLYING
             /\ Game.mScore g' = F32.zero /\ Game.mElapsedTime g' = F32.zero
             /\ Game.mFuelUsed g' = F32.zero
             /\ exists p' l,
                  Game.mPhysics g' = Some p'
                  /\ Physics.mGravity p' = gravity_of difficulty
                  /\ Game.GetLander g = Some l
                  /\ Physics.mLander p' = Some (Game.reset_lander g l).
Proof.
  intros (Hw & Hh & Hppm & p & l & terrain & Hp & Hmode & Hl & Ht & Hhead & Hstate).
  destruct g as [state diff mode score time used w h ppm run phys hd calls reg ih made].
  cbn [Game.mWindowWidth Game.mWindowHeight Game.mPixelsPerMeter Game.mPhysics
       Game.mGameState] in *. subst w h ppm phys.
  unfold Game.SetDifficulty. cbv zeta. game_cbn.
  match goal with |- context [Game.Reset rand ?g0] =>
    destruct (Game_Reset_ready g0) as (g' & Hreset & Hready & Hframe & Hrest) end.
  { do 3 (split; [reflexivity|]). eexists _, l, terrain.
    game_cbn. split_ands; auto. }
  exists g'. split; [exact Hreset|]. split; [exact Hready|].
  destruct Hframe as (H1 & H2 & H3 & H4 & H5 & H6).
  destruct Hrest as (Hfly & Hscore & Htime & Hused & p0 & p' & l0 & Hp0 & Hp' & Hgrav
                     & Hl0 & Hl').
  revert Hp0. game_cbn. intros [= <-].
  revert H1 H2 H3 H4 H5 H6 Hl0 Hl' Hgrav. unfold game_segments, Game.GetLander. game_cbn.
  rewrite Ht, Hl. intros H1 H2 H3 H4 H5 H6 [= <-] Hl' Hgrav.
  split; [unfold game_frame, game_segments; game_cbn; rewrite Ht; split_ands; auto|].
  do 4 (split; [assumption|]).
  exists p', l. split; [exact Hp'|]. split; [|split; [reflexivity|exact Hl']].
  rewrite Hgrav. destruct difficulty; reflexivity.
Qed.

Lemma set_mIsRunning_ready (g : Game.t) (running : bool) :
  game_ready g ->
  game_ready (Game.set_mIsRunning g running)
  /\ game_frame g (Game.set_mIsRunning g running)
  /\ Game.mGameState (Game.set_mIsRunning g running) = Game.mGameState g.
Proof.
  intros Hready. destruct g. split; [exact Hready|].
  split; [unfold game_frame; split_ands; auto|reflexivity].
Qed.

(** A key other than TAB: [OnKeyDown] returns, and the game is ready as
    before. *)
Lemma OnKeyDown_ready (rendererOk : bool) (g : Game.t) (sym : Game.keycode) :
  game_ready g -> sym <> Game.SDLK_TAB ->
  exists g', OnKeyDown_ rendererOk g sym = Game.Ok g' /\ game_ready g' /\ game_frame g g'
             /\ (Game.mGameState g = Game.FLYING -> Game.mGameState g' = Game.FLYING).
Proof.
  intros Hready Hsym. destruct sym; cbn [Game.OnKeyDown]; try contradiction.
  - destruct (Game_Reset_ready g Hready) as (g' & H1 & H2 & H3 & (Hfly & _)). eauto 6.
  - destruct (set_mIsRunning_ready g false Hready) as (H1 & H2 & H3).
    eexists. split; [reflexivity|]. split; [exact H1|]. split; [exact H2|]. congruence.
  - destruct (Game_SetDifficulty_ready g Game.EASY Hready) as (g' & H1 & H2 & H3 & Hfly & _).
    eauto 6.
  - destruct (Game_SetDifficulty_ready g Game.NORMAL Hready) as (g' & H1 & H2 & H3 & Hfly & _).
    eauto 6.
  - destruct (Game_SetDifficulty_ready g Game.HARD Hready) as (g' & H1 & H2 & H3 & Hfly & _).
    eauto 6.
  - exists g. split; [reflexivity|]. split; [exact Hready|]. split; [apply game_frame_refl|auto].
Qed.

(** The events of a frame without a TAB key: the input handler returns,
    and it is still the game's handler. *)
Lemma events_ready (rendererOk : bool) (this : nat) (events : list Game.event) :
  forall g,
    game_ready g -> Game.mInputHandler g = Some this ->
    no_mode_switch_in events = true ->
    exists g', pump rendererOk this g events = Game.Ok g' /\ game_ready g'
               /\ game_frame g g'
               /\ (Game.mGameState g = Game.FLYING -> Game.mGameState g' = Game.FLYING).
Proof.
  induction events as [|e events IH]; intros g Hready Hthis Hev.
  - exists g. split; [reflexivity|]. split; [exact Hready|]. split; [apply game_frame_refl|auto].
  - unfold no_mode_switch_in in Hev. cbn [forallb] in Hev.
    apply andb_true_iff in Hev as [He Hev].
    assert (Hnext : forall g1,
              game_ready g1 -> game_frame g g1 ->
              (Game.mGameState g = Game.FLYING -> Game.mGameState g1 = Game.FLYING) ->
              exists g', pump rendererOk this g1 events = Game.Ok g' /\ game_ready g'
                         /\ game_frame g g'
                         /\ (Game.mGameState g = Game.FLYING ->
                             Game.mGameState g' = Game.FLYING)).
    { intros g1 Hr1 Hf1 Hk1.
      destruct (IH g1 Hr1) as (g' & Hrun & Hr' & Hf' & Hk'); [|exact Hev|].
      - destruct Hf1 as (_ & _ & _ & _ & Hi & _). congruence.
      - exists g'. split; [exact Hrun|]. split; [exact Hr'|].
        split; [eapply game_frame_trans; eassumption|auto]. }
    assert (Hkey : forall sym, sym <> Game.SDLK_TAB ->
              exists g', Game.bind (OnKeyDown_ rendererOk g sym)
                           (fun g1 => pump rendererOk this g1 events) = Game.Ok g'
                         /\ game_ready g' /\ game_frame g g'
                         /\ (Game.mGameState g = Game.FLYING ->
                             Game.mGameState g' = Game.FLYING)).
    { intros sym Hsym.
      destruct (OnKeyDown_ready rendererOk g sym Hready Hsym) as (g1 & -> & Hr1 & Hf1 & Hk1).
      cbn [Game.bind]. apply Hnext; assumption. }
    destruct e as [|sym|sym|]; cbn [Game.InputHandler_ProcessInput];
      rewrite ?Hthis, ?Nat.eqb_refl.
    + apply Hkey. discriminate.
    + apply Hkey. intros ->. discriminate He.
    + cbn [Game.bind]. apply Hnext; [exact Hready|apply game_frame_refl|auto].
    + apply Hnext; [exact Hready|apply game_frame_refl|auto].
Qed.

(** The controls of a flying lander: the throttle, then the two
    rotations. *)
Lemma controls_ready (l : Lander.t) (k : Game.keys) (extra : nat) :
  whole_heading l ->
  exists l3,
    Game.bind (if Game.rotateLeft k
               then Game.of_option Game.LoopRunning
                      (Lander.RotateLeft (2 + extra)
                         (Lander.ApplyThrust l
                            (if Game.thrust k then F32.of_int 1 else F32.zero))
                         (F32.of_int 2))
               else Game.Ok (Lander.ApplyThrust l
                               (if Game.thrust k then F32.of_int 1 else F32.zero)))
      (fun l2 => if Game.rotateRight k
                 then Game.of_option Game.LoopRunning
                        (Lander.RotateRight (2 + extra) l2 (F32.of_int 2))
                 else Game.Ok l2)
    = Game.Ok l3
    /\ whole_heading l3
    /\ Lander.mLanded l3 = Lander.mLanded l /\ Lander.mCrashed l3 = Lander.mCrashed l.
Proof.
  intros (d & Hd & Hrot).
  set (l1 := Lander.ApplyThrust l _).
  assert (H1 : at2 (Lander.GetRotation l1) = F32.of_int d
               /\ Lander.mLanded l1 = Lander.mLanded l
               /\ Lander.mCrashed l1 = Lander.mCrashed l).
  { subst l1. destruct (Lander_ApplyThrust_shape l (if Game.thrust k then F32.of_int 1
                                                   else F32.zero)) as (tl & ta & ->).
    auto. }
  destruct H1 as (Hrot1 & Hla1 & Hcr1).
  assert (H2 : exists l2 d2,
            (if Game.rotateLeft k
             then Game.of_option Game.LoopRunning
                    (Lander.RotateLeft (2 + extra) l1 (F32.of_int 2))
             else Game.Ok l1) = Game.Ok l2
            /\ 0 <= d2 < 360 /\ at2 (Lander.GetRotation l2) = F32.of_int d2
            /\ Lander.mLanded l2 = Lander.mLanded l /\ Lander.mCrashed l2 = Lander.mCrashed l).
  { destruct (Game.rotateLeft k).
    - rewrite (RotateLeft_whole l1 d 2 extra) by (lia || assumption).
      eexists _, ((d + 2) mod 360). split; [reflexivity|].
      split; [apply Z.mod_pos_bound; lia|]. auto.
    - exists l1, d. auto. }
  destruct H2 as (l2 & d2 & -> & Hd2 & Hrot2 & Hla2 & Hcr2). cbn [Game.bind].
  destruct (Game.rotateRight k).
  - rewrite (RotateRight_whole l2 d2 2 extra) by (lia || assumption).
    eexists. split; [reflexivity|]. split; [|auto].
    exists ((d2 - 2) mod 360). split; [apply Z.mod_pos_bound; lia|reflexivity].
  - exists l2. split; [reflexivity|]. split; [exists d2; auto|auto].
Qed.

Lemma handle_keys_ready (g : Game.t) (k : Game.keys) (extra : nat) (this : nat) :
  game_ready g -> Game.mInputHandler g = Some this ->
  exists g', Game.handle_keys rand (2 + extra) g k = Game.Ok g' /\ game_ready g'
             /\ game_frame g g'
             /\ (Game.mGameState g = Game.FLYING -> Game.mGameState g' = Game.FLYING).
Proof.
  intros Hready Hthis.
  assert (Hquit : forall g1, game_ready g1 -> game_frame g g1 ->
            (Game.mGameState g = Game.FLYING -> Game.mGameState g1 = Game.FLYING) ->
            exists g', Game.Ok (if Game.quit k then Game.set_mIsRunning g1 false else g1)
                       = Game.Ok g' /\ game_ready g' /\ game_frame g g'
                       /\ (Game.mGameState g = Game.FLYING ->
                           Game.mGameState g' = Game.FLYING)).
  { intros g1 Hr Hf Hs. destruct (Game.quit k); [|eauto].
    eexists. split; [reflexivity|]. destruct g1. split; [exact Hr|]. split; [exact Hf|exact Hs]. }
  pose proof Hready as (Hw & Hh & Hppm & p & l & terrain & Hp & Hmode & Hl & Ht & Hhead & Hstate).
  unfold Game.handle_keys. rewrite Hthis.
  destruct (Game.mGameState g) eqn:Hst.
  - cbn [Game.bind]. apply Hquit; [| |discriminate].
    + destruct g as [state diff mode score time used w h ppm run phys hd calls reg ih made].
      cbn in Hst, Hw, Hh, Hppm, Hp. subst. destruct (Game.start k).
      * do 3 (split; [reflexivity|]). exists p, l, terrain. auto 10.
      * exact Hready.
    + destruct (Game.start k); destruct g; unfold game_frame; split_ands; auto.
  - rewrite Hp, Hl. cbn [Game.of_option Game.bind]. cbv zeta.
    assert (Hused : forall l1,
              (if Game.thrust k
               then (Lander.ApplyThrust l (F32.of_int 1),
                     if F32.gtb (Lander.GetFuel l1) (Lander.GetFuel l1)
                     then Game.set_mFuelUsed g
                            (F32.add (Game.mFuelUsed g)
                               (F32.sub (Lander.GetFuel l1) (Lander.GetFuel l1)))
                     else g)
               else (Lander.ApplyThrust l F32.zero, g))
              = (Lander.ApplyThrust l (if Game.thrust k then F32.of_int 1 else F32.zero), g)).
    { intros l1. unfold F32.gtb. fold (F32.ltb (Lander.GetFuel l1) (Lander.GetFuel l1)).
      rewrite ltb_irrefl. destruct (Game.thrust k); reflexivity. }
    rewrite Hused. cbn [fst snd].
    destruct (controls_ready l k extra Hhead) as (l3 & Hctl & Hhead3 & Hla3 & Hcr3).
    match goal with |- context [Game.bind (Game.bind ?a ?f) ?h] =>
      replace (Game.bind a f) with
        (Game.bind (Game.bind a (fun l2 =>
                      if Game.rotateRight k
                      then Game.of_option Game.LoopRunning
                             (Lander.RotateRight (2 + extra) l2 (F32.of_int 2))
                      else Game.Ok l2))
                   (fun l3 => Game.Ok (Game.set_mPhysics g
                                         (Some (Physics.set_mLander p (Some l3))))))
        by (destruct a; reflexivity)
    end.
    rewrite Hctl. cbn [Game.bind].
    destruct g as [state diff mode score time used w h ppm run phys hd calls reg ih made].
    cbn in Hst, Hw, Hh, Hppm, Hp. subst.
    apply Hquit; [| |reflexivity].
    + cbn [state_agrees] in Hstate. destruct Hstate as [Hla Hcr].
      do 3 (split; [reflexivity|]). eexists _, l3, terrain. game_cbn.
      unfold state_agrees. split_ands; auto; congruence.
    + unfold game_frame, game_segments. game_cbn. split_ands; auto.
  - destruct (Game.reset k).
    + destruct (Game_Reset_ready g Hready) as (g1 & -> & Hr1 & Hf1 & _).
      cbn [Game.bind]. apply Hquit; [assumption|assumption|discriminate].
    + cbn [Game.bind]. apply Hquit; [exact Hready|apply game_frame_refl|discriminate].
  - destruct (Game.reset k).
    + destruct (Game_Reset_ready g Hready) as (g1 & -> & Hr1 & Hf1 & _).
      cbn [Game.bind]. apply Hquit; [assumption|assumption|discriminate].
    + cbn [Game.bind]. apply Hquit; [exact Hready|apply game_frame_refl|discriminate].
Qed.

Lemma Game_ProcessInput_ready (g : Game.t) (events : list Game.event)
    (rendererOk : bool) (k : Game.keys) (extra : nat) :
  game_ready g -> no_mode_switch_in events = true ->
  exists g', ProcessInput_ (2 + extra) rendererOk g events k = Game.Ok g' /\ game_ready g'
             /\ game_frame g g'
             /\ (Game.mGameState g = Game.FLYING -> Game.mGameState g' = Game.FLYING).
Proof.
  intros Hready Hev. unfold Game.ProcessInput.
  destruct (Game.mInputHandler g) as [this|] eqn:Hthis.
  - destruct (events_ready rendererOk this events g Hready Hthis Hev)
      as (g0 & -> & Hr0 & Hf0 & Hk0).
    cbn [Game.bind].
    assert (Hthis0 : Game.mInputHandler g0 = Some this).
    { destruct Hf0 as (_ & _ & _ & _ & Hi & _). congruence. }
    destruct (handle_keys_ready g0 k extra this Hr0 Hthis0) as (g' & Hrun & Hr' & Hf' & Hk').
    exists g'. split; [exact Hrun|]. split; [exact Hr'|].
    split; [eapply game_frame_trans; eassumption|auto].
  - exists g. split; [reflexivity|]. split; [exact Hready|].
    split; [apply game_frame_refl|auto].
Qed.

Lemma game_frame_live (g g' : Game.t) :
  game_live g -> game_ready g' -> game_frame g g' -> game_live g'.
Proof.
  intros [_ Hreg] Hready (_ & _ & _ & Hr & _). split; [exact Hready|congruence].
Qed.

Lemma game_op_run_ready (g : Game.t) (op : game_op) (extra : nat) :
  game_live g -> no_mode_switch op ->
  exists g', op_run (2 + extra) g op = Game.Ok g' /\ game_live g' /\ game_frame g g'.
Proof.
  intros Hlive Hop. pose proof Hlive as [Hready _].
  assert (Hdone : forall r,
            (exists g', r = Game.Ok g' /\ game_ready g' /\ game_frame g g') ->
            exists g', r = Game.Ok g' /\ game_live g' /\ game_frame g g').
  { intros r (g' & H1 & H2 & H3). exists g'. split; [exact H1|].
    split; [exact (game_frame_live g g' Hlive H2 H3)|exact H3]. }
  apply Hdone. destruct op as [dt|events ok k| |difficulty]; cbn [game_op_run].
  - eexists. split; [reflexivity|]. apply Game_Update_ready. exact Hlive.
  - destruct (Game_ProcessInput_ready g events ok k extra Hready Hop)
      as (g' & H1 & H2 & H3 & _). eauto.
  - destruct (Game_Reset_ready g Hready) as (g' & H1 & H2 & H3 & _). eauto.
  - destruct (Game_SetDifficulty_ready g difficulty Hready) as (g' & H1 & H2 & H3 & _). eauto.
Qed.

Lemma game_run_ready (ops : list game_op) (extra : nat) : forall g,
  game_live g -> Forall no_mode_switch ops ->
  exists g', run (2 + extra) g ops = Game.Ok g' /\ game_live g' /\ game_frame g g'.
Proof.
  induction ops as [|op ops IH]; intros g Hlive Hops.
  - exists g. split; [reflexivity|]. split; [exact Hlive|apply game_frame_refl].
  - apply Forall_cons in Hops as [Hop Hops].
    destruct (game_op_run_ready g op extra Hlive Hop) as (g1 & Hrun1 & Hr1 & Hf1).
    destruct (IH g1 Hr1 Hops) as (g' & Hrun & Hr' & Hf').
    exists g'. cbn [game_run]. rewrite Hrun1. cbn [Game.bind].
    split; [exact Hrun|]. split; [exact Hr'|]. eapply game_frame_trans; eassumption.
Qed.

Lemma game_op_run_void (g : Game.t) (op : game_op) (extra : nat) :
  in_the_void g -> no_mode_switch op ->
  exists g', op_run (2 + extra) g op = Game.Ok g' /\ in_the_void g'.
Proof.
  intros (Hlive & H3D & Hsegs & Hfly) Hnotab. pose proof Hlive as [Hready Hreg].
  destruct (game_op_run_ready g op extra Hlive Hnotab) as (g' & Hop & Hr' & (Hm & _ & Hs & _)).
  exists g'. split; [exact Hop|]. split; [exact Hr'|]. split; [congruence|].
  split; [rewrite Hs by exact H3D; exact Hsegs|].
  destruct op as [dt|events ok k| |difficulty]; cbn [game_op_run] in Hop.
  - injection Hop as <-. clear Hr' Hm Hs.
    destruct Hready as (Hw & Hh & Hppm & p & l & terrain & Hp & Hmode & Hl & Ht & Hhead & Hst).
    rewrite Hfly in Hst. destruct Hst as [Hla Hcr].
    unfold game_segments in Hsegs. rewrite Hp, Ht in Hsegs.
    unfold Game.Update, Game.engine_view, Game.engine_result. rewrite Hfly, Hp, Hreg.
    rewrite (Physics_Update_in_the_void p l terrain dt) by assumption.
    cbn [Physics.mLander Physics.set_mLander].
    set (l1 := Physics.integrate2D sinf cosf p l _).
    destruct (integrate2D_flags sinf cosf p l
                (F32.mul (F32.mul dt (Physics.mTimeScale p)) (Physics.mTimeScale p)))
      as (Hla1 & Hcr1 & _). fold l1 in Hla1, Hcr1.
    destruct (Lander_Update_shape l1 dt) as (f & tl & ta & Hl2).
    unfold Lander.IsLanded, Lander.IsCrashed. rewrite Hl2.
    cbn [Lander.mLanded Lander.mCrashed Lander.set_mThrustLevel Lander.set_mThrustActive
         Lander.set_mFuel].
    rewrite Hla1, Hcr1, Hla, Hcr. destruct g; cbn in Hfly |- *. exact Hfly.
  - destruct (Game_ProcessInput_ready g events ok k extra Hready Hnotab)
      as (g1 & H1 & _ & _ & Hkeep).
    rewrite H1 in Hop. injection Hop as <-. apply Hkeep. exact Hfly.
  - destruct (Game_Reset_ready g Hready) as (g1 & H1 & _ & _ & Hf & _).
    rewrite H1 in Hop. injection Hop as <-. exact Hf.
  - destruct (Game_SetDifficulty_ready g difficulty Hready) as (g1 & H1 & _ & _ & Hf & _).
    rewrite H1 in Hop. injection Hop as <-. exact Hf.
Qed.

Lemma game_run_void (ops : list game_op) (extra : nat) : forall g,
  in_the_void g -> Forall no_mode_switch ops ->
  exists g', run (2 + extra) g ops = Game.Ok g' /\ in_the_void g'.
Proof.
  induction ops as [|op ops IH]; intros g Hvoid Hops; [exists g; auto|].
  apply Forall_cons in Hops as [Hop Hops].
  destruct (game_op_run_void g op extra Hvoid Hop) as (g1 & Hrun1 & Hv1).
  destruct (IH g1 Hv1 Hops) as (g' & Hrun & Hv').
  exists g'. cbn [game_run]. rewrite Hrun1. cbn [Game.bind]. auto.
Qed.

(** [Initialize] with a renderer that initialises, in the window of the
    constructor: it returns, and leaves a game that is ready, in flight and
    running, with the lander and the terrain registered, a new input
    handler, the fuel statistic at zero and, in 3D mode, a terrain without
    2D segments. *)
Lemma Game_Initialize_ready (g : Game.t) :
  Game.mWindowWidth g = 800 -> Game.mWindowHeight g = 600 ->
  Game.mPixelsPerMeter g = F32.of_int 20 ->
  exists g0, Initialize_ true g = Game.Ok g0
    /\ game_live g0 /\ Game.m3DMode g0 = Game.m3DMode g
    /\ Game.mGameState g0 = Game.FLYING /\ Game.mFuelUsed g0 = F32.zero
    /\ Game.mIsRunning g0 = true
    /\ Game.mInputHandler g0 = Some (Game.handlersMade g)
    /\ Game.handlersMade g0 = S (Game.handlersMade g)
    /\ (Game.m3DMode g = true -> game_segments g0 = []).
Proof.
  intros Hw Hh Hppm.
  destruct g as [state diff mode score time used w h ppm run phys hd calls reg ih made].
  cbn [Game.mWindowWidth Game.mWindowHeight Game.mPixelsPerMeter] in Hw, Hh, Hppm.
  subst w h ppm.
  set (p3 := Physics.mk (F32.lit 162 100) F32.zero (F32.of_int 1) (F32.of_int 20) false
               (Some Lander.init) (Some Terrain.init) None).
  set (g0 := Game.mk Game.READY diff mode score time used 800 600
               (F32.of_int 20) run (Some p3) [] calls true (Some made) (S made)).
  assert (Hinit : Initialize_ true
                    (Game.mk state diff mode score time used 800 600 (F32.of_int 20) run
                       phys hd calls reg ih made)
                  = Game.bind (Game.SetDifficulty rand g0 diff) (fun g1 =>
                    Game.bind (Game.regenerate rand g1) (fun g2 =>
                    Game.bind (Game.Reset rand g2) (fun g3 =>
                    Game.Ok (Game.set_mIsRunning g3 true))))).
  { unfold Game.Initialize, Game.SetDifficulty, Game.Reset. cbv zeta. game_cbn.
    reflexivity. }
  assert (Hready0 : game_ready g0).
  { do 3 (split; [reflexivity|]). exists p3, Lander.init, Terrain.init.
    split_ands; try reflexivity; [|split; reflexivity].
    exists 0. split; [lia|reflexivity]. }
  destruct (Game_SetDifficulty_ready g0 diff Hready0)
    as (g1 & H1 & Hr1 & Hf1 & _).
  destruct (Game_regenerate_ready g1 Hr1) as (g2 & H2 & Hr2 & Hf2 & _).
  destruct (Game_Reset_ready g2 Hr2) as (g3 & H3 & Hr3 & Hf3 & (Hfly & _ & _ & Hused & _)).
  rewrite Hinit, H1. cbn [Game.bind]. rewrite H2. cbn [Game.bind]. rewrite H3.
  cbn [Game.bind].
  pose proof (game_frame_trans _ _ _ (game_frame_trans _ _ _ Hf1 Hf2) Hf3)
    as (Hm & _ & Hs & Hreg & Hih & Hmade).
  exists (Game.set_mIsRunning g3 true). split; [reflexivity|].
  destruct g3 as [state3 diff3 mode3 score3 time3 used3 w3 h3 ppm3 run3 phys3 hd3 calls3
                  reg3 ih3 made3].
  split; [split; [exact Hr3|exact Hreg]|]. split; [exact Hm|]. split; [exact Hfly|].
  split; [exact Hused|]. split; [reflexivity|]. split; [exact Hih|].
  split; [exact Hmade|].
  intros Hmode. cbn [Game.m3DMode] in Hmode. subst mode. exact (Hs eq_refl).
Qed.

(** [main] reaches the game loop: the start of the game succeeds and
    leaves a game that is ready, in flight, with the fuel statistic at
    zero and, in 3D mode, a terrain without 2D segments. *)
Lemma game_start_ready (use3D : bool) :
  exists g0, start use3D = Game.Ok g0
    /\ game_live g0 /\ Game.m3DMode g0 = use3D
    /\ Game.mGameState g0 = Game.FLYING /\ Game.mFuelUsed g0 = F32.zero
    /\ Game.mIsRunning g0 = true
    /\ (use3D = true -> game_segments g0 = [])
    /\ exists this, Game.mInputHandler g0 = Some this
                    /\ (this < Game.handlersMade g0)%nat.
Proof.
  assert (Hmode : exists g, SetRenderingMode_ true Game.init use3D = Game.Ok g
                            /\ Game.mWindowWidth g = 800 /\ Game.mWindowHeight g = 600
                            /\ Game.mPixelsPerMeter g = F32.of_int 20
                            /\ Game.m3DMode g = use3D).
  { destruct use3D; eexists; (split; [reflexivity|]); auto. }
  destruct Hmode as (g & Hset & Hw & Hh & Hppm & H3D).
  destruct (Game_Initialize_ready g Hw Hh Hppm)
    as (g0 & Hinit & Hlive & Hm & Hfly & Hused & Hrun & Hih & Hmade & Hsegs).
  exists g0. unfold game_start. rewrite Hset. cbn [Game.bind].
  split; [exact Hinit|]. split; [exact Hlive|]. split; [congruence|].
  split; [exact Hfly|]. split; [exact Hused|]. split; [exact Hrun|].
  split; [intros ->; apply Hsegs; exact H3D|].
  exists (Game.handlersMade g). split; [exact Hih|]. rewrite Hmade. lia.
Qed.

(** A TAB key-down while the game is running rebuilds the game and
    replaces the input handler whose [ProcessInput] is running; the next
    quit or key event of the frame makes that handler read its member
    [mGame]. *)
Lemma tab_then_event_uses_the_old_handler (g : Game.t) (this : nat) (e : Game.event)
    (rest : list Game.event) :
  Game.mWindowWidth g = 800 -> Game.mWindowHeight g = 600 ->
  Game.mPixelsPerMeter g = F32.of_int 20 -> Game.mIsRunning g = true ->
  Game.mInputHandler g = Some this -> (this < Game.handlersMade g)%nat ->
  e <> Game.SDL_other ->
  pump true this g (Game.SDL_KEYDOWN Game.SDLK_TAB :: e :: rest)
  = Game.Fail Game.UseAfterFree.
Proof.
  intros Hw Hh Hppm Hrun Hthis Hlt He.
  destruct g as [state diff mode score time used w h ppm run phys hd calls reg ih made].
  cbn [Game.mWindowWidth Game.mWindowHeight Game.mPixelsPerMeter Game.mIsRunning
       Game.mInputHandler Game.handlersMade] in *. subst w h ppm run ih.
  set (g1 := Game.mk state diff (negb mode) score time used 800 600 (F32.of_int 20)
               false None [] calls false None made).
  destruct (Game_Initialize_ready g1 eq_refl eq_refl eq_refl)
    as (g2 & Hinit & _ & _ & _ & _ & _ & Hih & _).
  assert (Htab : OnKeyDown_ true
                   (Game.mk state diff mode score time used 800 600 (F32.of_int 20) true
                      phys hd calls reg (Some this) made) Game.SDLK_TAB
                 = Game.Ok g2).
  { rewrite <- Hinit. destruct mode; reflexivity. }
  cbn [Game.InputHandler_ProcessInput Game.mInputHandler]. rewrite Nat.eqb_refl, Htab.
  cbn [Game.bind].
  assert (Hold : Nat.eqb made this = false) by (apply Nat.eqb_neq; lia).
  destruct e as [|sym|sym|]; [| | |contradiction];
    cbn [Game.InputHandler_ProcessInput]; rewrite Hih; cbn [Game.handlersMade g1];
    rewrite Hold; reflexivity.
Qed.

Lemma bind_Ok {A B : Type} (r : Game.result A) (f : A -> Game.result B) (b : B) :
  Game.bind r f = Game.Ok b -> exists a, r = Game.Ok a /\ f a = Game.Ok b.
Proof. destruct r as [a|e]; cbn [Game.bind]; [eauto|discriminate]. Qed.

(** The fuel statistic is written by [Reset] alone, which zeroes it. *)
Lemma Game_Update_fuel_used (g : Game.t) (dt : F32.float) :
  Game.mFuelUsed (GameUpdate_ g dt) = Game.mFuelUsed g.
Proof.
  unfold Game.Update. cbv zeta. destruct (Game.mGameState g); try reflexivity.
  destruct (Game.mPhysics g) as [p|]; [|destruct g; reflexivity].
  destruct (Physics.mLander _) as [l|]; [|destruct g; reflexivity].
  destruct (Lander.IsLanded _); [destruct g; reflexivity|].
  destruct (Lander.IsCrashed _); destruct g; reflexivity.
Qed.

Lemma Game_regenerate_fuel_used (g g' : Game.t) :
  Game.regenerate rand g = Game.Ok g' -> Game.mFuelUsed g' = Game.mFuelUsed g.
Proof.
  unfold Game.regenerate.
  destruct (Game.mPhysics g) as [p|]; [|intros [= <-]; reflexivity].
  destruct (Physics.mTerrain p) as [terrain|]; [|intros [= <-]; reflexivity].
  destruct (Game.m3DMode g).
  - cbv zeta. intros H.
    apply bind_Ok in H as (width & _ & H). apply bind_Ok in H as (length & _ & H).
    apply bind_Ok in H as (height & _ & H).
    destruct (Terrain.Generate3D _ _ _ _ _ _) as [[terrain' hd'] calls'].
    injection H as <-. destruct g; reflexivity.
  - intros H. apply bind_Ok in H as (terrain' & _ & H).
    injection H as <-. destruct g; reflexivity.
Qed.

Lemma Game_Reset_fuel_used (g g' : Game.t) :
  Game.Reset rand g = Game.Ok g' -> Game.mFuelUsed g' = F32.zero.
Proof.
  unfold Game.Reset. cbv zeta. intros H. rewrite (Game_regenerate_fuel_used _ _ H).
  unfold Game.on_lander. game_cbn. destruct (Game.mPhysics g); reflexivity.
Qed.

Lemma Game_SetDifficulty_fuel_used (g g' : Game.t) (difficulty : Game.Difficulty) :
  Game.SetDifficulty rand g difficulty = Game.Ok g' -> Game.mFuelUsed g' = F32.zero.
Proof.
  unfold Game.SetDifficulty. cbv zeta.
  destruct (Game.mPhysics _); [apply Game_Reset_fuel_used|discriminate].
Qed.

Lemma Game_Initialize_fuel_used (rendererOk : bool) (g g' : Game.t) :
  Game.mFuelUsed g = F32.zero -> Initialize_ rendererOk g = Game.Ok g' ->
  Game.mFuelUsed g' = F32.zero.
Proof.
  intros Hz. unfold Game.Initialize. cbv zeta. destruct rendererOk.
  - intros H. apply bind_Ok in H as (g2 & _ & H). apply bind_Ok in H as (g3 & _ & H).
    apply bind_Ok in H as (g4 & H4 & H). injection H as <-.
    apply Game_Reset_fuel_used in H4. destruct g4; exact H4.
  - intros [= <-]. exact Hz.
Qed.

Lemma Game_SetRenderingMode_fuel_used (rendererOk : bool) (g g' : Game.t) (use3D : bool) :
  Game.mFuelUsed g = F32.zero -> SetRenderingMode_ rendererOk g use3D = Game.Ok g' ->
  Game.mFuelUsed g' = F32.zero.
Proof.
  intros Hz. unfold Game.SetRenderingMode. destruct (negb _); [|intros [= <-]; exact Hz].
  cbv zeta. destruct (Game.mIsRunning _); [|intros [= <-]; destruct g; exact Hz].
  apply Game_Initialize_fuel_used. destruct g; exact Hz.
Qed.

Lemma Game_OnKeyDown_fuel_used (rendererOk : bool) (g g' : Game.t) (sym : Game.keycode) :
  Game.mFuelUsed g = F32.zero -> OnKeyDown_ rendererOk g sym = Game.Ok g' ->
  Game.mFuelUsed g' = F32.zero.
Proof.
  intros Hz. destruct sym; cbn [Game.OnKeyDown].
  - apply Game_Reset_fuel_used.
  - intros [= <-]. destruct g; exact Hz.
  - apply Game_SetDifficulty_fuel_used.
  - apply Game_SetDifficulty_fuel_used.
  - apply Game_SetDifficulty_fuel_used.
  - apply Game_SetRenderingMode_fuel_used. exact Hz.
  - intros [= <-]. exact Hz.
Qed.

Lemma events_fuel_used (rendererOk : bool) (this : nat) (events : list Game.event) :
  forall g g',
    Game.mFuelUsed g = F32.zero -> pump rendererOk this g events = Game.Ok g' ->
    Game.mFuelUsed g' = F32.zero.
Proof.
  induction events as [|e events IH]; intros g g' Hz.
  - intros [= <-]. exact Hz.
  - destruct e as [|sym|sym|]; cbn [Game.InputHandler_ProcessInput];
      try (apply IH; exact Hz);
      (destruct (Game.mInputHandler g) as [handler|]; [|discriminate]);
      (destruct (Nat.eqb handler this); [|discriminate]);
      intros H; apply bind_Ok in H as (g1 & H1 & H).
    + apply (IH g1 g'); [|exact H]. eapply Game_OnKeyDown_fuel_used; eassumption.
    + apply (IH g1 g'); [|exact H]. eapply Game_OnKeyDown_fuel_used; eassumption.
    + injection H1 as <-. apply (IH g g'); assumption.
Qed.

Lemma handle_keys_fuel_used (fuel : nat) (g g' : Game.t) (k : Game.keys) :
  Game.mFuelUsed g = F32.zero -> Game.handle_keys rand fuel g k = Game.Ok g' ->
  Game.mFuelUsed g' = F32.zero.
Proof.
  intros Hz. unfold Game.handle_keys. destruct (Game.mInputHandler g); [|discriminate].
  intros H. apply bind_Ok in H as (g1 & H1 & H). injection H as <-.
  assert (Hg1 : Game.mFuelUsed g1 = F32.zero).
  { destruct (Game.mGameState g).
    - injection H1 as <-. destruct (Game.start k); [destruct g; exact Hz|exact Hz].
    - destruct (Game.mPhysics g) as [p|]; [|discriminate].
      apply bind_Ok in H1 as (l & _ & H1). cbv zeta in H1.
      apply bind_Ok in H1 as (l2 & _ & H1). apply bind_Ok in H1 as (l3 & _ & H1).
      injection H1 as <-.
      destruct (Game.thrust k); cbn [snd]; [|destruct g; exact Hz].
      unfold F32.gtb. fold (F32.ltb (Lander.GetFuel (Lander.ApplyThrust l (F32.of_int 1)))
                              (Lander.GetFuel (Lander.ApplyThrust l (F32.of_int 1)))).
      rewrite ltb_irrefl. destruct g; exact Hz.
    - destruct (Game.reset k); [eapply Game_Reset_fuel_used; exact H1|].
      injection H1 as <-. exact Hz.
    - destruct (Game.reset k); [eapply Game_Reset_fuel_used; exact H1|].
      injection H1 as <-. exact Hz. }
  destruct (Game.quit k); [destruct g1; exact Hg1|exact Hg1].
Qed.

Lemma game_op_run_fuel_used (fuel : nat) (g g' : Game.t) (op : game_op) :
  Game.mFuelUsed g = F32.zero -> op_run fuel g op = Game.Ok g' ->
  Game.mFuelUsed g' = F32.zero.
Proof.
  intros Hz. destruct op as [dt|events ok k| |difficulty]; cbn [game_op_run].
  - intros [= <-]. rewrite Game_Update_fuel_used. exact Hz.
  - unfold Game.ProcessInput.
    destruct (Game.mInputHandler g) as [this|]; [|intros [= <-]; exact Hz].
    intros H. apply bind_Ok in H as (g0 & H0 & H).
    eapply handle_keys_fuel_used; [|exact H]. eapply events_fuel_used; eassumption.
  - apply Game_Reset_fuel_used.
  - apply Game_SetDifficulty_fuel_used.
Qed.

Lemma game_run_fuel_used (fuel : nat) (ops : list game_op) : forall g g',
  Game.mFuelUsed g = F32.zero -> run fuel g ops = Game.Ok g' ->
  Game.mFuelUsed g' = F32.zero.
Proof.
  induction ops as [|op ops IH]; intros g g' Hz; cbn [game_run].
  - intros [= <-]. exact Hz.
  - intros H. apply bind_Ok in H as (g1 & H1 & H).
    apply (IH g1 g'); [|exact H]. eapply game_op_run_fuel_used; eassumption.
Qed.

(** X18. The game does not get stuck as long as the rendering mode is
    not switched.  The start of the game as [main] runs it
    ([SetRenderingMode], then [Initialize], with a renderer that
    initialises) succeeds in both rendering modes, and after it every
    sequence of [Update], [ProcessInput], [Reset] and [SetDifficulty] calls
    in which no frame has a key-down event of TAB returns: the events of
    each frame are handled by [OnKeyDown], no null pointer is dereferenced,
    no division by zero or undefined conversion is met, and each rotation
    loop stops within two tests, the heading being kept at a whole number of
    degrees in [0, 360).  The engine stays in 2D mode whatever the rendering
    mode.  The condition on TAB is needed: a frame with a key-down of TAB
    followed by another key-down has no defined result, because the first
    rebuilds the game and destroys the input handler that is handling the
    events. *)
Theorem game_never_gets_stuck (use3D : bool) (ops : list game_op) (extra : nat) :
  Forall no_mode_switch ops ->
  exists g0 g' p l,
    start use3D = Game.Ok g0
    /\ run (2 + extra) g0 ops = Game.Ok g'
    /\ Game.mPhysics g' = Some p /\ Physics.m3DMode p = false
    /\ Physics.mLander p = Some l /\ whole_heading l
    /\ Game.m3DMode g' = use3D
    /\ run (2 + extra) g0 [tab_and_key_frame] = Game.Fail Game.UseAfterFree.
Proof.
  intros Hops.
  destruct (game_start_ready use3D)
    as (g0 & Hstart & Hlive & Hmode & _ & _ & Hrunning & _ & this & Hthis & Hlt).
  destruct (game_run_ready ops extra g0 Hlive Hops) as (g' & Hrun & Hlive' & (Hm & _)).
  destruct Hlive' as ((_ & _ & _ & p & l & terrain & Hp & Hpm & Hl & _ & Hhead & _) & _).
  exists g0, g', p, l. split_ands; auto; [congruence|].
  destruct Hlive as ((Hw & Hh & Hppm & _) & _).
  cbn [game_run game_op_run tab_and_key_frame]. unfold Game.ProcessInput. rewrite Hthis.
  rewrite (tab_then_event_uses_the_old_handler g0 this) by (assumption || discriminate).
  reflexivity.
Qed.

(** X19. The fuel statistic of the game is never updated: after the
    start of the game, whatever sequence of [Update], [ProcessInput],
    [Reset] and [SetDifficulty] calls returns, with whatever events, also
    when the game is rebuilt on a TAB key and whether or not the renderer
    initialises again, [GetFuelUsed] is 0 after it, because [ProcessInput]
    compares the fuel after the throttle call with a copy of itself.  And
    every sequence without a key-down event of TAB does return. *)
Theorem fuel_used_statistic_stays_zero (use3D : bool) (ops : list game_op) (extra : nat) :
  exists g0,
    start use3D = Game.Ok g0
    /\ (forall fuel g', run fuel g0 ops = Game.Ok g' -> Game.mFuelUsed g' = F32.zero)
    /\ (Forall no_mode_switch ops -> exists g', run (2 + extra) g0 ops = Game.Ok g').
Proof.
  destruct (game_start_ready use3D) as (g0 & Hstart & Hlive & _ & _ & Hused & _).
  exists g0. split; [exact Hstart|]. split.
  - intros fuel g' Hrun. exact (game_run_fuel_used fuel ops g0 g' Hused Hrun).
  - intros Hops. destruct (game_run_ready ops extra g0 Hlive Hops) as (g' & Hrun & _).
    exists g'. exact Hrun.
Qed.

(** X20. The game state agrees with the lander as long as the rendering
    mode is not switched: after the start of the game and any sequence of
    [Update], [ProcessInput], [Reset] and [SetDifficulty] calls in which no
    frame has a key-down event of TAB, the state LANDED goes with a landed
    lander, the state CRASHED with a lander that is crashed and not landed,
    and the state FLYING with a lander that is neither. *)
Theorem game_state_agrees_with_lander (use3D : bool) (ops : list game_op) (extra : nat) :
  Forall no_mode_switch ops ->
  exists g0 g' l,
    start use3D = Game.Ok g0
    /\ run (2 + extra) g0 ops = Game.Ok g'
    /\ Game.GetLander g' = Some l
    /\ (Game.mGameState g' = Game.LANDED -> Lander.mLanded l = true)
    /\ (Game.mGameState g' = Game.CRASHED ->
        Lander.mLanded l = false /\ Lander.mCrashed l = true)
    /\ (Game.mGameState g' = Game.FLYING ->
        Lander.mLanded l = false /\ Lander.mCrashed l = false).
Proof.
  intros Hops.
  destruct (game_start_ready use3D) as (g0 & Hstart & Hlive & _).
  destruct (game_run_ready ops extra g0 Hlive Hops) as (g' & Hrun & Hlive' & _).
  destruct Hlive' as ((_ & _ & _ & p & l & terrain & Hp & _ & Hl & _ & _ & Hstate) & _).
  exists g0, g', l. split; [exact Hstart|]. split; [exact Hrun|].
  split; [unfold Game.GetLander; rewrite Hp; exact Hl|].
  destruct (Game.mGameState g'); cbn in Hstate; split_ands; intros H;
    (discriminate H || exact Hstate).
Qed.

(** X21. A game started in 3D mode and left in it never ends.
    [Initialize] and [Reset] then build the terrain with [Generate3D] only,
    so the terrain has no 2D segments, while the engine stays in 2D mode
    and looks for collisions among those segments: after any sequence of
    [Update], [ProcessInput], [Reset] and [SetDifficulty] calls in which no
    frame has a key-down event of TAB, the lander is neither landed nor
    crashed and the game is still FLYING. *)
Theorem three_d_game_never_ends (ops : list game_op) (extra : nat) :
  Forall no_mode_switch ops ->
  exists g0 g' l,
    start true = Game.Ok g0
    /\ run (2 + extra) g0 ops = Game.Ok g'
    /\ Game.mGameState g' = Game.FLYING
    /\ Game.GetLander g' = Some l
    /\ Lander.mLanded l = false /\ Lander.mCrashed l = false
    /\ game_segments g' = [].
Proof.
  intros Hops.
  destruct (game_start_ready true) as (g0 & Hstart & Hlive & Hmode & Hfly & _ & _ & Hsegs & _).
  destruct (game_run_void ops extra g0) as (g' & Hrun & (Hlive' & _ & Hsegs' & Hfly')).
  { split; [exact Hlive|]. split; [exact Hmode|]. split; [apply Hsegs; reflexivity|exact Hfly]. }
  { exact Hops. }
  destruct Hlive' as ((_ & _ & _ & p & l & terrain & Hp & _ & Hl & _ & _ & Hstate) & _).
  rewrite Hfly' in Hstate. destruct Hstate as [Hla Hcr].
  exists g0, g', l. split_ands; auto. unfold Game.GetLander. rewrite Hp. exact Hl.
Qed.

(** X22. [SetDifficulty] restarts the game: on a game that is ready it
    sets the gravity to 1.0, 1.62 or 2.0 m/s^2 for EASY, NORMAL or HARD and
    resets the rest: the game is FLYING with score and elapsed time 0, and
    the lander is at rest at (20 m, 20 m), the middle of the 800-pixel
    window, with no rotation, the thrust off, a full tank and both
    terminal flags cleared. *)
Theorem SetDifficulty_restarts_the_game (g : Game.t) (difficulty : Game.Difficulty) :
  game_ready g ->
  exists g' p l l0,
    Game.SetDifficulty rand g difficulty = Game.Ok g'
    /\ Game.mGameState g' = Game.FLYING
    /\ Game.mScore g' = F32.zero /\ Game.mElapsedTime g' = F32.zero
    /\ Game.mPhysics g' = Some p /\ Physics.mGravity p = gravity_of difficulty
    /\ Physics.mLander p = Some l /\ Game.GetLander g = Some l0
    /\ Entity.mPosition (Lander.base l)
       = mkFloat3 (F32.of_int 20) (F32.of_int 20)
                  (if Game.m3DMode g then F32.of_int 20 else F32.zero)
    /\ Lander.mVelocity l = mkFloat3 F32.zero F32.zero F32.zero
    /\ at2 (Lander.GetRotation l) = F32.of_int 0
    /\ Lander.mThrustActive l = false
    /\ Lander.mFuel l = Lander.mMaxFuel l0
    /\ Lander.mLanded l = false /\ Lander.mCrashed l = false.
Proof.
  intros Hready.
  destruct (Game_SetDifficulty_ready g difficulty Hready)
    as (g' & Hset & _ & _ & Hfly & Hscore & Htime & _ & p' & l0 & Hp' & Hgrav & Hl0 & Hl').
  destruct Hready as (Hw & _ & Hppm & _).
  destruct (reset_lander_state g l0 Hw Hppm)
    as (Hpos & Hrot & Hvel & _ & Hact & Hfuel & Hla & Hcr).
  exists g', p', (Game.reset_lander g l0), l0. split_ands; assumption.
Qed.
End GameProperties.

(** ** Further scenarios *)

(** Level 0.5 for 200 s empties the tank and switches the thrust off; a
    step of the engine and a request for more thrust leave the flag in line
    with the level and the fuel. *)
Lemma thrust_flag_after_a_long_burn :
  exists l',
    Physics.mLander
      (run_ops sin_zero cos_zero rotate_identity step_nothing
         (engine (F32.of_int 1) lander_D)
         [OpLanderUpdate (F32.of_int 200); OpUpdate (F32.lit 1 60);
          OpLanderApplyThrust (F32.of_int 3)]) = Some l'
    /\ thrust_consistent l'.
Proof.
  apply (thrust_flag_follows_level_and_fuel sin_zero cos_zero rotate_identity step_nothing
           (engine (F32.of_int 1) lander_D) lander_D).
  - reflexivity.
  - reflexivity.
  - split; [vm_compute; reflexivity|]. intros _. vm_compute. reflexivity.
Defined.

(** The same operations keep the fuel between 0 and the capacity of
    1000 kg. *)
Lemma fuel_within_tank_after_a_long_burn :
  exists l',
    Physics.mLander
      (run_ops sin_zero cos_zero rotate_identity step_nothing
         (engine (F32.of_int 1) lander_D)
         [OpLanderUpdate (F32.of_int 200); OpUpdate (F32.lit 1 60);
          OpLanderApplyThrust (F32.of_int 3); OpLanderReset]) = Some l'
    /\ F32.leb F32.zero (Lander.mFuel l') = true
    /\ F32.leb (Lander.mFuel l') (Lander.mMaxFuel l') = true
    /\ Lander.mMaxFuel l' = Lander.mMaxFuel lander_D.
Proof.
  apply (fuel_stays_within_tank sin_zero cos_zero rotate_identity step_nothing
           (engine (F32.of_int 1) lander_D) lander_D).
  - reflexivity.
  - reflexivity.
  - unfold tank_ok, fuel_ok.
    repeat match goal with |- _ /\ _ => split end; vm_compute; reflexivity.
  - repeat constructor.
Defined.

(** A landed lander is still landed after a step, a throttle change, an
    update and a collision check. *)
Lemma landed_flag_survives :
  exists l',
    Physics.mLander
      (run_ops sin_zero cos_zero rotate_identity step_nothing
         (engine (F32.of_int 1) (Lander.SetLanded lander_A true))
         [OpUpdate (F32.lit 1 60); OpLanderApplyThrust (F32.of_int 1);
          OpLanderUpdate (F32.of_int 1); OpCheckCollisions2D]) = Some l'
    /\ (Lander.mLanded (Lander.SetLanded lander_A true) = true -> Lander.mLanded l' = true)
    /\ (Lander.mCrashed (Lander.SetLanded lander_A true) = true ->
        Lander.mCrashed l' = true).
Proof.
  apply (terminal_flags_are_cleared_by_Reset_only
           sin_zero cos_zero rotate_identity step_nothing
           (engine (F32.of_int 1) (Lander.SetLanded lander_A true))
           (Lander.SetLanded lander_A true)).
  - reflexivity.
  - reflexivity.
  - repeat constructor.
Defined.

(** After a burn and a crash, a reset gives the lander a reset of the
    lander of scenario B gives. *)
Lemma reset_after_a_crash :
  exists l',
    Physics.mLander
      (run_ops sin_zero cos_zero rotate_identity step_nothing
         (engine (F32.of_int 1) lander_B)
         [OpLanderApplyThrust (F32.of_int 1); OpLanderUpdate (F32.of_int 2);
          OpUpdate (F32.lit 1 60)]) = Some l'
    /\ Lander.Reset l' = Lander.Reset lander_B.
Proof.
  destruct (Reset_forgets_the_flight sin_zero cos_zero rotate_identity step_nothing
              (engine (F32.of_int 1) lander_B) lander_B
              [OpLanderApplyThrust (F32.of_int 1); OpLanderUpdate (F32.of_int 2);
               OpUpdate (F32.lit 1 60)] eq_refl eq_refl)
    as (l' & Hl' & Hreset & _).
  exists l'. split; [exact Hl'|exact Hreset].
Defined.

(** The landing of scenario A moves the lander and sets a flag, and
    nothing else. *)
Lemma landing_changes_motion_only :
  exists l',
    Physics.mLander (snd (Physics.CheckCollisions2D (engine (F32.of_int 1) lander_A)))
    = Some l'
    /\ moved lander_A l'.
Proof.
  destruct (physics_step_changes_motion_only sin_zero cos_zero step_nothing
              (engine (F32.of_int 1) lander_A) lander_A (F32.lit 1 60) eq_refl eq_refl)
    as (_ & _ & H).
  exact H.
Defined.

(** From heading 0, two degrees to the left give 2 and two degrees to the
    right give 358. *)
Lemma rotation_by_two_degrees :
  Lander.RotateLeft 2 Lander.init (F32.of_int 2)
  = Some (Lander.set_rotationZ Lander.init (F32.of_int 2))
  /\ Lander.RotateRight 2 Lander.init (F32.of_int 2)
     = Some (Lander.set_rotationZ Lander.init (F32.of_int 358)).
Proof.
  destruct (rotation_by_whole_degrees Lander.init 0 2 0) as (Hl & Hr & _);
    [lia|lia|reflexivity|].
  split; [exact Hl|exact Hr].
Defined.

(** A width of 805 pixels gives 10 segments of 80 pixels: the last 5
    pixels are not covered. *)
Lemma Generate2D_805_covers_800 :
  exists t',
    Terrain.Generate2D (fun _ => 0) Terrain.init 805 600 = Some t'
    /\ length (Terrain.mSegments2D t') = 10%nat
    /\ (forall s, Terrain.mSegments2D t' !! 9%nat = Some s ->
          TerrainSegment.x2 s = F32.of_int 800)
    /\ Terrain.mWidth t' = 805.
Proof.
  destruct (Generate2D_segments_tile_the_width (fun _ => 0) Terrain.init 805 600)
    as (t' & Hgen & Hlen & Hx & _ & Hw & _); [intros H; vm_compute in H; discriminate H|].
  exists t'. split; [exact Hgen|]. split; [exact Hlen|]. split; [|exact Hw].
  intros s Hs. exact (proj2 (Hx 9%nat s Hs)).
Defined.

(** With [rand()] counting up from 0, the terrain of the default window
    stays within 19 pixels of its baseline. *)
Lemma Generate2D_heights_800_600 :
  exists t',
    Terrain.Generate2D Z.of_nat Terrain.init 800 600 = Some t'
    /\ forall s, s ∈ Terrain.mSegments2D t' ->
         exists e1 e2,
           0 <= e1 <= 19 /\ 0 <= e2 <= 19
           /\ TerrainSegment.y1 s = F32.of_int (600 - 50 - e1)
           /\ TerrainSegment.y2 s = F32.of_int (600 - 50 - e2)
           /\ (TerrainSegment.isLandingPad s = true -> e1 = 0 /\ e2 = 0).
Proof.
  destruct (Generate2D_heights_stay_near_the_baseline Z.of_nat Terrain.init 800 600)
    as (t' & Hgen & Hall).
  - intros H. vm_compute in H. discriminate H.
  - intros k. lia.
  - exists t'. split; [exact Hgen|]. intros s Hs.
    destruct (Hall s Hs) as (e1 & e2 & He1 & He2 & Hy1 & Hy2 & Hpad & Hplain).
    destruct Hplain as [H1 H2]; [unfold Int32.min_signed, Int32.max_signed; lia|].
    exists e1, e2. rewrite <- H1, <- H2. auto.
Defined.

(** In the 3D terrain of the game (40 m x 40 m x 30 m) the vertex
    (13, 7), on the far side of the pad, is offset by [rand() % 20 - 10]. *)
Lemma Generate3D_vertex_13_7 :
  exists k,
    (k < 405)%nat
    /\ nth (Z.to_nat (7 * 21 + 13))
           (snd (fst (Terrain.Generate3D (fun _ => 0) Terrain.init [] 40 40 30))) F32.zero
       = F32.add (F32.of_int (30 - 50)) (F32.of_int (Z.rem 0 20 - 10)).
Proof.
  destruct (Generate3D_heights (fun _ => 0) Terrain.init [] 40 40 30 13 7)
    as (_ & Hout & _); [lia|lia|].
  destruct Hout as (k & Hk & Hh & _); [lia|].
  exists k. split; [exact Hk|exact Hh].
Defined.

(** The first triangle of the pad cell (12, 7) of that terrain is flagged
    as landing pad although its second vertex carries a random offset. *)
Lemma Generate3D_pad_cell_12_7 :
  let heightData := snd (fst (Terrain.Generate3D (fun _ => 0) Terrain.init [] 40 40 30)) in
  let cellWidth := F32.div (F32.of_int 40) (F32.of_int 20) in
  exists tri k,
    Terrain.cell_triangles heightData cellWidth cellWidth 7 12 !! 0%nat = Some tri
    /\ TerrainTriangle.isLandingPad tri = true
    /\ (k < 405)%nat
    /\ TerrainTriangle.v4 (TerrainTriangle.vertices tri)
       = F32.add (F32.of_int (30 - 50)) (F32.of_int (Z.rem 0 20 - 10)).
Proof.
  cbv zeta.
  set (heightData := snd (fst (Terrain.Generate3D (fun _ => 0) Terrain.init [] 40 40 30))).
  set (cellWidth := F32.div (F32.of_int 40) (F32.of_int 20)).
  assert (Hin : exists tri,
             Terrain.cell_triangles heightData cellWidth cellWidth 7 12 !! 0%nat = Some tri
             /\ tri ∈ Terrain.cell_triangles heightData cellWidth cellWidth 7 12).
  { eexists. split; [reflexivity|]. unfold Terrain.cell_triangles. left. }
  destruct Hin as (tri & Hlook & Hin).
  destruct (Generate3D_pad_is_flat_in_its_interior_only
              (fun _ => 0) Terrain.init [] 40 40 30 12 7 tri ltac:(lia) ltac:(lia) Hin)
    as (Hpad & _ & Hedge).
  destruct (Hedge eq_refl) as (k & Hk & Hv).
  exists tri, k.
  split; [exact Hlook|]. split; [exact Hpad|]. split; [exact Hk|exact Hv].
Defined.

(** Updates alone do not switch the rendering mode. *)
Lemma updates_do_not_switch_mode (dt : F32.float) (n : nat) :
  Forall no_mode_switch (repeat (GameUpdate dt) n).
Proof. induction n as [|n IH]; cbn [repeat]; constructor; [exact I|exact IH]. Qed.

(** On the game of scenario A, the level HARD sets the gravity to
    2 m/s^2 and restarts the flight. *)
Lemma hard_restarts_game_A :
  exists g' p,
    Game.SetDifficulty (fun _ => 0) game_A Game.HARD = Game.Ok g'
    /\ Game.mGameState g' = Game.FLYING
    /\ Game.mPhysics g' = Some p /\ Physics.mGravity p = F32.of_int 2.
Proof.
  destruct (SetDifficulty_restarts_the_game (fun _ => 0) game_A Game.HARD)
    as (g' & p & l & l0 & Hset & Hfly & _ & _ & Hp & Hgrav & _).
  - do 3 (split; [reflexivity|]).
    exists (engine (F32.of_int 1) lander_high), lander_high, flat_terrain.
    do 4 (split; [reflexivity|]).
    split; [exists 0; split; [lia|reflexivity]|split; reflexivity].
  - exists g', p. split; [exact Hset|]. split; [exact Hfly|]. split; [exact Hp|exact Hgrav].
Defined.

(** Two frames with key events (the keys 3 and R, then a quit event),
    with the thrust and the left-rotation keys held, and two updates of
    0.1 s: every call returns, and the lander heads 4 degrees to the
    left. *)
Lemma busy_frames_return :
  exists g0 g' p l,
    game_start no_bullet no_bullet no_bullet (fun _ => 0) false = Game.Ok g0
    /\ game_run sin_zero cos_zero step_nothing no_bullet no_bullet no_bullet (fun _ => 0)
         2 g0 busy_frames = Game.Ok g'
    /\ Game.mPhysics g' = Some p /\ Physics.mLander p = Some l
    /\ at2 (Lander.GetRotation l) = F32.of_int 4
    /\ Game.mIsRunning g' = false.
Proof.
  destruct (game_never_gets_stuck sin_zero cos_zero step_nothing
              no_bullet no_bullet no_bullet (fun _ => 0) false busy_frames 0)
    as (g0 & g' & p & l & Hstart & Hrun & Hp & _ & Hl & _).
  - repeat constructor.
  - exists g0, g', p, l.
    split; [exact Hstart|]. split; [exact Hrun|]. split; [exact Hp|]. split; [exact Hl|].
    vm_compute in Hstart. injection Hstart as <-.
    vm_compute in Hrun. injection Hrun as <-.
    vm_compute in Hp. injection Hp as <-.
    vm_compute in Hl. injection Hl as <-.
    split; vm_compute; reflexivity.
Defined.

(** One frame with the thrust key held and one update of 0.1 s burn 1 kg
    of the 1000 kg, yet the fuel-used statistic of the game is still 0. *)
Lemma a_burn_is_not_counted :
  exists g0 g' l,
    game_start no_bullet no_bullet no_bullet (fun _ => 0) false = Game.Ok g0
    /\ game_run sin_zero cos_zero step_nothing no_bullet no_bullet no_bullet (fun _ => 0)
         2 g0 [GameProcessInput [] true thrust_key; GameUpdate (F32.lit 1 10)]
       = Game.Ok g'
    /\ Game.GetLander g' = Some l
    /\ Lander.mFuel l = F32.of_int 999
    /\ Game.mFuelUsed g' = F32.zero.
Proof.
  destruct (fuel_used_statistic_stays_zero sin_zero cos_zero step_nothing
              no_bullet no_bullet no_bullet (fun _ => 0) false
              [GameProcessInput [] true thrust_key; GameUpdate (F32.lit 1 10)] 0)
    as (g0 & Hstart & Hzero & Hreturns).
  destruct Hreturns as (g' & Hrun); [repeat constructor|].
  pose proof (Hzero _ _ Hrun) as Hused.
  exists g0, g'.
  assert (Hl : exists l, Game.GetLander g' = Some l /\ Lander.mFuel l = F32.of_int 999).
  { vm_compute in Hstart. injection Hstart as <-.
    vm_compute in Hrun. injection Hrun as <-.
    eexists. split; vm_compute; reflexivity. }
  destruct Hl as (l & Hl & Hfuel).
  exists l. split; [exact Hstart|]. split; [exact Hrun|]. split; [exact Hl|].
  split; [exact Hfuel|exact Hused].
Defined.

(** A 2D game left alone for 6 s (60 frames of 0.1 s): the lander has hit
    the ground too fast, and the game is CRASHED. *)
Lemma a_hard_landing_ends_the_game :
  exists g0 g' l,
    game_start no_bullet no_bullet no_bullet (fun _ => 0) false = Game.Ok g0
    /\ game_run sin_zero cos_zero step_nothing no_bullet no_bullet no_bullet (fun _ => 0)
         2 g0 (repeat (GameUpdate (F32.lit 1 10)) 60) = Game.Ok g'
    /\ Game.GetLander g' = Some l
    /\ Game.mGameState g' = Game.CRASHED
    /\ Lander.mLanded l = false /\ Lander.mCrashed l = true.
Proof.
  destruct (game_state_agrees_with_lander sin_zero cos_zero step_nothing
              no_bullet no_bullet no_bullet (fun _ => 0) false
              (repeat (GameUpdate (F32.lit 1 10)) 60) 0)
    as (g0 & g' & l & Hstart & Hrun & Hl & _ & Hcrashed & _).
  - apply updates_do_not_switch_mode.
  - exists g0, g', l.
    split; [exact Hstart|]. split; [exact Hrun|]. split; [exact Hl|].
    assert (Hstate : Game.mGameState g' = Game.CRASHED).
    { vm_compute in Hstart. injection Hstart as <-.
      vm_compute in Hrun. injection Hrun as <-. reflexivity. }
    split; [exact Hstate|exact (Hcrashed Hstate)].
Defined.

(** The same game, when the TAB key is then pressed and the renderer
    does not initialise again: the game is rebuilt with a new lander that
    has not crashed, while the state is still CRASHED; the game loop ends,
    [mIsRunning] being false. *)
Lemma a_failed_rebuild_keeps_the_old_state :
  exists g0 g' l,
    game_start no_bullet no_bullet no_bullet (fun _ => 0) false = Game.Ok g0
    /\ game_run sin_zero cos_zero step_nothing no_bullet no_bullet no_bullet (fun _ => 0)
         2 g0 (repeat (GameUpdate (F32.lit 1 10)) 60 ++ [tab_frame false]) = Game.Ok g'
    /\ Game.GetLander g' = Some l
    /\ Game.mGameState g' = Game.CRASHED
    /\ Lander.mLanded l = false /\ Lander.mCrashed l = false
    /\ Game.mIsRunning g' = false.
Proof.
  eexists _, _, _. split; [vm_compute; reflexivity|].
  split; [vm_compute; reflexivity|]. split; [vm_compute; reflexivity|].
  split_ands; reflexivity.
Qed.

(** A game started in 3D mode, left alone for 60 s (600 frames of 0.1 s):
    the lander has fallen more than 1000 m below the ground level and the
    game is still FLYING. *)
Lemma three_d_lander_falls_through :
  exists g0 g' l,
    game_start no_bullet no_bullet no_bullet (fun _ => 0) true = Game.Ok g0
    /\ game_run sin_zero cos_zero step_nothing no_bullet no_bullet no_bullet (fun _ => 0)
         2 g0 (repeat (GameUpdate (F32.lit 1 10)) 600) = Game.Ok g'
    /\ Game.mGameState g' = Game.FLYING
    /\ Game.GetLander g' = Some l
    /\ F32.ltb (at1 (Lander.GetPosition l)) (F32.of_int (-1000)) = true.
Proof.
  destruct (three_d_game_never_ends sin_zero cos_zero step_nothing
              no_bullet no_bullet no_bullet (fun _ => 0)
              (repeat (GameUpdate (F32.lit 1 10)) 600) 0)
    as (g0 & g' & l & Hstart & Hrun & Hfly & Hl & _).
  - apply updates_do_not_switch_mode.
  - exists g0, g', l.
    split; [exact Hstart|]. split; [exact Hrun|]. split; [exact Hfly|]. split; [exact Hl|].
    vm_compute in Hstart. injection Hstart as <-.
    vm_compute in Hrun. injection Hrun as <-.
    vm_compute in Hl. injection Hl as <-.
    vm_compute. reflexivity.
Defined.
